(** * snaptheplant-backend: care scheduling, entitlement and storage

    A shallow embedding of the server side of the plant-care application:
    the row types of [shared/schema.ts], the two implementations of the
    [IStorage] interface ([MemStorage], [DatabaseStorage]), the Express
    route handlers of [registerRoutes] that schedule care actions and meter
    plant identifications, and the hourly trial sweep.

    Conventions of the model.
    - A [Date] is its [getTime()] value: milliseconds since the epoch.
      Calendar arithmetic ([setDate(getDate() + n)]) is done in UTC, where
      a day is always [msPerDay] milliseconds long.
    - One request (or one sweep tick) is served at one reading of the
      clock: every [new Date()] inside it yields the same instant.
    - A nullable column, or a property that may be absent from an object,
      is an [option]; [None] stands for both [null] and [undefined].  Where
      the code tells the two apart (the default of a destructured
      property), the property is an [option] of an [option].
    - Numbers are whole numbers.  A [Date] holds at most [Js.maxTime]
      milliseconds on either side of the epoch, and a column holds what
      its type allows ([Column]); a statement that depends on this for a
      value that comes from the caller says so in a hypothesis.
    - A table of the database is a bag of rows, kept here as the list of
      its rows in one order.  A [SELECT] without [ORDER BY] promises no
      order (PostgreSQL lists an updated row last), so a statement about
      the list a query of the database answers is up to permutation.
    - Failures of the database connection itself are not modelled. *)

From Stdlib Require Import ZArith List String Ascii Bool Lia.
From Stdlib Require Import Sorted Permutation.
Import ListNotations.

#[local] Open Scope string_scope.
#[local] Open Scope list_scope.
#[local] Open Scope Z_scope.

(** ** JavaScript values *)

Module Js.

Definition Date := Z.

(** [1000 * 60 * 60 * 24] *)
Definition msPerDay : Z := 1000 * 60 * 60 * 24.

(** [d.setDate(d.getDate() + n)], as long as the result is within the
    range of [Date] ([validTime] below); beyond it [setDate] leaves an
    Invalid Date. *)
Definition addDays (d : Date) (n : Z) : Date := d + n * msPerDay.

(** [Math.ceil(x / d)] for a positive divisor [d]. *)
Definition ceilDiv (x d : Z) : Z := - ((- x) / d).

(** Truthiness of a number: [0] is falsy. *)
Definition truthyNum (n : Z) : bool := negb (n =? 0).

(** Truthiness of a possibly absent number. *)
Definition truthyOptNum (o : option Z) : bool :=
  match o with Some n => truthyNum n | None => false end.

(** Truthiness of a string: the empty string is falsy. *)
Definition truthyStr (s : string) : bool := negb (s =? "")%string.

(** Truthiness of a possibly absent string. *)
Definition truthyOptStr (o : option string) : bool :=
  match o with Some s => truthyStr s | None => false end.

(** Truthiness of a possibly absent boolean. *)
Definition truthyOptBool (o : option bool) : bool :=
  match o with Some b => b | None => false end.

(** [{...a, k: patch}] for one property: a present value overrides. *)
Definition override {A} (old : A) (patch : option A) : A :=
  match patch with Some v => v | None => old end.

(** The same for a nullable property. *)
Definition overrideOpt {A} (old : option A) (patch : option A) : option A :=
  match patch with Some v => Some v | None => old end.

(** ASCII part of [String.prototype.toLowerCase]. *)
Definition lowerAscii (c : ascii) : ascii :=
  let n := nat_of_ascii c in
  if andb (Nat.leb 65 n) (Nat.leb n 90) then ascii_of_nat (n + 32) else c.

Fixpoint toLowerCase (s : string) : string :=
  match s with
  | EmptyString => EmptyString
  | String c r => String (lowerAscii c) (toLowerCase r)
  end.

(** [s.includes(sub)] *)
Fixpoint includes (sub s : string) : bool :=
  if String.prefix sub s then true
  else match s with
       | EmptyString => false
       | String _ r => includes sub r
       end.

(** The time values of a [Date]: 8.64e15 milliseconds on either side of
    the epoch. *)
Definition maxTime : Z := 8640000000000000.

Definition validTime (t : Z) : bool := (- maxTime <=? t) && (t <=? maxTime).

(** [const { k = d } = body]: the default stands in for an absent
    property ([None]) and not for [null] ([Some None]). *)
Definition defaulting (d : Z) (v : option (option Z)) : option Z :=
  match v with
  | None => Some d
  | Some given => given
  end.

(** [ToNumber] of a number or [null], as in [n + v]: [null] counts as 0. *)
Definition toNumber (v : option Z) : Z :=
  match v with
  | Some n => n
  | None => 0
  end.

End Js.

(** ** What a column of the database holds

    The values a statement of the database accepts for a column of the
    given type; it throws for any other. *)

Module Column.

(** [integer]: a 32-bit signed integer. *)
Definition integer (n : Z) : bool := (-2147483648 <=? n) && (n <=? 2147483647).

(** [real]: the whole numbers a 32-bit float holds exactly. *)
Definition real (n : Z) : bool := (-16777216 <=? n) && (n <=? 16777216).

(** [timestamp]: from 4714-11-24 BC on; every later [Date] fits. *)
Definition timestamp (t : Js.Date) : bool :=
  (-210866803200000 <=? t) && (t <=? Js.maxTime).

(** [text]: any text without the character of code 0. *)
Definition text (s : string) : bool :=
  negb (Js.includes (String Ascii.zero EmptyString) s).

Definition nullable {A} (holds : A -> bool) (v : option A) : bool :=
  match v with
  | Some a => holds a
  | None => true
  end.

End Column.

(** ** Row types ([shared/schema.ts]) *)

Module User.
Record t := mk {
  id : Z;
  username : string;
  password : string;
  email : string;
  firstName : option string;
  lastName : option string;
  subscriptionType : string;
  identificationsRemaining : Z;
  stripeCustomerId : option string;
  stripeSubscriptionId : option string;
  trialEndDate : option Js.Date;
  isBetaTester : option bool
}.

(** [Partial<User>], for the properties the callers of [updateUser] pass. *)
Record patch := mkPatch {
  p_subscriptionType : option string;
  p_identificationsRemaining : option Z;
  p_trialEndDate : option Js.Date;
  p_isBetaTester : option bool
}.

Definition noPatch : patch := mkPatch None None None None.

(** [{ ...user, ...userData }], and also [SET] of the columns given. *)
Definition assign (u : t) (d : patch) : t :=
  {| id := id u;
     username := username u;
     password := password u;
     email := email u;
     firstName := firstName u;
     lastName := lastName u;
     subscriptionType := Js.override (subscriptionType u) (p_subscriptionType d);
     identificationsRemaining :=
       Js.override (identificationsRemaining u) (p_identificationsRemaining d);
     stripeCustomerId := stripeCustomerId u;
     stripeSubscriptionId := stripeSubscriptionId u;
     trialEndDate := Js.overrideOpt (trialEndDate u) (p_trialEndDate d);
     isBetaTester := Js.overrideOpt (isBetaTester u) (p_isBetaTester d) |}.

(** [{ ...user, stripeCustomerId, stripeSubscriptionId,
       subscriptionType: "premium" }], and [SET] of these three columns. *)
Definition withStripeInfo (u : t) (customer subscription : string) : t :=
  {| id := id u;
     username := username u;
     password := password u;
     email := email u;
     firstName := firstName u;
     lastName := lastName u;
     subscriptionType := "premium";
     identificationsRemaining := identificationsRemaining u;
     stripeCustomerId := Some customer;
     stripeSubscriptionId := Some subscription;
     trialEndDate := trialEndDate u;
     isBetaTester := isBetaTester u |}.
End User.

Module Plant.
Record t := mk {
  id : Z;
  userId : Z;
  name : string;
  scientificName : option string;
  imageUrl : option string;
  dateAdded : option Js.Date;
  waterFrequency : Z;
  lastWatered : option Js.Date;
  fertilizeFrequency : option Z;
  lastFertilized : option Js.Date;
  lightNeeds : option string;
  notes : option string;
  careHealth : option Z;
  isPublic : option bool
}.

(** [InsertPlant]: a plant without its [id]. *)
Record insert := mkInsert {
  i_userId : Z;
  i_name : string;
  i_scientificName : option string;
  i_imageUrl : option string;
  i_dateAdded : option Js.Date;
  i_waterFrequency : Z;
  i_lastWatered : option Js.Date;
  i_fertilizeFrequency : option Z;
  i_lastFertilized : option Js.Date;
  i_lightNeeds : option string;
  i_notes : option string;
  i_careHealth : option Z;
  i_isPublic : option bool
}.

(** [{ ...req.body, userId }] *)
Definition withUserId (i : insert) (uid : Z) : insert :=
  {| i_userId := uid;
     i_name := i_name i;
     i_scientificName := i_scientificName i;
     i_imageUrl := i_imageUrl i;
     i_dateAdded := i_dateAdded i;
     i_waterFrequency := i_waterFrequency i;
     i_lastWatered := i_lastWatered i;
     i_fertilizeFrequency := i_fertilizeFrequency i;
     i_lastFertilized := i_lastFertilized i;
     i_lightNeeds := i_lightNeeds i;
     i_notes := i_notes i;
     i_careHealth := i_careHealth i;
     i_isPublic := i_isPublic i |}.

(** [{ ...insertPlant, id }] *)
Definition ofInsert (i : insert) (new_id : Z) : t :=
  {| id := new_id;
     userId := i_userId i;
     name := i_name i;
     scientificName := i_scientificName i;
     imageUrl := i_imageUrl i;
     dateAdded := i_dateAdded i;
     waterFrequency := i_waterFrequency i;
     lastWatered := i_lastWatered i;
     fertilizeFrequency := i_fertilizeFrequency i;
     lastFertilized := i_lastFertilized i;
     lightNeeds := i_lightNeeds i;
     notes := i_notes i;
     careHealth := i_careHealth i;
     isPublic := i_isPublic i |}.

(** The column defaults of the [plants] table: [date_added] defaults to
    now, [care_health] to 100, [is_public] to false. *)
Definition withDefaults (now : Js.Date) (p : t) : t :=
  {| id := id p;
     userId := userId p;
     name := name p;
     scientificName := scientificName p;
     imageUrl := imageUrl p;
     dateAdded := Some (Js.override now (dateAdded p));
     waterFrequency := waterFrequency p;
     lastWatered := lastWatered p;
     fertilizeFrequency := fertilizeFrequency p;
     lastFertilized := lastFertilized p;
     lightNeeds := lightNeeds p;
     notes := notes p;
     careHealth := Some (Js.override 100 (careHealth p));
     isPublic := Some (Js.override false (isPublic p)) |}.

(** [Partial<Plant>]; the [id] is never among the properties passed. *)
Record patch := mkPatch {
  p_name : option string;
  p_scientificName : option string;
  p_imageUrl : option string;
  p_waterFrequency : option Z;
  p_lastWatered : option Js.Date;
  p_fertilizeFrequency : option Z;
  p_lastFertilized : option Js.Date;
  p_lightNeeds : option string;
  p_notes : option string;
  p_careHealth : option Z;
  p_isPublic : option bool
}.

Definition noPatch : patch :=
  mkPatch None None None None None None None None None None None.

(** [{ lastWatered: now, careHealth: 100 }] *)
Definition wateredPatch (now : Js.Date) : patch :=
  mkPatch None None None None (Some now) None None None None (Some 100) None.

(** [{ lastFertilized: now }] *)
Definition fertilizedPatch (now : Js.Date) : patch :=
  mkPatch None None None None None None (Some now) None None None None.

(** [{ ...plant, ...plantData }], and also [SET] of the columns given. *)
Definition assign (p : t) (d : patch) : t :=
  {| id := id p;
     userId := userId p;
     name := Js.override (name p) (p_name d);
     scientificName := Js.overrideOpt (scientificName p) (p_scientificName d);
     imageUrl := Js.overrideOpt (imageUrl p) (p_imageUrl d);
     dateAdded := dateAdded p;
     waterFrequency := Js.override (waterFrequency p) (p_waterFrequency d);
     lastWatered := Js.overrideOpt (lastWatered p) (p_lastWatered d);
     fertilizeFrequency :=
       Js.overrideOpt (fertilizeFrequency p) (p_fertilizeFrequency d);
     lastFertilized := Js.overrideOpt (lastFertilized p) (p_lastFertilized d);
     lightNeeds := Js.overrideOpt (lightNeeds p) (p_lightNeeds d);
     notes := Js.overrideOpt (notes p) (p_notes d);
     careHealth := Js.overrideOpt (careHealth p) (p_careHealth d);
     isPublic := Js.overrideOpt (isPublic p) (p_isPublic d) |}.
End Plant.

Module CareAction.
Record t := mk {
  id : Z;
  plantId : Z;
  userId : Z;
  actionType : string;
  dueDate : Js.Date;
  completedAt : option Js.Date;
  isCompleted : option bool
}.

(** [InsertCareAction]: a care action without its [id]. *)
Record insert := mkInsert {
  i_plantId : Z;
  i_userId : Z;
  i_actionType : string;
  i_dueDate : Js.Date;
  i_completedAt : option Js.Date;
  i_isCompleted : option bool
}.

(** [{ ...req.body, userId }] *)
Definition withUserId (i : insert) (uid : Z) : insert :=
  {| i_plantId := i_plantId i;
     i_userId := uid;
     i_actionType := i_actionType i;
     i_dueDate := i_dueDate i;
     i_completedAt := i_completedAt i;
     i_isCompleted := i_isCompleted i |}.

(** [{ ...insertCareAction, id }] *)
Definition ofInsert (i : insert) (new_id : Z) : t :=
  {| id := new_id;
     plantId := i_plantId i;
     userId := i_userId i;
     actionType := i_actionType i;
     dueDate := i_dueDate i;
     completedAt := i_completedAt i;
     isCompleted := i_isCompleted i |}.

(** The column default of the [care_actions] table: [is_completed]
    defaults to false. *)
Definition withDefaults (a : t) : t :=
  {| id := id a;
     plantId := plantId a;
     userId := userId a;
     actionType := actionType a;
     dueDate := dueDate a;
     completedAt := completedAt a;
     isCompleted := Some (Js.override false (isCompleted a)) |}.

(** [Partial<CareAction>], for the properties the callers pass. *)
Record patch := mkPatch {
  p_completedAt : option Js.Date;
  p_isCompleted : option bool
}.

(** [{ isCompleted: true, completedAt: now }] *)
Definition completedPatch (now : Js.Date) : patch :=
  mkPatch (Some now) (Some true).

(** [{ ...careAction, ...careActionData }], and [SET] of the columns. *)
Definition assign (a : t) (d : patch) : t :=
  {| id := id a;
     plantId := plantId a;
     userId := userId a;
     actionType := actionType a;
     dueDate := dueDate a;
     completedAt := Js.overrideOpt (completedAt a) (p_completedAt d);
     isCompleted := Js.overrideOpt (isCompleted a) (p_isCompleted d) |}.

(** The object literal the routes pass to [createCareAction]. *)
Definition scheduled (plant user : Z) (kind : string) (due : Js.Date) : insert :=
  mkInsert plant user kind due None (Some false).

(** [a.actionType === kind && !a.isCompleted] *)
Definition pendingOfKind (kind : string) (a : t) : bool :=
  (actionType a =? kind)%string && negb (Js.truthyOptBool (isCompleted a)).
End CareAction.

(** ** Collections

    A row is held under its own [id], in a [Map<number, Row>] by
    [MemStorage] and in a table with a serial primary key by the database.
    Both are modelled as the list of their rows in insertion order;
    [JsMap] reads and writes such a list the way a JavaScript [Map] does,
    [Sql] the way the statements built with drizzle do. *)

Class Keyed (Row : Type) := key : Row -> Z.

#[global] Instance Keyed_User : Keyed User.t := User.id.
#[global] Instance Keyed_Plant : Keyed Plant.t := Plant.id.
#[global] Instance Keyed_CareAction : Keyed CareAction.t := CareAction.id.

Module JsMap.
Section JsMap.
Context {Row : Type} `{Keyed Row}.

(** [m.get(k)] *)
Definition get (k : Z) (m : list Row) : option Row :=
  find (fun r => key r =? k) m.

(** [m.set(k, v)]: a present key keeps its place. *)
Fixpoint set (k : Z) (v : Row) (m : list Row) : list Row :=
  match m with
  | [] => [v]
  | r :: m' => if key r =? k then v :: m' else r :: set k v m'
  end.

(** [m.delete(k)]: the rows left, and whether the key was present. *)
Fixpoint delete (k : Z) (m : list Row) : bool * list Row :=
  match m with
  | [] => (false, [])
  | r :: m' =>
      if key r =? k then (true, m')
      else let (found, rest) := delete k m' in (found, r :: rest)
  end.

(** [Array.from(m.values())] *)
Definition values (m : list Row) : list Row := m.
End JsMap.
End JsMap.

Module Sql.
Section Sql.
Context {Row : Type}.

(** [db.select().from(t).where(cond)] *)
Definition select (cond : Row -> bool) (t : list Row) : list Row :=
  filter cond t.

(** [db.update(t).set(..).where(cond).returning()]: the rows written,
    and the table afterwards.  (drizzle refuses a [set] that names no
    column; the callers modelled here always name one, and no statement
    below is about an empty patch.)  The table is written here with each
    row in its place; PostgreSQL promises no place, and what is stated of
    the rows a query of the database lists is stated up to their
    order. *)
Definition update (cond : Row -> bool) (f : Row -> Row) (t : list Row)
  : list Row * list Row :=
  (map f (filter cond t), map (fun r => if cond r then f r else r) t).

(** [db.insert(t).values(row).returning()] *)
Definition insert (row : Row) (t : list Row) : list Row * list Row :=
  ([row], t ++ [row]).

(** [db.delete(t).where(cond)] *)
Definition delete (cond : Row -> bool) (t : list Row) : list Row :=
  filter (fun r => negb (cond r)) t.

(** [const [row] = await ...; return row || undefined] *)
Definition first (rows : list Row) : option Row := hd_error rows.
End Sql.

(** [eq(t.id, k)] *)
Definition idIs {Row} `{Keyed Row} (k : Z) (r : Row) : bool := key r =? k.
End Sql.

(** ** The stored state

    The three collections the scheduling and entitlement logic uses, and
    the next identifier of each: the counters of [MemStorage], the serial
    sequences of the database. *)

Module Store.
Record t := mk {
  users : list User.t;
  plants : list Plant.t;
  careActions : list CareAction.t;
  userId : Z;
  plantId : Z;
  careActionId : Z
}.

(** What [new MemStorage()] holds before its sample user is added, and
    a freshly migrated database. *)
Definition empty : t := mk [] [] [] 1 1 1.

Definition withUsers (s : t) (us : list User.t) : t :=
  mk us (plants s) (careActions s) (userId s) (plantId s) (careActionId s).

Definition withPlants (s : t) (ps : list Plant.t) : t :=
  mk (users s) ps (careActions s) (userId s) (plantId s) (careActionId s).

Definition withCareActions (s : t) (cs : list CareAction.t) : t :=
  mk (users s) (plants s) cs (userId s) (plantId s) (careActionId s).

(** [this.plantId++] / [nextval] *)
Definition bumpPlantId (s : t) : t :=
  mk (users s) (plants s) (careActions s) (userId s) (plantId s + 1)
     (careActionId s).

Definition bumpCareActionId (s : t) : t :=
  mk (users s) (plants s) (careActions s) (userId s) (plantId s)
     (careActionId s + 1).
End Store.

(** A storage method: it runs at some instant on a store and yields its
    result and the store afterwards. *)
Definition Op (A : Type) : Type := Js.Date -> Store.t -> A * Store.t.

(** ** [interface IStorage] *)

Record IStorage := {
  getUser : Z -> Op (option User.t);
  updateUser : Z -> User.patch -> Op (option User.t);
  updateUserStripeInfo : Z -> string -> string -> Op (option User.t);
  getAllUsers : Op (list User.t);
  getPlants : Z -> Op (list Plant.t);
  getPlant : Z -> Op (option Plant.t);
  createPlant : Plant.insert -> Op Plant.t;
  updatePlant : Z -> Plant.patch -> Op (option Plant.t);
  deletePlant : Z -> Op bool;
  updatePlantWatered : Z -> Op (option Plant.t);
  updatePlantFertilized : Z -> Op (option Plant.t);
  getPublicPlants : Op (list Plant.t);
  getCareActions : Z -> Op (list CareAction.t);
  getCareActionsForPlant : Z -> Op (list CareAction.t);
  getPendingCareActions : Z -> Op (list CareAction.t);
  createCareAction : CareAction.insert -> Op CareAction.t;
  updateCareAction : Z -> CareAction.patch -> Op (option CareAction.t);
  markCareActionComplete : Z -> Op (option CareAction.t);
  deleteCareAction : Z -> Op bool
}.

(** ** [class MemStorage implements IStorage] *)

Module MemStorage.

Definition getUser (id : Z) : Op (option User.t) :=
  fun _ s => (JsMap.get id (Store.users s), s).

Definition updateUser (id : Z) (userData : User.patch) : Op (option User.t) :=
  fun _ s =>
    match JsMap.get id (Store.users s) with
    | None => (None, s)
    | Some user =>
        let updatedUser := User.assign user userData in
        (Some updatedUser,
         Store.withUsers s (JsMap.set id updatedUser (Store.users s)))
    end.

Definition updateUserStripeInfo (id : Z) (stripeCustomerId stripeSubscriptionId : string)
  : Op (option User.t) :=
  fun _ s =>
    match JsMap.get id (Store.users s) with
    | None => (None, s)
    | Some user =>
        let updatedUser :=
          User.withStripeInfo user stripeCustomerId stripeSubscriptionId in
        (Some updatedUser,
         Store.withUsers s (JsMap.set id updatedUser (Store.users s)))
    end.

Definition getAllUsers : Op (list User.t) :=
  fun _ s => (JsMap.values (Store.users s), s).

Definition getPlants (userId : Z) : Op (list Plant.t) :=
  fun _ s =>
    (filter (fun plant => Plant.userId plant =? userId)
            (JsMap.values (Store.plants s)), s).

Definition getPlant (id : Z) : Op (option Plant.t) :=
  fun _ s => (JsMap.get id (Store.plants s), s).

Definition createPlant (insertPlant : Plant.insert) : Op Plant.t :=
  fun _ s =>
    let id := Store.plantId s in
    let plant := Plant.ofInsert insertPlant id in
    (plant,
     Store.withPlants (Store.bumpPlantId s) (JsMap.set id plant (Store.plants s))).

Definition updatePlant (id : Z) (plantData : Plant.patch) : Op (option Plant.t) :=
  fun _ s =>
    match JsMap.get id (Store.plants s) with
    | None => (None, s)
    | Some plant =>
        let updatedPlant := Plant.assign plant plantData in
        (Some updatedPlant,
         Store.withPlants s (JsMap.set id updatedPlant (Store.plants s)))
    end.

Definition deletePlant (id : Z) : Op bool :=
  fun _ s =>
    let (found, rest) := JsMap.delete id (Store.plants s) in
    (found, Store.withPlants s rest).

Definition updatePlantWatered (id : Z) : Op (option Plant.t) :=
  fun now s =>
    match JsMap.get id (Store.plants s) with
    | None => (None, s)
    | Some plant =>
        let updatedPlant := Plant.assign plant (Plant.wateredPatch now) in
        (Some updatedPlant,
         Store.withPlants s (JsMap.set id updatedPlant (Store.plants s)))
    end.

Definition updatePlantFertilized (id : Z) : Op (option Plant.t) :=
  fun now s =>
    match JsMap.get id (Store.plants s) with
    | None => (None, s)
    | Some plant =>
        let updatedPlant := Plant.assign plant (Plant.fertilizedPatch now) in
        (Some updatedPlant,
         Store.withPlants s (JsMap.set id updatedPlant (Store.plants s)))
    end.

Definition getPublicPlants : Op (list Plant.t) :=
  fun _ s =>
    (filter (fun plant => Js.truthyOptBool (Plant.isPublic plant))
            (JsMap.values (Store.plants s)), s).

Definition getCareActions (userId : Z) : Op (list CareAction.t) :=
  fun _ s =>
    (filter (fun action => CareAction.userId action =? userId)
            (JsMap.values (Store.careActions s)), s).

Definition getCareActionsForPlant (plantId : Z) : Op (list CareAction.t) :=
  fun _ s =>
    (filter (fun action => CareAction.plantId action =? plantId)
            (JsMap.values (Store.careActions s)), s).

Definition getPendingCareActions (userId : Z) : Op (list CareAction.t) :=
  fun _ s =>
    (filter (fun action =>
               (CareAction.userId action =? userId)
               && negb (Js.truthyOptBool (CareAction.isCompleted action)))
            (JsMap.values (Store.careActions s)), s).

Definition createCareAction (insertCareAction : CareAction.insert)
  : Op CareAction.t :=
  fun _ s =>
    let id := Store.careActionId s in
    let careAction := CareAction.ofInsert insertCareAction id in
    (careAction,
     Store.withCareActions (Store.bumpCareActionId s)
       (JsMap.set id careAction (Store.careActions s))).

Definition updateCareAction (id : Z) (careActionData : CareAction.patch)
  : Op (option CareAction.t) :=
  fun _ s =>
    match JsMap.get id (Store.careActions s) with
    | None => (None, s)
    | Some careAction =>
        let updatedCareAction := CareAction.assign careAction careActionData in
        (Some updatedCareAction,
         Store.withCareActions s
           (JsMap.set id updatedCareAction (Store.careActions s)))
    end.

Definition markCareActionComplete (id : Z) : Op (option CareAction.t) :=
  fun now s =>
    match JsMap.get id (Store.careActions s) with
    | None => (None, s)
    | Some careAction =>
        let updatedCareAction :=
          CareAction.assign careAction (CareAction.completedPatch now) in
        let s1 :=
          Store.withCareActions s
            (JsMap.set id updatedCareAction (Store.careActions s)) in
        let s2 :=
          match JsMap.get (CareAction.plantId careAction) (Store.plants s1) with
          | Some plant =>
              if (CareAction.actionType careAction =? "water")%string
              then snd (updatePlantWatered (Plant.id plant) now s1)
              else if (CareAction.actionType careAction =? "fertilize")%string
              then snd (updatePlantFertilized (Plant.id plant) now s1)
              else s1
          | None => s1
          end in
        (Some updatedCareAction, s2)
    end.

Definition deleteCareAction (id : Z) : Op bool :=
  fun _ s =>
    let (found, rest) := JsMap.delete id (Store.careActions s) in
    (found, Store.withCareActions s rest).

End MemStorage.

(** The method table of a [MemStorage] object. *)
Definition memStorage : IStorage :=
  {| getUser := MemStorage.getUser;
     updateUser := MemStorage.updateUser;
     updateUserStripeInfo := MemStorage.updateUserStripeInfo;
     getAllUsers := MemStorage.getAllUsers;
     getPlants := MemStorage.getPlants;
     getPlant := MemStorage.getPlant;
     createPlant := MemStorage.createPlant;
     updatePlant := MemStorage.updatePlant;
     deletePlant := MemStorage.deletePlant;
     updatePlantWatered := MemStorage.updatePlantWatered;
     updatePlantFertilized := MemStorage.updatePlantFertilized;
     getPublicPlants := MemStorage.getPublicPlants;
     getCareActions := MemStorage.getCareActions;
     getCareActionsForPlant := MemStorage.getCareActionsForPlant;
     getPendingCareActions := MemStorage.getPendingCareActions;
     createCareAction := MemStorage.createCareAction;
     updateCareAction := MemStorage.updateCareAction;
     markCareActionComplete := MemStorage.markCareActionComplete;
     deleteCareAction := MemStorage.deleteCareAction |}.

(** ** [class DatabaseStorage implements IStorage] *)

Module DatabaseStorage.

Definition getUser (id : Z) : Op (option User.t) :=
  fun _ s => (Sql.first (Sql.select (Sql.idIs id) (Store.users s)), s).

Definition updateUser (id : Z) (userData : User.patch) : Op (option User.t) :=
  fun _ s =>
    let (written, table) :=
      Sql.update (Sql.idIs id) (fun u => User.assign u userData) (Store.users s) in
    (Sql.first written, Store.withUsers s table).

Definition updateUserStripeInfo (id : Z) (stripeCustomerId stripeSubscriptionId : string)
  : Op (option User.t) :=
  fun _ s =>
    let (written, table) :=
      Sql.update (Sql.idIs id)
        (fun u => User.withStripeInfo u stripeCustomerId stripeSubscriptionId)
        (Store.users s) in
    (Sql.first written, Store.withUsers s table).

Definition getAllUsers : Op (list User.t) :=
  fun _ s => (Sql.select (fun _ => true) (Store.users s), s).

Definition getPlants (userId : Z) : Op (list Plant.t) :=
  fun _ s => (Sql.select (fun p => Plant.userId p =? userId) (Store.plants s), s).

Definition getPlant (id : Z) : Op (option Plant.t) :=
  fun _ s => (Sql.first (Sql.select (Sql.idIs id) (Store.plants s)), s).

Definition createPlant (insertPlant : Plant.insert) : Op Plant.t :=
  fun now s =>
    let row := Plant.withDefaults now (Plant.ofInsert insertPlant (Store.plantId s)) in
    let (_, table) := Sql.insert row (Store.plants s) in
    (row, Store.withPlants (Store.bumpPlantId s) table).

Definition updatePlant (id : Z) (plantData : Plant.patch) : Op (option Plant.t) :=
  fun _ s =>
    let (written, table) :=
      Sql.update (Sql.idIs id) (fun p => Plant.assign p plantData) (Store.plants s) in
    (Sql.first written, Store.withPlants s table).

Definition deletePlant (id : Z) : Op bool :=
  fun _ s => (true, Store.withPlants s (Sql.delete (Sql.idIs id) (Store.plants s))).

Definition updatePlantWatered (id : Z) : Op (option Plant.t) :=
  fun now s =>
    let (written, table) :=
      Sql.update (Sql.idIs id)
        (fun p => Plant.assign p (Plant.wateredPatch now)) (Store.plants s) in
    (Sql.first written, Store.withPlants s table).

Definition updatePlantFertilized (id : Z) : Op (option Plant.t) :=
  fun now s =>
    let (written, table) :=
      Sql.update (Sql.idIs id)
        (fun p => Plant.assign p (Plant.fertilizedPatch now)) (Store.plants s) in
    (Sql.first written, Store.withPlants s table).

(** [is_public = true] holds of no row whose column is null. *)
Definition getPublicPlants : Op (list Plant.t) :=
  fun _ s =>
    (Sql.select
       (fun p => match Plant.isPublic p with Some b => b | None => false end)
       (Store.plants s), s).

Definition getCareActions (userId : Z) : Op (list CareAction.t) :=
  fun _ s =>
    (Sql.select (fun a => CareAction.userId a =? userId) (Store.careActions s), s).

Definition getCareActionsForPlant (plantId : Z) : Op (list CareAction.t) :=
  fun _ s =>
    (Sql.select (fun a => CareAction.plantId a =? plantId) (Store.careActions s), s).

(** [is_completed = false] holds of no row whose column is null. *)
Definition getPendingCareActions (userId : Z) : Op (list CareAction.t) :=
  fun _ s =>
    (Sql.select
       (fun a =>
          (CareAction.userId a =? userId)
          && match CareAction.isCompleted a with
             | Some b => negb b
             | None => false
             end)
       (Store.careActions s), s).

Definition createCareAction (insertCareAction : CareAction.insert)
  : Op CareAction.t :=
  fun _ s =>
    let row :=
      CareAction.withDefaults
        (CareAction.ofInsert insertCareAction (Store.careActionId s)) in
    let (_, table) := Sql.insert row (Store.careActions s) in
    (row, Store.withCareActions (Store.bumpCareActionId s) table).

Definition updateCareAction (id : Z) (careActionData : CareAction.patch)
  : Op (option CareAction.t) :=
  fun _ s =>
    let (written, table) :=
      Sql.update (Sql.idIs id)
        (fun a => CareAction.assign a careActionData) (Store.careActions s) in
    (Sql.first written, Store.withCareActions s table).

Definition markCareActionComplete (id : Z) : Op (option CareAction.t) :=
  fun now s =>
    let (written, table) :=
      Sql.update (Sql.idIs id)
        (fun a => CareAction.assign a (CareAction.completedPatch now))
        (Store.careActions s) in
    let s1 := Store.withCareActions s table in
    match Sql.first written with
    | Some updatedCareAction =>
        let s2 :=
          if (CareAction.actionType updatedCareAction =? "water")%string
          then snd (updatePlantWatered (CareAction.plantId updatedCareAction) now s1)
          else if (CareAction.actionType updatedCareAction =? "fertilize")%string
          then snd (updatePlantFertilized (CareAction.plantId updatedCareAction) now s1)
          else s1 in
        (Some updatedCareAction, s2)
    | None => (None, s1)
    end.

Definition deleteCareAction (id : Z) : Op bool :=
  fun _ s =>
    (true,
     Store.withCareActions s (Sql.delete (Sql.idIs id) (Store.careActions s))).

End DatabaseStorage.

(** The method table of a [DatabaseStorage] object. *)
Definition databaseStorage : IStorage :=
  {| getUser := DatabaseStorage.getUser;
     updateUser := DatabaseStorage.updateUser;
     updateUserStripeInfo := DatabaseStorage.updateUserStripeInfo;
     getAllUsers := DatabaseStorage.getAllUsers;
     getPlants := DatabaseStorage.getPlants;
     getPlant := DatabaseStorage.getPlant;
     createPlant := DatabaseStorage.createPlant;
     updatePlant := DatabaseStorage.updatePlant;
     deletePlant := DatabaseStorage.deletePlant;
     updatePlantWatered := DatabaseStorage.updatePlantWatered;
     updatePlantFertilized := DatabaseStorage.updatePlantFertilized;
     getPublicPlants := DatabaseStorage.getPublicPlants;
     getCareActions := DatabaseStorage.getCareActions;
     getCareActionsForPlant := DatabaseStorage.getCareActionsForPlant;
     getPendingCareActions := DatabaseStorage.getPendingCareActions;
     createCareAction := DatabaseStorage.createCareAction;
     updateCareAction := DatabaseStorage.updateCareAction;
     markCareActionComplete := DatabaseStorage.markCareActionComplete;
     deleteCareAction := DatabaseStorage.deleteCareAction |}.

(** [export const storage = process.env.DATABASE_URL
      ? new DatabaseStorage() : new MemStorage()] *)
Definition storageFor (DATABASE_URL : bool) : IStorage :=
  if DATABASE_URL then databaseStorage else memStorage.

(** ** Requests, responses and the outside world *)

(** The JSON bodies the modelled routes send. *)
Inductive Json :=
| JMessage (message : string)
| JUpgrade (message : string)
| JPlant (plant : option Plant.t)
| JCareAction (action : CareAction.t)
| JIdentification (data : string)
| JTrialStarted (trialEndDate : Js.Date)
| JAdminTrial (user : User.t) (trialEndDate : Js.Date).

Record Response := respond { status : Z; body : Json }.

(** The e-mails handed to the delivery service. *)
Inductive Mail :=
| TrialStartedEmail (to : string) (trialEndDate : Js.Date)
| TrialEndingEmail (to : string) (daysRemaining : Z).

(** What a request can touch: the store behind [storage], the e-mails
    handed over so far, and the images posted to the recognition API so
    far (both newest last). *)
Record World := mkWorld {
  store : Store.t;
  outbox : list Mail;
  identifyCalls : list string
}.

Definition withStore (w : World) (s : Store.t) : World :=
  mkWorld s (outbox w) (identifyCalls w).

(** ** The body of an [async (req, res) => { try { .. } catch { .. } }] *)

Module Handler.

(** A statement runs on to the next one, or returns a response, or
    throws. *)
Inductive step (A : Type) :=
| Next (a : A)
| Return (r : Response)
| Throw.
Arguments Next {A} a.
Arguments Return {A} r.
Arguments Throw {A}.

Definition t (A : Type) : Type := World -> step A * World.

Definition ret {A} (a : A) : t A := fun w => (Next a, w).

Definition bind {A B} (m : t A) (k : A -> t B) : t B :=
  fun w =>
    match m w with
    | (Next a, w') => k a w'
    | (Return r, w') => (Return r, w')
    | (Throw, w') => (Throw, w')
    end.

(** [return res.status(code).json(body)] *)
Definition reply {A} (code : Z) (b : Json) : t A :=
  fun w => (Return (respond code b), w).

(** [throw ..], or a rejected promise that is awaited. *)
Definition throw {A} : t A := fun w => (Throw, w).

(** [await storage.method(..)] at the instant [now]. *)
Definition await {A} (now : Js.Date) (op : Op A) : t A :=
  fun w => let (a, s) := op now (store w) in (Next a, withStore w s).

(** [sendXEmail(..).then(..).catch(..)]: handed over, not awaited. *)
Definition send (m : Mail) : t unit :=
  fun w => (Next tt, mkWorld (store w) (outbox w ++ [m]) (identifyCalls w)).

(** [for (const x of xs) { await body(x) }] *)
Fixpoint forEach {A} (xs : list A) (body : A -> t unit) : t unit :=
  match xs with
  | [] => ret tt
  | x :: rest => bind (body x) (fun _ => forEach rest body)
  end.

(** [if (c) { .. }] *)
Definition when (c : bool) (m : t unit) : t unit := if c then m else ret tt.

(** The whole handler: the [catch] block answers for a throw. *)
Definition run (m : t Response) (caught : Response) (w : World)
  : Response * World :=
  match m w with
  | (Next r, w') => (r, w')
  | (Return r, w') => (r, w')
  | (Throw, w') => (caught, w')
  end.

End Handler.

Declare Scope handler_scope.
Delimit Scope handler_scope with handler.
Notation "x <- m ;; k" := (Handler.bind m (fun x => k))
  (at level 61, m at next level, right associativity) : handler_scope.
Notation "m ;; k" := (Handler.bind m (fun _ => k))
  (at level 61, right associativity) : handler_scope.

(** ** The routes of [registerRoutes]

    Each handler is given what the middlewares have put on the request:
    [me] is [req.user], the row of the logged-in user, resolved from the
    session before the handler runs.  Path parameters are already parsed,
    and a body is [None] when its zod schema rejects it. *)

Section Routes.

Variable storage : IStorage.
Variable now : Js.Date.

#[local] Open Scope handler_scope.

#[local] Abbreviation await := (Handler.await now).

(** [if (plant.waterFrequency) { .. createCareAction(..) }] and its
    fertilize twin: the next action of [kind], [frequency] days from
    now, for a frequency that is present and not zero. *)
Definition scheduleNext (me : User.t) (plant : Z) (kind : string)
    (frequency : option Z) : Handler.t unit :=
  match frequency with
  | Some days =>
      Handler.when (Js.truthyNum days)
        (let dueDate := Js.addDays now days in
         _ <- await (createCareAction storage
                       (CareAction.scheduled plant (User.id me) kind dueDate)) ;;
         Handler.ret tt)
  | None => Handler.ret tt
  end.

(** [app.post("/api/plants")] *)
Definition postPlant (me : User.t) (body : option Plant.insert)
  : World -> Response * World :=
  Handler.run
    (match body with
     | None => Handler.reply 400 (JMessage "Invalid data")
     | Some b =>
         let validatedData := Plant.withUserId b (User.id me) in
         newPlant <- await (createPlant storage validatedData) ;;
         scheduleNext me (Plant.id newPlant) "water"
           (Some (Plant.i_waterFrequency validatedData)) ;;
         scheduleNext me (Plant.id newPlant) "fertilize"
           (Plant.i_fertilizeFrequency validatedData) ;;
         Handler.ret (respond 201 (JPlant (Some newPlant)))
     end)
    (respond 500 (JMessage "Error creating plant")).

(** [app.put("/api/plants/:id")] *)
Definition putPlant (me : User.t) (plantId : Z) (body : option Plant.patch)
  : World -> Response * World :=
  Handler.run
    (plant <- await (getPlant storage plantId) ;;
     match plant with
     | None => Handler.reply 404 (JMessage "Plant not found")
     | Some plant =>
         if negb (Plant.userId plant =? User.id me)
         then Handler.reply 403 (JMessage "Not authorized to update this plant")
         else
           match body with
           | None => Handler.reply 400 (JMessage "Invalid data")
           | Some validatedData =>
               updatedPlant <- await (updatePlant storage plantId validatedData) ;;
               Handler.ret (respond 200 (JPlant updatedPlant))
           end
     end)
    (respond 500 (JMessage "Error updating plant")).

(** [app.delete("/api/plants/:id")] *)
Definition deletePlantRoute (me : User.t) (plantId : Z)
  : World -> Response * World :=
  Handler.run
    (plant <- await (getPlant storage plantId) ;;
     match plant with
     | None => Handler.reply 404 (JMessage "Plant not found")
     | Some plant =>
         if negb (Plant.userId plant =? User.id me)
         then Handler.reply 403 (JMessage "Not authorized to delete this plant")
         else
           careActions <- await (getCareActionsForPlant storage plantId) ;;
           Handler.forEach careActions
             (fun action =>
                _ <- await (deleteCareAction storage (CareAction.id action)) ;;
                Handler.ret tt) ;;
           success <- await (deletePlant storage plantId) ;;
           if success : bool
           then Handler.ret (respond 200 (JMessage "Plant deleted successfully"))
           else Handler.ret (respond 500 (JMessage "Error deleting plant"))
     end)
    (respond 500 (JMessage "Error deleting plant")).

(** The common body of [app.post("/api/plants/:id/water")] and
    [app.post("/api/plants/:id/fertilize")]. *)
Definition careNow (me : User.t) (plantId : Z) (kind : string)
    (record : Z -> Op (option Plant.t)) (frequency : Plant.t -> option Z)
    (forbidden failed : string) : World -> Response * World :=
  Handler.run
    (plant <- await (getPlant storage plantId) ;;
     match plant with
     | None => Handler.reply 404 (JMessage "Plant not found")
     | Some plant =>
         if negb (Plant.userId plant =? User.id me)
         then Handler.reply 403 (JMessage forbidden)
         else
           updatedPlant <- await (record plantId) ;;
           careActions <- await (getCareActionsForPlant storage plantId) ;;
           let pending := filter (CareAction.pendingOfKind kind) careActions in
           Handler.forEach pending
             (fun action =>
                _ <- await (markCareActionComplete storage (CareAction.id action)) ;;
                Handler.ret tt) ;;
           scheduleNext me (Plant.id plant) kind (frequency plant) ;;
           Handler.ret (respond 200 (JPlant updatedPlant))
     end)
    (respond 500 (JMessage failed)).

(** [app.post("/api/plants/:id/water")] *)
Definition waterPlant (me : User.t) (plantId : Z) : World -> Response * World :=
  careNow me plantId "water" (updatePlantWatered storage)
    (fun plant => Some (Plant.waterFrequency plant))
    "Not authorized to water this plant" "Error watering plant".

(** [app.post("/api/plants/:id/fertilize")] *)
Definition fertilizePlant (me : User.t) (plantId : Z)
  : World -> Response * World :=
  careNow me plantId "fertilize" (updatePlantFertilized storage)
    Plant.fertilizeFrequency
    "Not authorized to fertilize this plant" "Error fertilizing plant".

(** [app.post("/api/care-actions")], from the outcome of
    [insertCareActionSchema.parse] on: [None] for a [ZodError].  What the
    body of a request makes of it is [postCareActionRequest] below. *)
Definition postCareAction (me : User.t) (body : option CareAction.insert)
  : World -> Response * World :=
  Handler.run
    (match body with
     | None => Handler.reply 400 (JMessage "Invalid data")
     | Some b =>
         let validatedData := CareAction.withUserId b (User.id me) in
         plant <- await (getPlant storage (CareAction.i_plantId validatedData)) ;;
         let owned :=
           match plant with
           | Some plant => Plant.userId plant =? User.id me
           | None => false
           end in
         if negb owned
         then Handler.reply 403
                (JMessage "Not authorized to create care action for this plant")
         else
           newCareAction <- await (createCareAction storage validatedData) ;;
           Handler.ret (respond 201 (JCareAction newCareAction))
     end)
    (respond 500 (JMessage "Error creating care action")).

(** The two branches of [/complete]: record the care on the plant, read
    the plant back, and schedule the next action if it is still there. *)
Definition recordAndReschedule (me : User.t) (action : CareAction.t)
    (kind : string) (record : Z -> Op (option Plant.t))
    (frequency : Plant.t -> option Z) : Handler.t unit :=
  _ <- await (record (CareAction.plantId action)) ;;
  plant <- await (getPlant storage (CareAction.plantId action)) ;;
  match plant with
  | Some plant => scheduleNext me (Plant.id plant) kind (frequency plant)
  | None => Handler.ret tt
  end.

(** [app.post("/api/care-actions/:id/complete")] *)
Definition completeCareAction (me : User.t) (actionId : Z)
  : World -> Response * World :=
  Handler.run
    (action <- await (updateCareAction storage actionId
                        (CareAction.completedPatch now)) ;;
     match action with
     | None => Handler.reply 404 (JMessage "Care action not found")
     | Some action =>
         (if (CareAction.actionType action =? "water")%string
          then recordAndReschedule me action "water"
                 (updatePlantWatered storage)
                 (fun plant => Some (Plant.waterFrequency plant))
          else if (CareAction.actionType action =? "fertilize")%string
          then recordAndReschedule me action "fertilize"
                 (updatePlantFertilized storage) Plant.fertilizeFrequency
          else Handler.ret tt) ;;
         Handler.ret (respond 200 (JCareAction action))
     end)
    (respond 500 (JMessage "Error completing care action")).

Definition upgradeMessage : string :=
  "No plant identifications remaining. Upgrade to premium for unlimited identifications.".

(** [await axios.post('https://api.plant.id/v2/identify', ..)]: the call
    is recorded; [plantId image] is the response data, or [None] when
    the request fails and the promise rejects. *)
Definition axiosPost (plantId : string -> option string) (image : string)
  : Handler.t string :=
  fun w =>
    let w' := mkWorld (store w) (outbox w) (identifyCalls w ++ [image]) in
    match plantId image with
    | Some data => (Handler.Next data, w')
    | None => (Handler.Throw, w')
    end.

(** [app.post("/api/identify")]; [file] is [req.file], [apiKey] the value
    of [PLANT_ID_API_KEY || VITE_PLANT_ID_API_KEY] in the environment. *)
Definition identify (plantId : string -> option string) (apiKey : option string)
    (me : User.t) (file : option string) : World -> Response * World :=
  Handler.run
    (match file with
     | None => Handler.reply 400 (JMessage "No image provided")
     | Some image =>
         user <- await (getUser storage (User.id me)) ;;
         match user with
         | None => Handler.reply 404 (JMessage "User not found")
         | Some user =>
             if (User.subscriptionType user =? "free")%string
                && (User.identificationsRemaining user <=? 0)
             then Handler.reply 403 (JUpgrade upgradeMessage)
             else
               if negb (Js.truthyOptStr apiKey)
               then Handler.reply 500 (JMessage "Plant.id API key not configured")
               else
                 data <- axiosPost plantId image ;;
                 Handler.when (User.subscriptionType user =? "free")%string
                   (_ <- await (updateUser storage (User.id user)
                                  (User.mkPatch None
                                     (Some (User.identificationsRemaining user - 1))
                                     None None)) ;;
                    Handler.ret tt) ;;
                 Handler.ret (respond 200 (JIdentification data))
         end
     end)
    (respond 500 (JMessage "Error identifying plant")).

(** [app.post("/api/start-free-trial")].  [subscriptionType] is a string
    in [User], so the second conjunct of the guard,
    [user.subscriptionType !== null], always holds.  The line appended to
    the analytics log file is not part of the model. *)
Definition startFreeTrial (me : User.t) : World -> Response * World :=
  Handler.run
    (if negb (User.subscriptionType me =? "free")%string
     then Handler.reply 400
            (JMessage "You already have an active subscription or trial")
     else
       let trialEndDate := Js.addDays now 3 in
       updatedUser <- await (updateUser storage (User.id me)
                               (User.mkPatch (Some "trial") None
                                  (Some trialEndDate) None)) ;;
       match updatedUser with
       | None => Handler.throw
       | Some _ =>
           Handler.when (Js.truthyStr (User.email me))
             (Handler.send (TrialStartedEmail (User.email me) trialEndDate)) ;;
           Handler.ret (respond 200 (JTrialStarted trialEndDate))
       end)
    (respond 500 (JMessage "Server error starting free trial")).

(** The [isAdmin] middleware. *)
Definition isAdmin (me : User.t) : bool :=
  Js.includes "admin" (Js.toLowerCase (User.username me))
  || (Js.truthyStr (User.email me)
      && Js.includes "admin" (Js.toLowerCase (User.email me))).

(** [app.post("/api/admin/start-trial")] behind [isAdmin]; [userId] and
    [days] are the properties of the body.  [days] is absent ([None]),
    [null] ([Some None]) or a number: the default 3 stands in for an
    absent [days] only, and a [null] adds no day.  The end of the trial is
    a [Date] as long as it is within the range ([Js.addDays]). *)
Definition adminStartTrial (me : User.t) (userId : option Z)
    (days : option (option Z)) : World -> Response * World :=
  Handler.run
    (if negb (isAdmin me)
     then Handler.reply 403 (JMessage "Admin access required")
     else
       match userId with
       | None => Handler.reply 400 (JMessage "User ID is required")
       | Some userId =>
           if negb (Js.truthyNum userId)
           then Handler.reply 400 (JMessage "User ID is required")
           else
             let trialEndDate :=
               Js.addDays now (Js.toNumber (Js.defaulting 3 days)) in
             updatedUser <- await (updateUser storage userId
                                     (User.mkPatch (Some "trial") (Some 10)
                                        (Some trialEndDate) None)) ;;
             match updatedUser with
             | None => Handler.reply 404 (JMessage "User not found")
             | Some updatedUser =>
                 user <- await (getUser storage userId) ;;
                 match user with
                 | Some user =>
                     Handler.when (Js.truthyStr (User.email user))
                       (Handler.send
                          (TrialStartedEmail (User.email user) trialEndDate))
                 | None => Handler.ret tt
                 end ;;
                 Handler.ret (respond 200 (JAdminTrial updatedUser trialEndDate))
             end
       end)
    (respond 500 (JMessage "Error starting trial")).

End Routes.

(** ** The hourly trial sweep ([setInterval])

    The sweep selects the trial users from [db] itself and writes through
    [storage]; it is modelled where both are the database. *)

Module Sweep.

(** [Math.ceil((trialEndDate.getTime() - now.getTime()) / (1000 * 60 * 60 * 24))] *)
Definition daysRemaining (now trialEndDate : Js.Date) : Z :=
  Js.ceilDiv (trialEndDate - now) Js.msPerDay.

(** The body of [for (const user of trialUsers)]. *)
Definition visit (now : Js.Date) (user : User.t) : Handler.t unit :=
  (if negb (Js.truthyStr (User.email user)) then Handler.ret tt
   else
     match User.trialEndDate user with
     | None => Handler.ret tt
     | Some trialEndDate =>
         let days := daysRemaining now trialEndDate in
         Handler.when ((days =? 1) || (days =? 2))
           (Handler.send (TrialEndingEmail (User.email user) days)) ;;
         Handler.when (days <=? 0)
           (_ <- Handler.await now
                   (updateUser databaseStorage (User.id user)
                      (User.mkPatch (Some "free") (Some 3) None None)) ;;
            Handler.ret tt)
     end)%handler.

(** One tick. *)
Definition tick (now : Js.Date) (w : World) : World :=
  let trialUsers :=
    Sql.select (fun u => (User.subscriptionType u =? "trial")%string)
               (Store.users (store w)) in
  snd (Handler.forEach trialUsers (visit now) w).

End Sweep.

(** ** Vocabulary of the statements *)

Module Table.
Section Table.
Context {Row : Type} `{Keyed Row}.

(** The row held under [k], if any. *)
Definition lookup (k : Z) (rows : list Row) : option Row :=
  find (fun r => key r =? k) rows.

(** [f] applied to the rows held under [k], every other row kept. *)
Definition modify (k : Z) (f : Row -> Row) (rows : list Row) : list Row :=
  map (fun r => if key r =? k then f r else r) rows.

(** The rows not held under [k]. *)
Definition remove (k : Z) (rows : list Row) : list Row :=
  filter (fun r => negb (key r =? k)) rows.

Definition keys (rows : list Row) : list Z := map key rows.
End Table.
End Table.

(** The invariant of a store: within a collection no two rows share an
    id, and every id is below the next one to be handed out.  A [Map]
    cannot hold a key twice, a primary key column cannot hold a value
    twice, and ids only come from the counters. *)
Module Invariant.

Fixpoint distinct (ks : list Z) : bool :=
  match ks with
  | [] => true
  | k :: rest => negb (existsb (Z.eqb k) rest) && distinct rest
  end.

Definition below (next : Z) (ks : list Z) : bool :=
  forallb (fun k => k <? next) ks.

Definition fresh (next : Z) (ks : list Z) : bool :=
  distinct ks && below next ks.

Definition holds (s : Store.t) : bool :=
  fresh (Store.userId s) (Table.keys (Store.users s))
  && fresh (Store.plantId s) (Table.keys (Store.plants s))
  && fresh (Store.careActionId s) (Table.keys (Store.careActions s)).

End Invariant.

Definition wf (s : Store.t) : Prop := Invariant.holds s = true.

(** The two writes a care event makes on a plant row, and the write that
    completes a care action, field by field. *)
Definition watered (now : Js.Date) (p : Plant.t) : Plant.t :=
  Plant.mk (Plant.id p) (Plant.userId p) (Plant.name p) (Plant.scientificName p)
    (Plant.imageUrl p) (Plant.dateAdded p) (Plant.waterFrequency p)
    (Some now)
    (Plant.fertilizeFrequency p) (Plant.lastFertilized p) (Plant.lightNeeds p)
    (Plant.notes p)
    (Some 100)
    (Plant.isPublic p).

Definition fertilized (now : Js.Date) (p : Plant.t) : Plant.t :=
  Plant.mk (Plant.id p) (Plant.userId p) (Plant.name p) (Plant.scientificName p)
    (Plant.imageUrl p) (Plant.dateAdded p) (Plant.waterFrequency p)
    (Plant.lastWatered p)
    (Plant.fertilizeFrequency p)
    (Some now)
    (Plant.lightNeeds p) (Plant.notes p) (Plant.careHealth p) (Plant.isPublic p).

Definition completed (now : Js.Date) (a : CareAction.t) : CareAction.t :=
  CareAction.mk (CareAction.id a) (CareAction.plantId a) (CareAction.userId a)
    (CareAction.actionType a) (CareAction.dueDate a) (Some now) (Some true).

(** The action the routes schedule: [kind] for [plant], owned by [user],
    due [days] days from [now], pending. *)
Definition nextAction (id plant user : Z) (kind : string) (now : Js.Date)
    (days : Z) : CareAction.t :=
  CareAction.mk id plant user kind (Js.addDays now days) None (Some false).

(** The rows [scheduleNext] adds: one for a frequency that is present and
    not zero, none otherwise. *)
Definition scheduledRows (id plant user : Z) (kind : string) (now : Js.Date)
    (frequency : option Z) : list CareAction.t :=
  match frequency with
  | Some days => if days =? 0 then [] else [nextAction id plant user kind now days]
  | None => []
  end.

(** A store with [rows] appended to its care actions. *)
Definition withNewCareActions (s : Store.t) (rows : list CareAction.t) : Store.t :=
  Store.mk (Store.users s) (Store.plants s) (Store.careActions s ++ rows)
    (Store.userId s) (Store.plantId s)
    (Store.careActionId s + Z.of_nat (List.length rows)).

(** What a completed action of [kind] records on its plant, and the
    cadence the plant has for [kind]. *)
Definition recordedOn (kind : string) (now : Js.Date) (p : Plant.t) : Plant.t :=
  if (kind =? "water")%string then watered now p
  else if (kind =? "fertilize")%string then fertilized now p
  else p.

Definition frequencyOf (kind : string) (p : Plant.t) : option Z :=
  if (kind =? "water")%string then Some (Plant.waterFrequency p)
  else if (kind =? "fertilize")%string then Plant.fertilizeFrequency p
  else None.

(** A user row with its quota set to [n]. *)
Definition withRemaining (n : Z) (u : User.t) : User.t :=
  User.mk (User.id u) (User.username u) (User.password u) (User.email u)
    (User.firstName u) (User.lastName u) (User.subscriptionType u)
    n
    (User.stripeCustomerId u) (User.stripeSubscriptionId u) (User.trialEndDate u)
    (User.isBetaTester u).

(** A free user with nothing left. *)
Definition exhausted (u : User.t) : bool :=
  (User.subscriptionType u =? "free")%string
  && (User.identificationsRemaining u <=? 0).

(** The world after one more image has gone to the recognition API. *)
Definition called (w : World) (image : string) : World :=
  mkWorld (store w) (outbox w) (identifyCalls w ++ [image]).

(** An [/api/identify] request with everything it depends on. *)
Record IdentifyRequest := {
  at_ : Js.Date;
  plantIdApi : string -> option string;
  apiKey_ : option string;
  who : User.t;
  file_ : option string
}.

(** Identify requests served one after the other. *)
Fixpoint identifyAll (storage : IStorage) (reqs : list IdentifyRequest)
    (w : World) : World :=
  match reqs with
  | [] => w
  | r :: rest =>
      identifyAll storage rest
        (snd (identify storage (at_ r) (plantIdApi r) (apiKey_ r) (who r)
                (file_ r) w))
  end.

(** No user has a negative quota. *)
Definition quotaNonNegative (s : Store.t) : Prop :=
  Forall (fun u => 0 <= User.identificationsRemaining u) (Store.users s).

(** A user row put on a trial that ends at [ends], with the 10
    identifications the admin route grants. *)
Definition adminTrial (ends : Js.Date) (u : User.t) : User.t :=
  User.mk (User.id u) (User.username u) (User.password u) (User.email u)
    (User.firstName u) (User.lastName u)
    "trial" 10
    (User.stripeCustomerId u) (User.stripeSubscriptionId u)
    (Some ends)
    (User.isBetaTester u).

(** The five letters of [admin] in a row, each small or capital, and a
    text that has them somewhere. *)
Definition adminWord (word : string) : Prop :=
  exists a d m i n,
    word = String a (String d (String m (String i (String n EmptyString))))
    /\ (a = "a" \/ a = "A")%char
    /\ (d = "d" \/ d = "D")%char
    /\ (m = "m" \/ m = "M")%char
    /\ (i = "i" \/ i = "I")%char
    /\ (n = "n" \/ n = "N")%char.

Definition mentionsAdmin (s : string) : Prop :=
  exists pre word post, s = (pre ++ word ++ post)%string /\ adminWord word.

(** The days the body of [/api/admin/start-trial] asks for: 3 when it has
    no [days], none when its [days] is [null]. *)
Definition daysGiven (days : option (option Z)) : Z :=
  match days with
  | None => 3
  | Some None => 0
  | Some (Some n) => n
  end.

(** The days remaining of a user the sweep acts on: one on a trial, with
    an e-mail address and a trial end date. *)
Definition sweptDays (now : Js.Date) (u : User.t) : option Z :=
  if (User.subscriptionType u =? "trial")%string && Js.truthyStr (User.email u)
  then option_map (Sweep.daysRemaining now) (User.trialEndDate u)
  else None.

Definition trialOver (now : Js.Date) (u : User.t) : bool :=
  match sweptDays now u with
  | Some days => days <=? 0
  | None => false
  end.

Definition reminders (now : Js.Date) (u : User.t) : list Mail :=
  match sweptDays now u with
  | Some days =>
      if (days =? 1) || (days =? 2) then [TrialEndingEmail (User.email u) days]
      else []
  | None => []
  end.

(** A user row put back on the free plan with 3 identifications. *)
Definition downgraded (u : User.t) : User.t :=
  User.mk (User.id u) (User.username u) (User.password u) (User.email u)
    (User.firstName u) (User.lastName u)
    "free" 3
    (User.stripeCustomerId u) (User.stripeSubscriptionId u) (User.trialEndDate u)
    (User.isBetaTester u).

(** A call of a storage method, and what it returns. *)
Inductive Call :=
| GetUser (id : Z)
| UpdateUser (id : Z) (userData : User.patch)
| UpdateUserStripeInfo (id : Z) (stripeCustomerId stripeSubscriptionId : string)
| GetAllUsers
| GetPlants (userId : Z)
| GetPlant (id : Z)
| CreatePlant (insertPlant : Plant.insert)
| UpdatePlant (id : Z) (plantData : Plant.patch)
| DeletePlant (id : Z)
| UpdatePlantWatered (id : Z)
| UpdatePlantFertilized (id : Z)
| GetPublicPlants
| GetCareActions (userId : Z)
| GetCareActionsForPlant (plantId : Z)
| GetPendingCareActions (userId : Z)
| CreateCareAction (insertCareAction : CareAction.insert)
| UpdateCareAction (id : Z) (careActionData : CareAction.patch)
| MarkCareActionComplete (id : Z)
| DeleteCareAction (id : Z).

Inductive Answer :=
| AUser (user : option User.t)
| AUsers (users : list User.t)
| APlant (plant : option Plant.t)
| APlants (plants : list Plant.t)
| ACareAction (action : option CareAction.t)
| ACareActions (actions : list CareAction.t)
| ADeleted (found : bool).

Definition answering {A} (wrap : A -> Answer) (r : A * Store.t) : Answer * Store.t :=
  (wrap (fst r), snd r).

Definition perform (storage : IStorage) (c : Call) : Op Answer :=
  fun now s =>
    match c with
    | GetUser id => answering AUser (getUser storage id now s)
    | UpdateUser id d => answering AUser (updateUser storage id d now s)
    | UpdateUserStripeInfo id customer subscription =>
        answering AUser (updateUserStripeInfo storage id customer subscription now s)
    | GetAllUsers => answering AUsers (getAllUsers storage now s)
    | GetPlants userId => answering APlants (getPlants storage userId now s)
    | GetPlant id => answering APlant (getPlant storage id now s)
    | CreatePlant i => answering (fun p => APlant (Some p)) (createPlant storage i now s)
    | UpdatePlant id d => answering APlant (updatePlant storage id d now s)
    | DeletePlant id => answering ADeleted (deletePlant storage id now s)
    | UpdatePlantWatered id => answering APlant (updatePlantWatered storage id now s)
    | UpdatePlantFertilized id =>
        answering APlant (updatePlantFertilized storage id now s)
    | GetPublicPlants => answering APlants (getPublicPlants storage now s)
    | GetCareActions userId =>
        answering ACareActions (getCareActions storage userId now s)
    | GetCareActionsForPlant plantId =>
        answering ACareActions (getCareActionsForPlant storage plantId now s)
    | GetPendingCareActions userId =>
        answering ACareActions (getPendingCareActions storage userId now s)
    | CreateCareAction i =>
        answering (fun a => ACareAction (Some a)) (createCareAction storage i now s)
    | UpdateCareAction id d =>
        answering ACareAction (updateCareAction storage id d now s)
    | MarkCareActionComplete id =>
        answering ACareAction (markCareActionComplete storage id now s)
    | DeleteCareAction id => answering ADeleted (deleteCareAction storage id now s)
    end.

(** Calls made one after the other, each at its own instant. *)
Fixpoint performAll (storage : IStorage) (calls : list (Js.Date * Call))
    (s : Store.t) : list Answer * Store.t :=
  match calls with
  | [] => ([], s)
  | (now, c) :: rest =>
      let (a, s1) := perform storage c now s in
      let (answers, s2) := performAll storage rest s1 in
      (a :: answers, s2)
  end.

Definition present {A} (o : option A) : bool :=
  match o with Some _ => true | None => false end.

(** The calls on which the two implementations are compared: an insert
    supplies the columns that have a default in the database
    ([MemStorage] fills in none), and a patch is not empty. *)
Definition comparable (c : Call) : bool :=
  match c with
  | CreatePlant i =>
      present (Plant.i_dateAdded i) && present (Plant.i_careHealth i)
      && present (Plant.i_isPublic i)
  | CreateCareAction i => present (CareAction.i_isCompleted i)
  | UpdateUser _ d =>
      present (User.p_subscriptionType d)
      || present (User.p_identificationsRemaining d)
      || present (User.p_trialEndDate d) || present (User.p_isBetaTester d)
  | UpdatePlant _ d =>
      present (Plant.p_name d) || present (Plant.p_scientificName d)
      || present (Plant.p_imageUrl d) || present (Plant.p_waterFrequency d)
      || present (Plant.p_lastWatered d) || present (Plant.p_fertilizeFrequency d)
      || present (Plant.p_lastFertilized d) || present (Plant.p_lightNeeds d)
      || present (Plant.p_notes d) || present (Plant.p_careHealth d)
      || present (Plant.p_isPublic d)
  | UpdateCareAction _ d =>
      present (CareAction.p_completedAt d) || present (CareAction.p_isCompleted d)
  | _ => true
  end.

(** What the columns of the database hold: the inserts, the patches and
    the calls every value of which a statement of the database accepts. *)
Definition storablePlant (i : Plant.insert) : bool :=
  Column.integer (Plant.i_userId i)
  && Column.text (Plant.i_name i)
  && Column.nullable Column.text (Plant.i_scientificName i)
  && Column.nullable Column.text (Plant.i_imageUrl i)
  && Column.nullable Column.timestamp (Plant.i_dateAdded i)
  && Column.integer (Plant.i_waterFrequency i)
  && Column.nullable Column.timestamp (Plant.i_lastWatered i)
  && Column.nullable Column.integer (Plant.i_fertilizeFrequency i)
  && Column.nullable Column.timestamp (Plant.i_lastFertilized i)
  && Column.nullable Column.text (Plant.i_lightNeeds i)
  && Column.nullable Column.text (Plant.i_notes i)
  && Column.nullable Column.real (Plant.i_careHealth i).

Definition storablePlantPatch (d : Plant.patch) : bool :=
  Column.nullable Column.text (Plant.p_name d)
  && Column.nullable Column.text (Plant.p_scientificName d)
  && Column.nullable Column.text (Plant.p_imageUrl d)
  && Column.nullable Column.integer (Plant.p_waterFrequency d)
  && Column.nullable Column.timestamp (Plant.p_lastWatered d)
  && Column.nullable Column.integer (Plant.p_fertilizeFrequency d)
  && Column.nullable Column.timestamp (Plant.p_lastFertilized d)
  && Column.nullable Column.text (Plant.p_lightNeeds d)
  && Column.nullable Column.text (Plant.p_notes d)
  && Column.nullable Column.real (Plant.p_careHealth d).

Definition storableCareAction (i : CareAction.insert) : bool :=
  Column.integer (CareAction.i_plantId i)
  && Column.integer (CareAction.i_userId i)
  && Column.text (CareAction.i_actionType i)
  && Column.timestamp (CareAction.i_dueDate i)
  && Column.nullable Column.timestamp (CareAction.i_completedAt i).

Definition storableCareActionPatch (d : CareAction.patch) : bool :=
  Column.nullable Column.timestamp (CareAction.p_completedAt d).

Definition storableUserPatch (d : User.patch) : bool :=
  Column.nullable Column.text (User.p_subscriptionType d)
  && Column.nullable Column.integer (User.p_identificationsRemaining d)
  && Column.nullable Column.timestamp (User.p_trialEndDate d).

Definition storable (c : Call) : bool :=
  match c with
  | GetUser id => Column.integer id
  | UpdateUser id d => Column.integer id && storableUserPatch d
  | UpdateUserStripeInfo id customer subscription =>
      Column.integer id && Column.text customer && Column.text subscription
  | GetAllUsers => true
  | GetPlants userId => Column.integer userId
  | GetPlant id => Column.integer id
  | CreatePlant i => storablePlant i
  | UpdatePlant id d => Column.integer id && storablePlantPatch d
  | DeletePlant id => Column.integer id
  | UpdatePlantWatered id => Column.integer id
  | UpdatePlantFertilized id => Column.integer id
  | GetPublicPlants => true
  | GetCareActions userId => Column.integer userId
  | GetCareActionsForPlant plantId => Column.integer plantId
  | GetPendingCareActions userId => Column.integer userId
  | CreateCareAction i => storableCareAction i
  | UpdateCareAction id d => Column.integer id && storableCareActionPatch d
  | MarkCareActionComplete id => Column.integer id
  | DeleteCareAction id => Column.integer id
  end.

(** Every care action says whether it is completed. *)
Definition completionKnown (s : Store.t) : bool :=
  forallb (fun a => present (CareAction.isCompleted a)) (Store.careActions s).

(** The same answer: the same row for a call that returns one, the same
    rows in some order for a call that returns a list (no query of
    [DatabaseStorage] has an [ORDER BY]), and whatever flag for a
    delete. *)
Definition sameAnswer (a b : Answer) : Prop :=
  match a, b with
  | ADeleted _, ADeleted _ => True
  | AUsers l, AUsers l' => Permutation l l'
  | APlants l, APlants l' => Permutation l l'
  | ACareActions l, ACareActions l' => Permutation l l'
  | _, _ => a = b
  end.

(** The same rows in every table, in some order, and the same counters. *)
Definition sameRows (s d : Store.t) : Prop :=
  Permutation (Store.users s) (Store.users d)
  /\ Permutation (Store.plants s) (Store.plants d)
  /\ Permutation (Store.careActions s) (Store.careActions d)
  /\ Store.userId s = Store.userId d
  /\ Store.plantId s = Store.plantId d
  /\ Store.careActionId s = Store.careActionId d.

(** A run of the database over a sequence of calls.  No statement fixes
    the order in which a table holds its rows (an [UPDATE] of PostgreSQL
    writes a new version of the row, which a later scan may meet last), so
    before each call the rows may be held in any order: [held] is the
    table as the call finds it. *)
Inductive databaseRun :
  list (Js.Date * Call) -> Store.t -> list Answer -> Store.t -> Prop :=
| run_end s : databaseRun [] s [] s
| run_call now c calls s held answers s' :
    sameRows s held ->
    databaseRun calls (snd (perform databaseStorage c now held)) answers s' ->
    databaseRun ((now, c) :: calls) s
      (fst (perform databaseStorage c now held) :: answers) s'.

(** The calls the database accepts: made at an instant, and with values,
    that its columns hold. *)
Definition accepted (c : Js.Date * Call) : bool :=
  Column.timestamp (fst c) && storable (snd c).

(** ** Sample data *)

Module Sample.

Definition alice : User.t :=
  User.mk 1 "alice" "secret1" "alice@example.com" None None "free" 5
    None None None (Some false).

Definition bob : User.t :=
  User.mk 2 "bob" "secret2" "bob@example.com" None None "premium" 999999
    None None None (Some false).

Definition root : User.t :=
  User.mk 3 "admin" "secret3" "root@example.com" None None "free" 3
    None None None (Some false).

(** A free user who has used up her identifications. *)
Definition carol : User.t :=
  User.mk 4 "carol" "secret4" "carol@example.com" None None "free" 0
    None None None (Some false).

(** Alice's fern: watered every 7 days, fed every 30. *)
Definition fern : Plant.t :=
  Plant.mk 1 1 "fern" None None (Some 0) 7 None (Some 30) None None None
    (Some 80) (Some false).

Definition waterFern : CareAction.t :=
  CareAction.mk 1 1 1 "water" 604800000 None (Some false).

Definition feedFern : CareAction.t :=
  CareAction.mk 2 1 1 "fertilize" 2592000000 None (Some false).

(** An action whose plant is gone. *)
Definition orphan : CareAction.t :=
  CareAction.mk 3 9 1 "water" 604800000 None (Some false).

Definition garden : Store.t :=
  Store.mk [alice; bob; root; carol] [fern] [waterFern; feedFern; orphan] 5 2 4.

Definition world : World := mkWorld garden [] [].

(** A recognition API that answers every image, and one that is down. *)
Definition apiUp (image : string) : option string := Some "{suggestions}".
Definition apiDown (image : string) : option string := None.

(** Three identify requests: Carol's, then two of Alice's. *)
Definition requests : list IdentifyRequest :=
  [ {| at_ := 1000; plantIdApi := apiUp; apiKey_ := Some "key";
       who := carol; file_ := Some "leaf" |};
    {| at_ := 2000; plantIdApi := apiUp; apiKey_ := Some "key";
       who := alice; file_ := Some "leaf" |};
    {| at_ := 3000; plantIdApi := apiDown; apiKey_ := Some "key";
       who := alice; file_ := Some "bark" |} ].

(** Trial users: Dave's trial ends in two days less a second, Erin's
    ended a second ago. *)
Definition dave : User.t :=
  User.mk 2 "dave" "secret5" "dave@example.com" None None "trial" 10
    None None (Some (1000 + 2 * 86400000 - 1000)) (Some false).

Definition erin : User.t :=
  User.mk 3 "erin" "secret6" "erin@example.com" None None "trial" 10
    None None (Some 0) (Some false).

Definition trialWorld : World :=
  mkWorld (Store.mk [alice; dave; erin] [] [] 4 1 1) [] [].

(** Frank's trial ended a second ago too, and his e-mail address is the
    empty string. *)
Definition frank : User.t :=
  User.mk 1 "frank" "secret7" "" None None "trial" 10
    None None (Some 0) (Some false).

Definition frankWorld : World := mkWorld (Store.mk [frank] [] [] 2 1 1) [] [].

(** Two request bodies for [POST /api/plants]: basil, watered every 3
    days and fed every 14, and a cactus with a water frequency of 0. *)
Definition basil : Plant.insert :=
  Plant.mkInsert 0 "basil" None None None 3 None (Some 14) None None None None None.

Definition cactus : Plant.insert :=
  Plant.mkInsert 1 "cactus" None None None 0 None None None None None None None.

(** The fern's pending water actions. *)
Definition fernToWater (a : CareAction.t) : bool :=
  (CareAction.plantId a =? 1) && CareAction.pendingOfKind "water" a.

(** Alice completes [waterFern], and then completes it once more. *)
Definition completedOnce : World :=
  snd (completeCareAction databaseStorage 1000 alice 1 world).

Definition completedTwice : World :=
  snd (completeCareAction databaseStorage 2000 alice 1 completedOnce).

End Sample.

Module SampleCalls.
(** Alice's action is completed by hand, a plant and an action are
    added, the fern is deleted twice, and the pending actions listed. *)
Definition calls : list (Js.Date * Call) :=
  [ (1000, UpdateCareAction 1 (CareAction.completedPatch 1000));
    (2000, CreatePlant
             (Plant.mkInsert 1 "basil" None None (Some 2000) 3 None None None
                None None (Some 100) (Some false)));
    (3000, CreateCareAction (CareAction.scheduled 2 1 "water" 262200000));
    (4000, MarkCareActionComplete 2);
    (5000, DeletePlant 1);
    (6000, DeletePlant 1);
    (7000, GetPendingCareActions 1);
    (8000, UpdateUser 1 (User.mkPatch None (Some 4) None None));
    (9000, UpdateUserStripeInfo 2 "cus_1" "sub_1");
    (9500, GetAllUsers);
    (9600, GetPublicPlants) ].
End SampleCalls.

(** * The rest of the server

    The routes of [registerRoutes] not modelled above, the Stripe webhook,
    and the text the add-plant dialog turns into a water frequency. *)

(** ** The body of [POST /api/care-actions]

    [insertCareActionSchema] is made from the table: [dueDate] is a
    [z.date()], which accepts an instance of [Date] and nothing else, and
    [completedAt] is a [z.date()] that may be absent or [null].  The body
    of a request is what [express.json()] has parsed: texts, numbers,
    booleans, [null], lists and objects, and no [Date]. *)

Module Body.

(** A property of a body. *)
Inductive value :=
| Absent
| Null
| Boolean (b : bool)
| Number (n : Z)
| Text (s : string)
| Other
| DateObject (d : Js.Date).

(** What [JSON.parse] yields; [Other] is a number with a fraction, a list
    or an object. *)
Definition isJson (v : value) : bool :=
  match v with
  | DateObject _ => false
  | _ => true
  end.

(** [z.date()] *)
Definition zDate (v : value) : option Js.Date :=
  match v with
  | DateObject d => Some d
  | _ => None
  end.

(** [z.date().nullable().optional()]; the outer [None] is the rejection. *)
Definition zDateOptional (v : value) : option (option Js.Date) :=
  match v with
  | Absent | Null => Some None
  | DateObject d => Some (Some d)
  | _ => None
  end.

End Body.

Module CareActionBody.

(** The two dates are as the request carries them.  The other properties
    are taken to be of the type the schema asks for: a body in which one
    of them is not is rejected with 400 like one with a date that is not a
    [Date]. *)
Record t := mk {
  plantId : Z;
  actionType : string;
  dueDate : Body.value;
  completedAt : Body.value;
  isCompleted : option bool
}.

Definition isJson (b : t) : bool :=
  Body.isJson (dueDate b) && Body.isJson (completedAt b).

(** [insertCareActionSchema.parse({ ...req.body, userId })], [None] for a
    [ZodError]. *)
Definition parse (b : t) (userId : Z) : option CareAction.insert :=
  match Body.zDate (dueDate b), Body.zDateOptional (completedAt b) with
  | Some due, Some done =>
      Some (CareAction.mkInsert (plantId b) userId (actionType b) due done
              (isCompleted b))
  | _, _ => None
  end.

End CareActionBody.

(** [app.post("/api/care-actions")], from the body of the request on. *)
Definition postCareActionRequest (storage : IStorage) (now : Js.Date)
    (me : User.t) (body : CareActionBody.t) : World -> Response * World :=
  postCareAction storage now me (CareActionBody.parse body (User.id me)).

(** ** [Array.prototype.sort] *)

Module JsArray.
Section Sort.
Context {A : Type}.
Variable compareFn : A -> A -> Z.

(** [x] goes before the first element it does not come after. *)
Fixpoint insert (x : A) (sorted : list A) : list A :=
  match sorted with
  | [] => [x]
  | y :: rest =>
      if compareFn x y <=? 0 then x :: y :: rest else y :: insert x rest
  end.

(** [array.sort(compareFn)].  The sort is stable, so for a consistent
    comparison its result is the one of this insertion sort. *)
Fixpoint sort (array : list A) : list A :=
  match array with
  | [] => []
  | x :: rest => insert x (sort rest)
  end.
End Sort.
End JsArray.

(** ** Answers that are a value of their own *)

(** A handler that ends in [res.json(value)]: the value on the right, or
    the error response on the left. *)
Definition runJson {A} (m : Handler.t A) (caught : Response) (w : World)
  : (Response + A) * World :=
  match m w with
  | (Handler.Next a, w') => (inr a, w')
  | (Handler.Return r, w') => (inl r, w')
  | (Handler.Throw, w') => (inl caught, w')
  end.

(** [await Promise.all(xs.map(async x => f(x)))], for an [f] that only
    reads: the results in the order of [xs]. *)
Fixpoint mapM {A B} (f : A -> Handler.t B) (xs : list A) : Handler.t (list B) :=
  match xs with
  | [] => Handler.ret []
  | x :: rest =>
      Handler.bind (f x) (fun y =>
      Handler.bind (mapM f rest) (fun ys => Handler.ret (y :: ys)))
  end.

(** The e-mails of the payment routes. *)
Inductive Notice :=
| SubscriptionConfirmationEmail (to : string) (isMonthly : bool).

(** ** Reading routes, admin routes and the payment route *)

Section MoreRoutes.

Variable storage : IStorage.
Variable now : Js.Date.

#[local] Open Scope handler_scope.

#[local] Abbreviation await := (Handler.await now).

(** [app.get("/api/plants")] *)
Definition getPlantsRoute (me : User.t) : World -> (Response + list Plant.t) * World :=
  runJson (await (getPlants storage (User.id me)))
    (respond 500 (JMessage "Error fetching plants")).

(** [app.get("/api/plants/:id")] *)
Definition getPlantRoute (me : User.t) (plantId : Z) : World -> Response * World :=
  Handler.run
    (plant <- await (getPlant storage plantId) ;;
     match plant with
     | None => Handler.reply 404 (JMessage "Plant not found")
     | Some plant =>
         if negb (Plant.userId plant =? User.id me)
         then Handler.reply 403 (JMessage "Not authorized to view this plant")
         else Handler.ret (respond 200 (JPlant (Some plant)))
     end)
    (respond 500 (JMessage "Error fetching plant")).

(** [app.get("/api/care-actions")] *)
Definition getCareActionsRoute (me : User.t)
  : World -> (Response + list CareAction.t) * World :=
  runJson (await (getCareActions storage (User.id me)))
    (respond 500 (JMessage "Error fetching care actions")).

(** [(a, b) => new Date(a.dueDate).getTime() - new Date(b.dueDate).getTime()];
    the guard [!a.dueDate || !b.dueDate] never holds of a [Date]. *)
Definition byDueDate (a b : CareAction.t * option Plant.t) : Z :=
  CareAction.dueDate (fst a) - CareAction.dueDate (fst b).

(** [app.get("/api/care-actions/pending")]: [{ ...action, plant }] is the
    pair of the action and its plant. *)
Definition getPendingRoute (me : User.t)
  : World -> (Response + list (CareAction.t * option Plant.t)) * World :=
  runJson
    (pendingActions <- await (getPendingCareActions storage (User.id me)) ;;
     actionsWithPlants <-
       mapM (fun action =>
               plant <- await (getPlant storage (CareAction.plantId action)) ;;
               Handler.ret (action, plant))
            pendingActions ;;
     Handler.ret (JsArray.sort byDueDate actionsWithPlants))
    (respond 500 (JMessage "Error fetching pending care actions")).

(** The quota [/api/admin/update-user-status] gives with a status. *)
Definition quotaOfStatus (subscriptionType : string) : Z :=
  if (subscriptionType =? "premium")%string
     || (subscriptionType =? "premium-lifetime")%string
  then 999999
  else if (subscriptionType =? "free")%string then 3
  else 10.

(** [app.post("/api/admin/update-user-status")] behind [isAdmin]; the
    answer is the user (sent without the password). *)
Definition adminUpdateUserStatus (me : User.t) (userId : option Z)
    (subscriptionType : option string) : World -> (Response + User.t) * World :=
  runJson
    (if negb (isAdmin me)
     then Handler.reply 403 (JMessage "Admin access required")
     else
       if negb (Js.truthyOptNum userId) || negb (Js.truthyOptStr subscriptionType)
       then Handler.reply 400
              (JMessage "User ID and subscription type are required")
       else
         match userId, subscriptionType with
         | Some userId, Some subscriptionType =>
             let identificationsRemaining := quotaOfStatus subscriptionType in
             updatedUser <- await (updateUser storage userId
                                     (User.mkPatch (Some subscriptionType)
                                        (Some identificationsRemaining) None None)) ;;
             match updatedUser with
             | None => Handler.reply 404 (JMessage "User not found")
             | Some updatedUser => Handler.ret updatedUser
             end
         | _, _ =>
             Handler.reply 400
               (JMessage "User ID and subscription type are required")
         end)
    (respond 500 (JMessage "Error updating user")).

(** [app.post("/api/admin/toggle-beta-tester")] behind [isAdmin];
    [isBetaTester] is [!!req.body.isBetaTester]. *)
Definition adminToggleBetaTester (me : User.t) (userId : option Z)
    (isBetaTester : bool) : World -> (Response + User.t) * World :=
  runJson
    (if negb (isAdmin me)
     then Handler.reply 403 (JMessage "Admin access required")
     else
       match userId with
       | Some userId =>
           if negb (Js.truthyNum userId)
           then Handler.reply 400 (JMessage "User ID is required")
           else
             updatedUser <- await (updateUser storage userId
                                     (User.mkPatch None None None
                                        (Some isBetaTester))) ;;
             match updatedUser with
             | None => Handler.reply 404 (JMessage "User not found")
             | Some updatedUser => Handler.ret updatedUser
             end
       | None => Handler.reply 400 (JMessage "User ID is required")
       end)
    (respond 500 (JMessage "Error updating beta tester status")).

(** [await stripe.paymentIntents.retrieve(id)]: the status of the payment
    intent, or a throw when Stripe refuses the id. *)
Definition retrieveStatus (retrieve : string -> option string) (id : string)
  : Handler.t string :=
  fun w =>
    match retrieve id with
    | Some status => (Handler.Next status, w)
    | None => (Handler.Throw, w)
    end.

(** [app.post("/api/payment-success")].  The answer
    [{ success: true, downloadAvailable: true }] is given with the
    confirmation e-mails handed over on the way; the 500 message is sent
    with the text of the error appended. *)
Definition paymentSuccess (retrieve : string -> option string) (me : User.t)
    (paymentIntentId : option string) : World -> (Response + list Notice) * World :=
  runJson
    (match paymentIntentId with
     | None => Handler.reply 400 (JMessage "Payment intent ID is required")
     | Some paymentIntentId =>
         if negb (Js.truthyStr paymentIntentId)
         then Handler.reply 400 (JMessage "Payment intent ID is required")
         else
           status <- retrieveStatus retrieve paymentIntentId ;;
           if (status =? "succeeded")%string
           then
             _ <- await (updateUser storage (User.id me)
                           (User.mkPatch (Some "premium-lifetime") (Some 999999)
                              None None)) ;;
             Handler.ret
               (if Js.truthyStr (User.email me)
                then [SubscriptionConfirmationEmail (User.email me) false]
                else [])
           else Handler.reply 400 (JMessage "Payment has not been completed")
     end)
    (respond 500 (JMessage "Error processing payment: ")).

End MoreRoutes.

(** ** [app.post("/api/webhook")]

    The webhook looks the user up in [db] itself and writes through
    [storage]; like the sweep it is modelled where both are the
    database. *)

Module Webhook.

(** What the handler reads of a verified event: [event.type],
    [event.data.object.customer] and [event.data.object.status]. *)
Record Event := {
  type : string;
  customer : string;
  status : string
}.

Inductive Answer :=
| Skipped
| Bad (message : string)
| Received (mails : list Notice).

(** [db.select().from(users).where(eq(users.stripeCustomerId, id)).limit(1)] *)
Definition userOfCustomer (customerId : string) (s : Store.t) : option User.t :=
  Sql.first
    (Sql.select
       (fun u =>
          match User.stripeCustomerId u with
          | Some c => (c =? customerId)%string
          | None => false
          end)
       (Store.users s)).

(** The [switch (event.type)]. *)
Definition dispatch (now : Js.Date) (event : Event) (s : Store.t)
  : list Notice * Store.t :=
  if (type event =? "customer.subscription.created")%string
     || (type event =? "customer.subscription.updated")%string
  then
    match userOfCustomer (customer event) s with
    | None => ([], s)
    | Some user =>
        if (status event =? "active")%string
        then
          let (_, s') :=
            updateUser databaseStorage (User.id user)
              (User.mkPatch (Some "premium") (Some 999999) None None) now s in
          (if Js.truthyStr (User.email user)
           then [SubscriptionConfirmationEmail (User.email user) true]
           else [],
           s')
        else ([], s)
    end
  else if (type event =? "customer.subscription.deleted")%string
  then
    match userOfCustomer (customer event) s with
    | None => ([], s)
    | Some user =>
        let (_, s') :=
          updateUser databaseStorage (User.id user)
            (User.mkPatch (Some "free") (Some 3) None None) now s in
        ([], s')
    end
  else ([], s).

(** The handler: [secret] is [STRIPE_WEBHOOK_SECRET], [signature] the
    [stripe-signature] header, and [constructEvent payload signature
    secret] the verified event, or [None] when verification throws. *)
Definition handle
    (constructEvent : string -> string -> string -> option Event)
    (secret : option string) (now : Js.Date) (payload : string)
    (signature : option string) (w : World) : Answer * World :=
  match secret with
  | None => (Skipped, w)
  | Some secret =>
      if negb (Js.truthyStr secret) then (Skipped, w)
      else
        match signature with
        | None => (Bad "Webhook Error: No Stripe signature found", w)
        | Some signature =>
            if negb (Js.truthyStr signature)
            then (Bad "Webhook Error: No Stripe signature found", w)
            else
              match constructEvent payload signature secret with
              | None => (Bad "Webhook Error: ", w)
              | Some event =>
                  let (mails, s) := dispatch now event (store w) in
                  (Received mails, withStore w s)
              end
        end
  end.

End Webhook.

(** ** Community shares

    The fourth collection of the storage: [communityShares] with its
    counter [communityShareId] in [MemStorage], the table
    [community_shares] with its serial key in the database. *)

Module CommunityShare.

Record t := mk {
  id : Z;
  userId : Z;
  plantId : Z;
  title : string;
  content : option string;
  imageUrl : option string;
  datePosted : option Js.Date;
  likes : option Z
}.

(** [InsertCommunityShare] *)
Record insert := mkInsert {
  i_userId : Z;
  i_plantId : Z;
  i_title : string;
  i_content : option string;
  i_imageUrl : option string;
  i_datePosted : option Js.Date;
  i_likes : option Z
}.

(** [{ ...req.body, userId: req.user.id }] *)
Definition withUserId (i : insert) (uid : Z) : insert :=
  {| i_userId := uid;
     i_plantId := i_plantId i;
     i_title := i_title i;
     i_content := i_content i;
     i_imageUrl := i_imageUrl i;
     i_datePosted := i_datePosted i;
     i_likes := i_likes i |}.

(** [{ ...insertShare, id }] *)
Definition ofInsert (i : insert) (new_id : Z) : t :=
  {| id := new_id;
     userId := i_userId i;
     plantId := i_plantId i;
     title := i_title i;
     content := i_content i;
     imageUrl := i_imageUrl i;
     datePosted := i_datePosted i;
     likes := i_likes i |}.

(** The column defaults of the table: [date_posted] now, [likes] 0. *)
Definition withDefaults (now : Js.Date) (a : t) : t :=
  {| id := id a;
     userId := userId a;
     plantId := plantId a;
     title := title a;
     content := content a;
     imageUrl := imageUrl a;
     datePosted := Some (Js.override now (datePosted a));
     likes := Some (Js.override 0 (likes a)) |}.

(** [{ ...share, likes: (share.likes || 0) + 1 }] *)
Definition liked (a : t) : t :=
  {| id := id a;
     userId := userId a;
     plantId := plantId a;
     title := title a;
     content := content a;
     imageUrl := imageUrl a;
     datePosted := datePosted a;
     likes := Some (Js.override 0 (likes a) + 1) |}.

(** [SET likes = likes + 1]: a null stays null. *)
Definition incremented (a : t) : t :=
  {| id := id a;
     userId := userId a;
     plantId := plantId a;
     title := title a;
     content := content a;
     imageUrl := imageUrl a;
     datePosted := datePosted a;
     likes := option_map (fun n => n + 1) (likes a) |}.

End CommunityShare.

#[global] Instance Keyed_CommunityShare : Keyed CommunityShare.t :=
  CommunityShare.id.

Module Community.

Record t := mk {
  shares : list CommunityShare.t;
  communityShareId : Z
}.

Definition empty : t := mk [] 1.

End Community.

(** A storage method on the community shares. *)
Definition COp (A : Type) : Type := Js.Date -> Community.t -> A * Community.t.

Record ICommunity := {
  getCommunityShares : COp (list CommunityShare.t);
  getUserCommunityShares : Z -> COp (list CommunityShare.t);
  createCommunityShare : CommunityShare.insert -> COp CommunityShare.t;
  likeCommunityShare : Z -> COp (option CommunityShare.t);
  deleteCommunityShare : Z -> COp bool
}.

Module MemCommunity.

Definition getCommunityShares : COp (list CommunityShare.t) :=
  fun _ c => (JsMap.values (Community.shares c), c).

Definition getUserCommunityShares (userId : Z) : COp (list CommunityShare.t) :=
  fun _ c =>
    (filter (fun share => CommunityShare.userId share =? userId)
            (JsMap.values (Community.shares c)), c).

Definition createCommunityShare (insertShare : CommunityShare.insert)
  : COp CommunityShare.t :=
  fun _ c =>
    let id := Community.communityShareId c in
    let share := CommunityShare.ofInsert insertShare id in
    (share, Community.mk (JsMap.set id share (Community.shares c)) (id + 1)).

Definition likeCommunityShare (id : Z) : COp (option CommunityShare.t) :=
  fun _ c =>
    match JsMap.get id (Community.shares c) with
    | None => (None, c)
    | Some share =>
        let updatedShare := CommunityShare.liked share in
        (Some updatedShare,
         Community.mk (JsMap.set id updatedShare (Community.shares c))
           (Community.communityShareId c))
    end.

Definition deleteCommunityShare (id : Z) : COp bool :=
  fun _ c =>
    let (found, rest) := JsMap.delete id (Community.shares c) in
    (found, Community.mk rest (Community.communityShareId c)).

End MemCommunity.

Module DatabaseCommunity.

Definition getCommunityShares : COp (list CommunityShare.t) :=
  fun _ c => (Sql.select (fun _ => true) (Community.shares c), c).

Definition getUserCommunityShares (userId : Z) : COp (list CommunityShare.t) :=
  fun _ c =>
    (Sql.select (fun a => CommunityShare.userId a =? userId) (Community.shares c),
     c).

Definition createCommunityShare (insertShare : CommunityShare.insert)
  : COp CommunityShare.t :=
  fun now c =>
    let row :=
      CommunityShare.withDefaults now
        (CommunityShare.ofInsert insertShare (Community.communityShareId c)) in
    let (_, table) := Sql.insert row (Community.shares c) in
    (row, Community.mk table (Community.communityShareId c + 1)).

Definition likeCommunityShare (id : Z) : COp (option CommunityShare.t) :=
  fun _ c =>
    let (written, table) :=
      Sql.update (Sql.idIs id) CommunityShare.incremented (Community.shares c) in
    (Sql.first written, Community.mk table (Community.communityShareId c)).

Definition deleteCommunityShare (id : Z) : COp bool :=
  fun _ c =>
    (true,
     Community.mk (Sql.delete (Sql.idIs id) (Community.shares c))
       (Community.communityShareId c)).

End DatabaseCommunity.

Definition memCommunity : ICommunity :=
  {| getCommunityShares := MemCommunity.getCommunityShares;
     getUserCommunityShares := MemCommunity.getUserCommunityShares;
     createCommunityShare := MemCommunity.createCommunityShare;
     likeCommunityShare := MemCommunity.likeCommunityShare;
     deleteCommunityShare := MemCommunity.deleteCommunityShare |}.

Definition databaseCommunity : ICommunity :=
  {| getCommunityShares := DatabaseCommunity.getCommunityShares;
     getUserCommunityShares := DatabaseCommunity.getUserCommunityShares;
     createCommunityShare := DatabaseCommunity.createCommunityShare;
     likeCommunityShare := DatabaseCommunity.likeCommunityShare;
     deleteCommunityShare := DatabaseCommunity.deleteCommunityShare |}.

(** The community part of [storage], chosen like [storageFor]. *)
Definition communityFor (DATABASE_URL : bool) : ICommunity :=
  if DATABASE_URL then databaseCommunity else memCommunity.

Module CommunityRoutes.

Inductive Answer :=
| Shares (shares : list CommunityShare.t)
| Share (status : Z) (share : CommunityShare.t)
| Message (status : Z) (message : string).

Section Routes.

Variable storage : IStorage.
Variable community : ICommunity.
Variable now : Js.Date.

(** [app.get("/api/community")] *)
Definition getCommunity (c : Community.t) : Answer * Community.t :=
  let (shares, c') := getCommunityShares community now c in
  (Shares shares, c').

(** [app.post("/api/community")] *)
Definition postCommunity (me : User.t) (body : option CommunityShare.insert)
    (w : World) (c : Community.t) : Answer * World * Community.t :=
  match body with
  | None => (Message 400 "Invalid data", w, c)
  | Some b =>
      let validatedData := CommunityShare.withUserId b (User.id me) in
      let (plant, s) :=
        getPlant storage (CommunityShare.i_plantId validatedData) now (store w) in
      let owned :=
        match plant with
        | Some plant => Plant.userId plant =? User.id me
        | None => false
        end in
      if negb owned
      then (Message 403 "Not authorized to share this plant", withStore w s, c)
      else
        let (newShare, c') := createCommunityShare community validatedData now c in
        (Share 201 newShare, withStore w s, c')
  end.

(** [app.post("/api/community/:id/like")] *)
Definition likeCommunity (shareId : Z) (c : Community.t) : Answer * Community.t :=
  let (updatedShare, c') := likeCommunityShare community shareId now c in
  match updatedShare with
  | None => (Message 404 "Community share not found", c')
  | Some updatedShare => (Share 200 updatedShare, c')
  end.

End Routes.

(** [n] likes of the share [shareId], one after the other. *)
Fixpoint likeTimes (community : ICommunity) (now : Js.Date) (n : nat)
    (shareId : Z) (c : Community.t) : Community.t :=
  match n with
  | O => c
  | S n' =>
      likeTimes community now n' shareId
        (snd (likeCommunity community now shareId c))
  end.

End CommunityRoutes.

(** ** The subscription route

    Stripe is what it answers: [subscriptions.retrieve], [customers.create]
    and [subscriptions.create] give their result, or [None] when the call
    throws.  Of a subscription the route reads [id] and
    [latest_invoice?.payment_intent?.client_secret]. *)

Module Subscribe.

Record Subscription := {
  subscriptionId : string;
  clientSecret : option string
}.

Record Stripe := {
  retrieve : string -> option Subscription;
  createCustomer : string -> string -> option string;
  createSubscription : string -> string -> option Subscription
}.

Inductive Answer :=
| Sent (subscription : Subscription)
| Refused (status : Z) (message : string).

(** [app.post("/api/create-subscription")]; [priceId] is
    [process.env.STRIPE_PRICE_ID].  The 400 answer carries the message of
    the error that was caught. *)
Definition route (storage : IStorage) (now : Js.Date) (stripe : Stripe)
    (priceId : option string) (me : User.t) (w : World) : Answer * World :=
  if Js.truthyOptStr (User.stripeSubscriptionId me)
  then
    match User.stripeSubscriptionId me with
    | Some id =>
        match retrieve stripe id with
        | Some subscription => (Sent subscription, w)
        | None => (Refused 500 "Error creating subscription", w)
        end
    | None => (Refused 500 "Error creating subscription", w)
    end
  else if negb (Js.truthyStr (User.email me))
  then (Refused 500 "Error creating subscription", w)
  else if negb (Js.truthyOptStr priceId)
  then (Refused 500 "Stripe price ID not configured", w)
  else
    match priceId with
    | Some price =>
        match createCustomer stripe (User.email me) (User.username me) with
        | None => (Refused 400 "", w)
        | Some customer =>
            match createSubscription stripe customer price with
            | None => (Refused 400 "", w)
            | Some subscription =>
                let (_, s) :=
                  updateUserStripeInfo storage (User.id me) customer
                    (subscriptionId subscription) now (store w) in
                (Sent subscription, withStore w s)
            end
        end
    | None => (Refused 500 "Stripe price ID not configured", w)
    end.

End Subscribe.

(** ** The add-plant dialog ([AddPlantModal])

    The text of the identification's watering advice, turned into the
    water frequency the dialog proposes and then posts to [/api/plants].
    The dialog does this for a text that is there and not empty; without
    one it keeps the frequency it shows. *)

Module AddPlantModal.

Definition waterFrequencyOfText (waterFrequency : string) : string :=
  let waterText := Js.toLowerCase waterFrequency in
  if Js.includes "daily" waterText || Js.includes "every day" waterText then "1"
  else if Js.includes "twice" waterText then "3"
  else if Js.includes "weekly" waterText || Js.includes "every week" waterText
  then "7"
  else if Js.includes "biweekly" waterText
          || Js.includes "every two week" waterText
  then "14"
  else if Js.includes "monthly" waterText || Js.includes "every month" waterText
  then "30"
  else if Js.includes "infrequent" waterText || Js.includes "rarely" waterText
  then "45"
  else "7".

End AddPlantModal.

(** ** Vocabulary of the further statements *)

(** Identify requests served one after the other, with their answers. *)
Fixpoint identifyEach (storage : IStorage) (reqs : list IdentifyRequest)
    (w : World) : list Response * World :=
  match reqs with
  | [] => ([], w)
  | r :: rest =>
      let (answer, w1) :=
        identify storage (at_ r) (plantIdApi r) (apiKey_ r) (who r) (file_ r) w in
      let (answers, w2) := identifyEach storage rest w1 in
      (answer :: answers, w2)
  end.

(** A user row put on the free trial that ends at [ends]. *)
Definition onFreeTrial (ends : Js.Date) (u : User.t) : User.t :=
  User.mk (User.id u) (User.username u) (User.password u) (User.email u)
    (User.firstName u) (User.lastName u)
    "trial" (User.identificationsRemaining u)
    (User.stripeCustomerId u) (User.stripeSubscriptionId u)
    (Some ends)
    (User.isBetaTester u).

(** A user row given a status and a quota. *)
Definition withStatus (subscriptionType : string) (quota : Z) (u : User.t)
  : User.t :=
  User.mk (User.id u) (User.username u) (User.password u) (User.email u)
    (User.firstName u) (User.lastName u)
    subscriptionType quota
    (User.stripeCustomerId u) (User.stripeSubscriptionId u) (User.trialEndDate u)
    (User.isBetaTester u).

(** The care actions after every pending action of [kind] for [plant] has
    been completed. *)
Definition allDone (plant : Z) (kind : string) (now : Js.Date)
    (actions : list CareAction.t) : list CareAction.t :=
  map (fun a =>
         if (CareAction.plantId a =? plant) && CareAction.pendingOfKind kind a
         then completed now a else a)
      actions.

(** A patch that names a column. *)
Definition namesAColumn (d : Plant.patch) : bool := comparable (UpdatePlant 0 d).

(** A body as the zod object of [PUT /api/plants/:id] leaves it: the
    object lists eight columns and strips every other key, so
    [lastWatered], [lastFertilized] and [careHealth] are never in it. *)
Definition putBody (d : Plant.patch) : bool :=
  negb (present (Plant.p_lastWatered d))
  && negb (present (Plant.p_lastFertilized d))
  && negb (present (Plant.p_careHealth d)).

(** Alice renames her fern and waters it every 3 days from now on. *)
Definition fernEdit : Plant.patch :=
  Plant.mkPatch (Some "Boston fern") None None (Some 3) None None None None None
    None None.

(** The ids handed out so far. *)
Definition countersNotBelow (s s' : Store.t) : Prop :=
  Store.userId s <= Store.userId s'
  /\ Store.plantId s <= Store.plantId s'
  /\ Store.careActionId s <= Store.careActionId s'.

(** The care actions of [kind] still pending for [plant]. *)
Definition pendingFor (plant : Z) (kind : string) (s : Store.t)
  : list CareAction.t :=
  filter (fun a => (CareAction.plantId a =? plant) && CareAction.pendingOfKind kind a)
         (Store.careActions s).

(** [a] is due no later than [b]. *)
Definition dueNoLater (a b : CareAction.t * option Plant.t) : Prop :=
  CareAction.dueDate (fst a) <= CareAction.dueDate (fst b).

(** An action with the plant stored under its [plantId], if there is one. *)
Definition withPlant (s : Store.t) (a : CareAction.t)
  : CareAction.t * option Plant.t :=
  (a, Table.lookup (CareAction.plantId a) (Store.plants s)).

(** What a verified event asks for: the status and quota to write on the
    user of its customer, if it asks for a write at all. *)
Definition asked (event : Webhook.Event) : option (string * Z) :=
  if (Webhook.type event =? "customer.subscription.created")%string
     || (Webhook.type event =? "customer.subscription.updated")%string
  then if (Webhook.status event =? "active")%string
       then Some ("premium", 999999) else None
  else if (Webhook.type event =? "customer.subscription.deleted")%string
  then Some ("free", 3)
  else None.

(** Sample data of the payment routes: Gina, a subscriber, the event of
    her cancellation, and a verification that accepts the signature
    [good]. *)
Module SamplePayments.

Definition gina : User.t :=
  User.mk 1 "gina" "secret8" "gina@example.com" None None "premium" 999999
    (Some "cus_1") (Some "sub_1") None (Some false).

Definition hugo : User.t :=
  User.mk 2 "hugo" "secret9" "hugo@example.com" None None "free" 0
    None None None (Some false).

Definition world : World := mkWorld (Store.mk [gina; hugo] [] [] 3 1 1) [] [].

Definition cancelled : Webhook.Event :=
  {| Webhook.type := "customer.subscription.deleted";
     Webhook.customer := "cus_1";
     Webhook.status := "canceled" |}.

Definition constructEvent (payload signature secret : string)
  : option Webhook.Event :=
  if (signature =? "good")%string then Some cancelled else None.

(** Stripe knows one payment intent, and it has succeeded. *)
Definition retrieve (id : string) : option string :=
  if (id =? "pi_1")%string then Some "succeeded" else None.

(** A Stripe that creates the customer [cus_2] and the subscription
    [sub_2]. *)
Definition stripe : Subscribe.Stripe :=
  {| Subscribe.retrieve := fun _ => None;
     Subscribe.createCustomer := fun _ _ => Some "cus_2";
     Subscribe.createSubscription :=
       fun _ _ => Some {| Subscribe.subscriptionId := "sub_2";
                          Subscribe.clientSecret := Some "seti_2" |} |}.

End SamplePayments.

(** An identify request of the user [uid] that nothing but the quota can
    stop: it carries an image, the API key is set, and the recognition API
    answers for the image. *)
Definition answerable (uid : Z) (r : IdentifyRequest) : Prop :=
  User.id (who r) = uid
  /\ Js.truthyOptStr (apiKey_ r) = true
  /\ exists image data, file_ r = Some image /\ plantIdApi r image = Some data.

(** Alice sends the picture of a leaf. *)
Definition aliceAsks : IdentifyRequest :=
  {| at_ := 1000;
     plantIdApi := Sample.apiUp;
     apiKey_ := Some "key";
     who := Sample.alice;
     file_ := Some "leaf" |}.

(** ** The requests of the modelled routes *)

Module Api.

Inductive Request :=
| GetPlants (me : User.t)
| GetPlantById (me : User.t) (plantId : Z)
| PostPlant (me : User.t) (body : option Plant.insert)
| PutPlant (me : User.t) (plantId : Z) (body : option Plant.patch)
| DeletePlant (me : User.t) (plantId : Z)
| Water (me : User.t) (plantId : Z)
| Fertilize (me : User.t) (plantId : Z)
| GetCareActions (me : User.t)
| GetPending (me : User.t)
| PostCareAction (me : User.t) (body : CareActionBody.t)
| Complete (me : User.t) (actionId : Z)
| Identify (plantIdApi : string -> option string) (apiKey : option string)
    (me : User.t) (file : option string)
| StartFreeTrial (me : User.t)
| AdminStartTrial (me : User.t) (userId : option Z) (days : option (option Z))
| AdminUpdateUserStatus (me : User.t) (userId : option Z)
    (subscriptionType : option string)
| AdminToggleBetaTester (me : User.t) (userId : option Z) (isBetaTester : bool)
| PaymentSuccess (retrieve : string -> option string) (me : User.t)
    (paymentIntentId : option string).

End Api.

(** The world after a request has been served at [now]. *)
Definition serve (storage : IStorage) (now : Js.Date) (req : Api.Request)
    (w : World) : World :=
  match req with
  | Api.GetPlants me => snd (getPlantsRoute storage now me w)
  | Api.GetPlantById me plantId => snd (getPlantRoute storage now me plantId w)
  | Api.PostPlant me body => snd (postPlant storage now me body w)
  | Api.PutPlant me plantId body => snd (putPlant storage now me plantId body w)
  | Api.DeletePlant me plantId => snd (deletePlantRoute storage now me plantId w)
  | Api.Water me plantId => snd (waterPlant storage now me plantId w)
  | Api.Fertilize me plantId => snd (fertilizePlant storage now me plantId w)
  | Api.GetCareActions me => snd (getCareActionsRoute storage now me w)
  | Api.GetPending me => snd (getPendingRoute storage now me w)
  | Api.PostCareAction me body => snd (postCareActionRequest storage now me body w)
  | Api.Complete me actionId => snd (completeCareAction storage now me actionId w)
  | Api.Identify plantIdApi apiKey me file =>
      snd (identify storage now plantIdApi apiKey me file w)
  | Api.StartFreeTrial me => snd (startFreeTrial storage now me w)
  | Api.AdminStartTrial me userId days =>
      snd (adminStartTrial storage now me userId days w)
  | Api.AdminUpdateUserStatus me userId subscriptionType =>
      snd (adminUpdateUserStatus storage now me userId subscriptionType w)
  | Api.AdminToggleBetaTester me userId isBetaTester =>
      snd (adminToggleBetaTester storage now me userId isBetaTester w)
  | Api.PaymentSuccess retrieve me paymentIntentId =>
      snd (paymentSuccess storage now retrieve me paymentIntentId w)
  end.

(** Requests served one after the other, each at its own time. *)
Fixpoint serveAll (storage : IStorage) (reqs : list (Js.Date * Api.Request))
    (w : World) : World :=
  match reqs with
  | [] => w
  | (now, req) :: rest => serveAll storage rest (serve storage now req w)
  end.

(** A computation on the world, and a storage method, that keep the
    invariant of the store and lower no counter. *)
Definition keeps {A} (m : World -> A * World) : Prop :=
  forall w,
    wf (store w) ->
    wf (store (snd (m w))) /\ countersNotBelow (store w) (store (snd (m w))).

Definition keepsOp {A} (op : Op A) : Prop :=
  forall now s,
    wf s -> wf (snd (op now s)) /\ countersNotBelow s (snd (op now s)).

(** The invariant of the community shares: no two share an id, and every
    id is below the next one to be handed out. *)
Definition wfc (c : Community.t) : Prop :=
  Invariant.fresh (Community.communityShareId c) (Table.keys (Community.shares c))
  = true.

(** A share with its count of likes set to [n]. *)
Definition withLikes (n : Z) (a : CommunityShare.t) : CommunityShare.t :=
  CommunityShare.mk (CommunityShare.id a) (CommunityShare.userId a)
    (CommunityShare.plantId a) (CommunityShare.title a) (CommunityShare.content a)
    (CommunityShare.imageUrl a) (CommunityShare.datePosted a) (Some n).

(** What one like writes on a share, in each storage. *)
Definition likeOnce (DATABASE_URL : bool) (a : CommunityShare.t) : CommunityShare.t :=
  if DATABASE_URL then CommunityShare.incremented a else CommunityShare.liked a.

(** A fern picture Alice shares, with no count of likes in the body. *)
Definition fernShare : CommunityShare.insert :=
  CommunityShare.mkInsert 2 1 "My fern" None None None None.

(** * Properties *)

(** ** Maps and tables *)

Section TableFacts.
Context {Row : Type} `{Keyed Row}.
Implicit Types (k : Z) (m t : list Row) (f : Row -> Row).

Lemma get_lookup k m : JsMap.get k m = Table.lookup k m.
Proof. reflexivity. Qed.

Lemma first_select k t :
  Sql.first (Sql.select (Sql.idIs k) t) = Table.lookup k t.
Proof.
  induction t as [|r t IH]; simpl; [reflexivity|].
  unfold Sql.idIs at 1. destruct (key r =? k); simpl; [reflexivity|exact IH].
Qed.

Lemma update_written k f t :
  Sql.first (fst (Sql.update (Sql.idIs k) f t)) = option_map f (Table.lookup k t).
Proof.
  induction t as [|r t IH]; simpl; [reflexivity|].
  unfold Sql.idIs at 1. destruct (key r =? k); simpl; [reflexivity|exact IH].
Qed.

Lemma update_table k f t :
  snd (Sql.update (Sql.idIs k) f t) = Table.modify k f t.
Proof. reflexivity. Qed.

Lemma lookup_key k m r : Table.lookup k m = Some r -> key r = k.
Proof.
  unfold Table.lookup. intros E. apply find_some in E.
  destruct E as [_ E]. apply Z.eqb_eq in E. exact E.
Qed.

Lemma absent_lookup k m :
  existsb (Z.eqb k) (Table.keys m) = false -> Table.lookup k m = None.
Proof.
  induction m as [|r m IH]; simpl; [reflexivity|].
  rewrite (Z.eqb_sym k). destruct (key r =? k); simpl; [discriminate|exact IH].
Qed.

Lemma lookup_absent k m :
  Table.lookup k m = None -> existsb (Z.eqb k) (Table.keys m) = false.
Proof.
  induction m as [|r m IH]; simpl; [reflexivity|].
  rewrite (Z.eqb_sym k). destruct (key r =? k); simpl; [discriminate|exact IH].
Qed.

Lemma modify_absent k f m : Table.lookup k m = None -> Table.modify k f m = m.
Proof.
  induction m as [|r m IH]; simpl; [reflexivity|].
  destruct (key r =? k); [discriminate|]. intros E. now rewrite (IH E).
Qed.

Lemma below_lookup n m :
  Invariant.below n (Table.keys m) = true -> Table.lookup n m = None.
Proof.
  induction m as [|r m IH]; simpl; [reflexivity|].
  intros E. apply andb_prop in E. destruct E as [E1 E2].
  apply Z.ltb_lt in E1. destruct (Z.eqb_spec (key r) n); [lia|].
  exact (IH E2).
Qed.

(** Writing back a changed copy of the row found under a key is the
    in-place update of that key. *)
Lemma set_modify k f r m :
  Invariant.distinct (Table.keys m) = true ->
  Table.lookup k m = Some r ->
  JsMap.set k (f r) m = Table.modify k f m.
Proof.
  induction m as [|r0 m IH]; simpl; [discriminate|].
  intros D E. apply andb_prop in D. destruct D as [D1 D2].
  destruct (Z.eqb_spec (key r0) k) as [K|K].
  - injection E as ->. f_equal. symmetry. apply modify_absent.
    apply absent_lookup. rewrite <- K. now destruct (existsb _ _).
  - f_equal. now apply IH.
Qed.

(** Setting a key the map does not hold appends the row. *)
Lemma set_fresh k v m : Table.lookup k m = None -> JsMap.set k v m = m ++ [v].
Proof.
  induction m as [|r m IH]; simpl; [reflexivity|].
  destruct (key r =? k); [discriminate|]. intros E. now rewrite (IH E).
Qed.

Lemma delete_remove k m :
  Invariant.distinct (Table.keys m) = true ->
  JsMap.delete k m = (existsb (fun r => key r =? k) m, Table.remove k m).
Proof.
  induction m as [|r m IH]; simpl; [reflexivity|].
  intros D. apply andb_prop in D. destruct D as [D1 D2].
  destruct (Z.eqb_spec (key r) k) as [K|K]; simpl.
  - f_equal. symmetry. unfold Table.remove. rewrite <- K.
    apply negb_true_iff in D1. clear - D1.
    induction m as [|r' m IH]; simpl in *; [reflexivity|].
    apply orb_false_elim in D1. destruct D1 as [D1 D1'].
    rewrite Z.eqb_sym, D1. simpl. f_equal. exact (IH D1').
  - rewrite (IH D2). reflexivity.
Qed.

Lemma keys_modify k f m :
  (forall r, key (f r) = key r) -> Table.keys (Table.modify k f m) = Table.keys m.
Proof.
  intros P. induction m as [|r m IH]; simpl; [reflexivity|].
  f_equal; [|exact IH]. destruct (key r =? k); [apply P|reflexivity].
Qed.

Lemma fresh_snoc n v m :
  Invariant.fresh n (Table.keys m) = true -> key v = n ->
  Invariant.fresh (n + 1) (Table.keys (m ++ [v])) = true.
Proof.
  unfold Invariant.fresh. intros F K. apply andb_prop in F.
  destruct F as [D B]. apply andb_true_intro.
  induction m as [|r m IH]; simpl in *.
  - rewrite K. split; [reflexivity|]. rewrite andb_true_r. apply Z.ltb_lt. lia.
  - apply andb_prop in D. destruct D as [D1 D2].
    apply andb_prop in B. destruct B as [B1 B2].
    destruct (IH D2 B2) as [I1 I2]. rewrite I1, I2, !andb_true_r.
    apply Z.ltb_lt in B1. split; [|apply Z.ltb_lt; lia].
    unfold Table.keys. rewrite map_app, existsb_app. simpl.
    apply negb_true_iff in D1. unfold Table.keys in D1. rewrite D1. simpl.
    rewrite orb_false_r, K. apply negb_true_iff. apply Z.eqb_neq. lia.
Qed.

Lemma fresh_remove n k m :
  Invariant.fresh n (Table.keys m) = true ->
  Invariant.fresh n (Table.keys (Table.remove k m)) = true.
Proof.
  unfold Invariant.fresh. intros F. apply andb_prop in F.
  destruct F as [D B]. apply andb_true_intro.
  induction m as [|r m IH]; simpl in *; [tauto|].
  apply andb_prop in D. destruct D as [D1 D2].
  apply andb_prop in B. destruct B as [B1 B2].
  destruct (IH D2 B2) as [I1 I2].
  destruct (key r =? k); simpl; [tauto|].
  rewrite I1, I2, B1, !andb_true_r. split; [|reflexivity].
  apply negb_true_iff in D1. apply negb_true_iff.
  clear - D1. induction m as [|r' m IH]; simpl in *; [reflexivity|].
  apply orb_false_elim in D1. destruct D1 as [D1 D1'].
  destruct (key r' =? k); simpl; [exact (IH D1')|].
  rewrite D1. exact (IH D1').
Qed.

End TableFacts.

(** ** The invariant *)

Ltac store_simpl :=
  cbn [Store.users Store.plants Store.careActions
       Store.userId Store.plantId Store.careActionId
       Store.withUsers Store.withPlants Store.withCareActions
       Store.bumpPlantId Store.bumpCareActionId] in *.

Lemma wf_iff s :
  wf s <->
  Invariant.fresh (Store.userId s) (Table.keys (Store.users s)) = true
  /\ Invariant.fresh (Store.plantId s) (Table.keys (Store.plants s)) = true
  /\ Invariant.fresh (Store.careActionId s) (Table.keys (Store.careActions s)) = true.
Proof.
  unfold wf, Invariant.holds. rewrite !andb_true_iff. tauto.
Qed.

Lemma fresh_distinct n ks : Invariant.fresh n ks = true -> Invariant.distinct ks = true.
Proof. unfold Invariant.fresh. intros F. apply andb_prop in F. tauto. Qed.

Lemma fresh_below n ks : Invariant.fresh n ks = true -> Invariant.below n ks = true.
Proof. unfold Invariant.fresh. intros F. apply andb_prop in F. tauto. Qed.

Lemma wf_empty : wf Store.empty.
Proof. reflexivity. Qed.

Lemma wf_users s k f :
  wf s -> (forall u, User.id (f u) = User.id u) ->
  wf (Store.withUsers s (Table.modify k f (Store.users s))).
Proof.
  rewrite !wf_iff. store_simpl. intros (U & P & C) K.
  rewrite (keys_modify (H := Keyed_User) k f (Store.users s) K). tauto.
Qed.

Lemma wf_plants s k f :
  wf s -> (forall p, Plant.id (f p) = Plant.id p) ->
  wf (Store.withPlants s (Table.modify k f (Store.plants s))).
Proof.
  rewrite !wf_iff. store_simpl. intros (U & P & C) K.
  rewrite (keys_modify (H := Keyed_Plant) k f (Store.plants s) K). tauto.
Qed.

Lemma wf_careActions s k f :
  wf s -> (forall a, CareAction.id (f a) = CareAction.id a) ->
  wf (Store.withCareActions s (Table.modify k f (Store.careActions s))).
Proof.
  rewrite !wf_iff. store_simpl. intros (U & P & C) K.
  rewrite (keys_modify (H := Keyed_CareAction) k f (Store.careActions s) K). tauto.
Qed.

Lemma wf_newPlant s p :
  wf s -> Plant.id p = Store.plantId s ->
  wf (Store.withPlants (Store.bumpPlantId s) (Store.plants s ++ [p])).
Proof.
  rewrite !wf_iff. store_simpl. intros (U & P & C) K.
  repeat split; try assumption. now apply fresh_snoc.
Qed.

Lemma wf_newCareAction s a :
  wf s -> CareAction.id a = Store.careActionId s ->
  wf (Store.withCareActions (Store.bumpCareActionId s) (Store.careActions s ++ [a])).
Proof.
  rewrite !wf_iff. store_simpl. intros (U & P & C) K.
  repeat split; try assumption. now apply fresh_snoc.
Qed.

Lemma wf_removePlant s k :
  wf s -> wf (Store.withPlants s (Table.remove k (Store.plants s))).
Proof.
  rewrite !wf_iff. store_simpl. intros (U & P & C).
  repeat split; try assumption. now apply fresh_remove.
Qed.

Lemma wf_removeCareAction s k :
  wf s -> wf (Store.withCareActions s (Table.remove k (Store.careActions s))).
Proof.
  rewrite !wf_iff. store_simpl. intros (U & P & C).
  repeat split; try assumption. now apply fresh_remove.
Qed.

Lemma withUsers_same s : Store.withUsers s (Store.users s) = s.
Proof. now destruct s. Qed.

Lemma withPlants_same s : Store.withPlants s (Store.plants s) = s.
Proof. now destruct s. Qed.

Lemma withCareActions_same s : Store.withCareActions s (Store.careActions s) = s.
Proof. now destruct s. Qed.

(** ** What each storage method does, for either implementation *)

Section Methods.

Variable url : bool.
Variable now : Js.Date.
Variable s : Store.t.
Hypothesis W : wf s.

Let U := proj1 (proj1 (wf_iff s) W).
Let P := proj1 (proj2 (proj1 (wf_iff s) W)).
Let C := proj2 (proj2 (proj1 (wf_iff s) W)).

Lemma getUser_run id :
  getUser (storageFor url) id now s = (Table.lookup id (Store.users s), s).
Proof.
  destruct url; simpl; [|reflexivity].
  unfold DatabaseStorage.getUser. now rewrite first_select.
Qed.

Lemma getPlant_run id :
  getPlant (storageFor url) id now s = (Table.lookup id (Store.plants s), s).
Proof.
  destruct url; simpl; [|reflexivity].
  unfold DatabaseStorage.getPlant. now rewrite first_select.
Qed.

Lemma getCareActionsForPlant_run plantId :
  getCareActionsForPlant (storageFor url) plantId now s =
  (filter (fun a => CareAction.plantId a =? plantId) (Store.careActions s), s).
Proof. now destruct url. Qed.

Lemma updateUser_run id d :
  updateUser (storageFor url) id d now s =
  (option_map (fun u => User.assign u d) (Table.lookup id (Store.users s)),
   Store.withUsers s (Table.modify id (fun u => User.assign u d) (Store.users s))).
Proof.
  destruct url; simpl.
  - unfold DatabaseStorage.updateUser.
    rewrite (surjective_pairing (Sql.update _ _ _)).
    now rewrite update_written, update_table.
  - unfold MemStorage.updateUser. rewrite get_lookup.
    destruct (Table.lookup id (Store.users s)) as [u|] eqn:E; simpl.
    + now rewrite (set_modify id (fun u => User.assign u d) u _ (fresh_distinct _ _ U) E).
    + now rewrite (modify_absent _ _ _ E), withUsers_same.
Qed.

Lemma updateUserStripeInfo_run id customer subscription :
  updateUserStripeInfo (storageFor url) id customer subscription now s =
  (option_map (fun u => User.withStripeInfo u customer subscription)
     (Table.lookup id (Store.users s)),
   Store.withUsers s
     (Table.modify id (fun u => User.withStripeInfo u customer subscription)
        (Store.users s))).
Proof.
  destruct url; simpl.
  - unfold DatabaseStorage.updateUserStripeInfo.
    rewrite (surjective_pairing (Sql.update _ _ _)).
    now rewrite update_written, update_table.
  - unfold MemStorage.updateUserStripeInfo. rewrite get_lookup.
    destruct (Table.lookup id (Store.users s)) as [u|] eqn:E; simpl.
    + now rewrite (set_modify id
                     (fun u => User.withStripeInfo u customer subscription) u _
                     (fresh_distinct _ _ U) E).
    + now rewrite (modify_absent _ _ _ E), withUsers_same.
Qed.

Lemma updatePlant_run id d :
  updatePlant (storageFor url) id d now s =
  (option_map (fun p => Plant.assign p d) (Table.lookup id (Store.plants s)),
   Store.withPlants s (Table.modify id (fun p => Plant.assign p d) (Store.plants s))).
Proof.
  destruct url; simpl.
  - unfold DatabaseStorage.updatePlant.
    rewrite (surjective_pairing (Sql.update _ _ _)).
    now rewrite update_written, update_table.
  - unfold MemStorage.updatePlant. rewrite get_lookup.
    destruct (Table.lookup id (Store.plants s)) as [p|] eqn:E; simpl.
    + now rewrite (set_modify id (fun p => Plant.assign p d) p _ (fresh_distinct _ _ P) E).
    + now rewrite (modify_absent _ _ _ E), withPlants_same.
Qed.

Lemma updateCareAction_run id d :
  updateCareAction (storageFor url) id d now s =
  (option_map (fun a => CareAction.assign a d)
     (Table.lookup id (Store.careActions s)),
   Store.withCareActions s
     (Table.modify id (fun a => CareAction.assign a d) (Store.careActions s))).
Proof.
  destruct url; simpl.
  - unfold DatabaseStorage.updateCareAction.
    rewrite (surjective_pairing (Sql.update _ _ _)).
    now rewrite update_written, update_table.
  - unfold MemStorage.updateCareAction. rewrite get_lookup.
    destruct (Table.lookup id (Store.careActions s)) as [a|] eqn:E; simpl.
    + now rewrite (set_modify id (fun a => CareAction.assign a d) a _
                     (fresh_distinct _ _ C) E).
    + now rewrite (modify_absent _ _ _ E), withCareActions_same.
Qed.

Lemma createCareAction_run i :
  createCareAction (storageFor url) i now s =
  (let row :=
     if url then CareAction.withDefaults (CareAction.ofInsert i (Store.careActionId s))
     else CareAction.ofInsert i (Store.careActionId s) in
   (row, Store.withCareActions (Store.bumpCareActionId s)
           (Store.careActions s ++ [row]))).
Proof.
  destruct url; simpl; [reflexivity|].
  unfold MemStorage.createCareAction.
  now rewrite (set_fresh _ _ _ (below_lookup _ _ (fresh_below _ _ C))).
Qed.

Lemma createPlant_run i :
  createPlant (storageFor url) i now s =
  (let row :=
     if url then Plant.withDefaults now (Plant.ofInsert i (Store.plantId s))
     else Plant.ofInsert i (Store.plantId s) in
   (row, Store.withPlants (Store.bumpPlantId s) (Store.plants s ++ [row]))).
Proof.
  destruct url; simpl; [reflexivity|].
  unfold MemStorage.createPlant.
  now rewrite (set_fresh _ _ _ (below_lookup _ _ (fresh_below _ _ P))).
Qed.

Lemma deletePlant_run id :
  snd (deletePlant (storageFor url) id now s) =
  Store.withPlants s (Table.remove id (Store.plants s)).
Proof.
  destruct url; simpl; [reflexivity|].
  unfold MemStorage.deletePlant.
  now rewrite (delete_remove _ _ (fresh_distinct _ _ P)).
Qed.

Lemma deleteCareAction_run id :
  snd (deleteCareAction (storageFor url) id now s) =
  Store.withCareActions s (Table.remove id (Store.careActions s)).
Proof.
  destruct url; simpl; [reflexivity|].
  unfold MemStorage.deleteCareAction.
  now rewrite (delete_remove _ _ (fresh_distinct _ _ C)).
Qed.

End Methods.

Section CareMethods.

Variable url : bool.
Variable now : Js.Date.
Variable s : Store.t.
Hypothesis W : wf s.

Lemma updatePlantWatered_run id :
  updatePlantWatered (storageFor url) id now s =
  (option_map (watered now) (Table.lookup id (Store.plants s)),
   Store.withPlants s (Table.modify id (watered now) (Store.plants s))).
Proof.
  pose proof (updatePlant_run url now s W id (Plant.wateredPatch now)) as R.
  destruct url; exact R.
Qed.

Lemma updatePlantFertilized_run id :
  updatePlantFertilized (storageFor url) id now s =
  (option_map (fertilized now) (Table.lookup id (Store.plants s)),
   Store.withPlants s (Table.modify id (fertilized now) (Store.plants s))).
Proof.
  pose proof (updatePlant_run url now s W id (Plant.fertilizedPatch now)) as R.
  destruct url; exact R.
Qed.

Lemma complete_run id :
  updateCareAction (storageFor url) id (CareAction.completedPatch now) now s =
  (option_map (completed now) (Table.lookup id (Store.careActions s)),
   Store.withCareActions s
     (Table.modify id (completed now) (Store.careActions s))).
Proof. exact (updateCareAction_run url now s W id (CareAction.completedPatch now)). Qed.

(** [markCareActionComplete]: the action is completed and, for a water
    or fertilize action, the care is recorded on its plant. *)
Lemma markCareActionComplete_run id :
  markCareActionComplete (storageFor url) id now s =
  match Table.lookup id (Store.careActions s) with
  | None => (None, s)
  | Some a =>
      (Some (completed now a),
       let s1 :=
         Store.withCareActions s
           (Table.modify id (completed now) (Store.careActions s)) in
       if (CareAction.actionType a =? "water")%string
       then Store.withPlants s1
              (Table.modify (CareAction.plantId a) (watered now) (Store.plants s))
       else if (CareAction.actionType a =? "fertilize")%string
       then Store.withPlants s1
              (Table.modify (CareAction.plantId a) (fertilized now) (Store.plants s))
       else s1)
  end.
Proof.
  assert (W1 : wf (Store.withCareActions s
                     (Table.modify id (completed now) (Store.careActions s))))
    by (apply wf_careActions; [exact W|reflexivity]).
  pose proof (fun u i => updatePlant_run u now _ W1 i (Plant.wateredPatch now))
    as Rw.
  pose proof (fun u i => updatePlant_run u now _ W1 i (Plant.fertilizedPatch now))
    as Rf.
  destruct url; cbn [storageFor markCareActionComplete databaseStorage memStorage].
  - unfold DatabaseStorage.markCareActionComplete.
    rewrite (surjective_pairing (Sql.update _ _ _)).
    rewrite update_written, update_table.
    destruct (Table.lookup id (Store.careActions s)) as [a|] eqn:E; simpl.
    + now destruct (CareAction.actionType a =? "water")%string,
                   (CareAction.actionType a =? "fertilize")%string.
    + f_equal. rewrite (modify_absent _ _ _ E). apply withCareActions_same.
  - unfold MemStorage.markCareActionComplete. rewrite get_lookup.
    destruct (Table.lookup id (Store.careActions s)) as [a|] eqn:E; [|reflexivity].
    change (CareAction.assign a (CareAction.completedPatch now))
      with (completed now a).
    rewrite (set_modify id (completed now) a _
               (fresh_distinct _ _ (proj2 (proj2 (proj1 (wf_iff s) W)))) E).
    f_equal. store_simpl. rewrite get_lookup.
    destruct (Table.lookup (CareAction.plantId a) (Store.plants s)) as [p|] eqn:F.
    + pose proof (lookup_key _ _ _ F) as K.
      change (key p) with (Plant.id p) in K. rewrite K.
      destruct (CareAction.actionType a =? "water")%string.
      * exact (f_equal snd (Rw false (CareAction.plantId a))).
      * destruct (CareAction.actionType a =? "fertilize")%string; [|reflexivity].
        exact (f_equal snd (Rf false (CareAction.plantId a))).
    + rewrite !(modify_absent _ _ _ F).
      destruct s.
      now destruct (CareAction.actionType a =? "water")%string,
                   (CareAction.actionType a =? "fertilize")%string.
Qed.

End CareMethods.

(** ** Running a handler *)

Lemma bind_await {A B} now (op : Op A) (k : A -> Handler.t B) w :
  Handler.bind (Handler.await now op) k w =
  k (fst (op now (store w))) (withStore w (snd (op now (store w)))).
Proof.
  unfold Handler.bind, Handler.await. now destruct (op now (store w)).
Qed.

Lemma bind_next {A B} (m : Handler.t A) (k : A -> Handler.t B) w a w' :
  m w = (Handler.Next a, w') -> Handler.bind m k w = k a w'.
Proof. unfold Handler.bind. now intros ->. Qed.

Lemma withStore_store w : withStore w (store w) = w.
Proof. now destruct w. Qed.

Lemma withNewCareActions_nil s : withNewCareActions s [] = s.
Proof.
  destruct s. unfold withNewCareActions. store_simpl. simpl.
  now rewrite app_nil_r, Z.add_0_r.
Qed.

Lemma wf_withNewCareActions s id plant user kind now frequency :
  wf s -> id = Store.careActionId s ->
  wf (withNewCareActions s (scheduledRows id plant user kind now frequency)).
Proof.
  intros W ->. unfold scheduledRows.
  destruct frequency as [days|]; [destruct (days =? 0)|];
    rewrite ?withNewCareActions_nil; try assumption.
  now apply (wf_newCareAction s _ W).
Qed.

Lemma scheduleNext_run url now me plant kind frequency w :
  wf (store w) ->
  scheduleNext (storageFor url) now me plant kind frequency w =
  (Handler.Next tt,
   withStore w
     (withNewCareActions (store w)
        (scheduledRows (Store.careActionId (store w)) plant (User.id me) kind now
           frequency))).
Proof.
  intros W. unfold scheduleNext, scheduledRows, Handler.when, Js.truthyNum.
  destruct frequency as [days|].
  - destruct (days =? 0); cbn [negb].
    + now rewrite withNewCareActions_nil, withStore_store.
    + rewrite bind_await, (createCareAction_run url now _ W).
      cbn [fst snd]. now destruct url.
  - now rewrite withNewCareActions_nil, withStore_store.
Qed.

Lemma lookup_modify {Row} `{Keyed Row} k (f : Row -> Row) rows :
  (forall r, key (f r) = key r) ->
  Table.lookup k (Table.modify k f rows) = option_map f (Table.lookup k rows).
Proof.
  intros K. induction rows as [|r rows IH]; simpl; [reflexivity|].
  destruct (key r =? k) eqn:E; [now rewrite K, E|now rewrite E].
Qed.

Lemma modify_same {Row} `{Keyed Row} k (f : Row -> Row) rows :
  (forall r, f r = r) -> Table.modify k f rows = rows.
Proof.
  intros I. induction rows as [|r rows IH]; simpl; [reflexivity|].
  rewrite IH. now destruct (key r =? k); rewrite ?I.
Qed.

Lemma recordAndReschedule_run url now me a kind record (f : Plant.t -> Plant.t)
    frequency w :
  wf (store w) ->
  (forall s, wf s ->
     record (CareAction.plantId a) now s =
     (option_map f (Table.lookup (CareAction.plantId a) (Store.plants s)),
      Store.withPlants s (Table.modify (CareAction.plantId a) f (Store.plants s)))) ->
  (forall p, Plant.id (f p) = Plant.id p) ->
  (forall p, frequency (f p) = frequency p) ->
  recordAndReschedule (storageFor url) now me a kind record frequency w =
  (Handler.Next tt,
   let s2 :=
     Store.withPlants (store w)
       (Table.modify (CareAction.plantId a) f (Store.plants (store w))) in
   withStore w
     (withNewCareActions s2
        match Table.lookup (CareAction.plantId a) (Store.plants (store w)) with
        | Some p =>
            scheduledRows (Store.careActionId (store w)) (Plant.id p) (User.id me)
              kind now (frequency p)
        | None => []
        end)).
Proof.
  intros W R Kid Kfreq. unfold recordAndReschedule.
  rewrite bind_await, (R _ W). cbn [fst snd].
  assert (W2 : wf (Store.withPlants (store w)
                     (Table.modify (CareAction.plantId a) f (Store.plants (store w)))))
    by (apply wf_plants; assumption).
  rewrite bind_await. cbn [store withStore].
  rewrite getPlant_run. cbn [fst snd]. store_simpl.
  rewrite (lookup_modify (H := Keyed_Plant) _ f _ Kid).
  destruct (Table.lookup (CareAction.plantId a) (Store.plants (store w))) as [p|];
    cbn [option_map].
  - rewrite scheduleNext_run by exact W2.
    cbn [store withStore]. store_simpl. now rewrite Kid, Kfreq.
  - unfold Handler.ret. now rewrite withNewCareActions_nil.
Qed.

Lemma completeCareAction_run url now me actionId w :
  wf (store w) ->
  completeCareAction (storageFor url) now me actionId w =
  match Table.lookup actionId (Store.careActions (store w)) with
  | None => (respond 404 (JMessage "Care action not found"), w)
  | Some a =>
      let kind := CareAction.actionType a in
      let s1 :=
        Store.withCareActions (store w)
          (Table.modify actionId (completed now) (Store.careActions (store w))) in
      let s2 :=
        Store.withPlants s1
          (Table.modify (CareAction.plantId a) (recordedOn kind now)
             (Store.plants (store w))) in
      (respond 200 (JCareAction (completed now a)),
       withStore w
         (withNewCareActions s2
            match Table.lookup (CareAction.plantId a) (Store.plants (store w)) with
            | Some p =>
                scheduledRows (Store.careActionId (store w)) (Plant.id p)
                  (User.id me) kind now (frequencyOf kind p)
            | None => []
            end))
  end.
Proof.
  intros W. unfold completeCareAction, Handler.run.
  rewrite bind_await, (complete_run url now _ W). cbn [fst snd].
  destruct (Table.lookup actionId (Store.careActions (store w))) as [a|] eqn:E;
    cbn [option_map].
  2:{ unfold Handler.reply. rewrite (modify_absent _ _ _ E).
      now rewrite withCareActions_same, withStore_store. }
  assert (W1 : wf (Store.withCareActions (store w)
                     (Table.modify actionId (completed now)
                        (Store.careActions (store w)))))
    by (apply wf_careActions; [exact W|reflexivity]).
  cbn [CareAction.actionType completed]. unfold recordedOn, frequencyOf.
  destruct (String.eqb_spec (CareAction.actionType a) "water") as [Ew|Ew].
  - erewrite bind_next.
    2:{ apply recordAndReschedule_run with (f := watered now);
          [exact W1| |reflexivity|reflexivity].
        intros s Ws. apply updatePlantWatered_run. exact Ws. }
    rewrite Ew. reflexivity.
  - destruct (String.eqb_spec (CareAction.actionType a) "fertilize") as [Ef|Ef].
    + erewrite bind_next.
      2:{ apply recordAndReschedule_run with (f := fertilized now);
            [exact W1| |reflexivity|reflexivity].
          intros s Ws. apply updatePlantFertilized_run. exact Ws. }
      rewrite Ef. reflexivity.
    + unfold Handler.bind, Handler.ret.
      rewrite (modify_same (H := Keyed_Plant)) by reflexivity.
      destruct (Table.lookup _ (Store.plants (store w)));
        rewrite withNewCareActions_nil; now destruct w as [[] ? ?].
Qed.

(** ** Completing a care action *)

Lemma filter_and {A} (p q : A -> bool) l :
  filter (fun x => p x && q x) l = filter q (filter p l).
Proof.
  induction l as [|x l IH]; simpl; [reflexivity|].
  destruct (p x); simpl; [destruct (q x)|]; now rewrite IH.
Qed.

Lemma filter_modify_out {Row} `{Keyed Row} (q : Row -> bool) k f rows :
  (forall r, q (f r) = false) ->
  filter q (Table.modify k f rows) =
  filter (fun r => negb (key r =? k)) (filter q rows).
Proof.
  intros Q. rewrite <- filter_and.
  induction rows as [|r rows IH]; simpl; [reflexivity|].
  rewrite IH. destruct (key r =? k); simpl.
  - now rewrite Q, andb_false_r.
  - now rewrite andb_true_r.
Qed.






(** ** Recording a care event on a plant *)

(** C10. In both implementations [updatePlantWatered] writes
    [lastWatered = now] and [careHealth = 100] on the plant and nothing
    else, while [updatePlantFertilized] writes [lastFertilized = now] and
    nothing else: [careHealth] and every other column keep their values,
    and so do every other plant and every other collection. *)
Theorem watering_resets_careHealth_fertilizing_does_not :
  forall url now id s,
    wf s ->
    updatePlantWatered (storageFor url) id now s =
    (option_map
       (fun p =>
          Plant.mk (Plant.id p) (Plant.userId p) (Plant.name p)
            (Plant.scientificName p) (Plant.imageUrl p) (Plant.dateAdded p)
            (Plant.waterFrequency p) (Some now) (Plant.fertilizeFrequency p)
            (Plant.lastFertilized p) (Plant.lightNeeds p) (Plant.notes p)
            (Some 100) (Plant.isPublic p))
       (Table.lookup id (Store.plants s)),
     Store.withPlants s (Table.modify id (watered now) (Store.plants s)))
    /\
    updatePlantFertilized (storageFor url) id now s =
    (option_map
       (fun p =>
          Plant.mk (Plant.id p) (Plant.userId p) (Plant.name p)
            (Plant.scientificName p) (Plant.imageUrl p) (Plant.dateAdded p)
            (Plant.waterFrequency p) (Plant.lastWatered p)
            (Plant.fertilizeFrequency p) (Some now) (Plant.lightNeeds p)
            (Plant.notes p) (Plant.careHealth p) (Plant.isPublic p))
       (Table.lookup id (Store.plants s)),
     Store.withPlants s (Table.modify id (fertilized now) (Store.plants s))).
Proof.
  intros url now id s W. split.
  - exact (updatePlantWatered_run url now s W id).
  - exact (updatePlantFertilized_run url now s W id).
Qed.

(** On the sample garden, whose fern has a care health of 80. *)
Lemma watering_resets_careHealth_fertilizing_does_not_witness :
  wf Sample.garden
  /\ option_map Plant.careHealth
       (fst (updatePlantWatered (storageFor false) 1 1000 Sample.garden))
     = Some (Some 100)
  /\ option_map Plant.careHealth
       (fst (updatePlantFertilized (storageFor false) 1 1000 Sample.garden))
     = Some (Some 80).
Proof.
  destruct (watering_resets_careHealth_fertilizing_does_not
              false 1000 1 Sample.garden eq_refl) as [Hw Hf].
  split; [reflexivity|]. rewrite Hw, Hf. split; reflexivity.
Defined.

(** ** Adding a plant *)

Lemma withNewCareActions_careActions s rows :
  Store.careActions (withNewCareActions s rows) = Store.careActions s ++ rows.
Proof. reflexivity. Qed.

Lemma postPlant_run url now me b w :
  wf (store w) ->
  postPlant (storageFor url) now me (Some b) w =
  (let s := store w in
   let uid := User.id me in
   let pid := Store.plantId s in
   let row :=
     if url
     then Plant.withDefaults now (Plant.ofInsert (Plant.withUserId b uid) pid)
     else Plant.ofInsert (Plant.withUserId b uid) pid in
   let waterRows :=
     scheduledRows (Store.careActionId s) pid uid "water" now
       (Some (Plant.i_waterFrequency b)) in
   let fertilizeRows :=
     scheduledRows (Store.careActionId s + Z.of_nat (List.length waterRows)) pid uid
       "fertilize" now (Plant.i_fertilizeFrequency b) in
   (respond 201 (JPlant (Some row)),
    withStore w
      (withNewCareActions
         (withNewCareActions
            (Store.withPlants (Store.bumpPlantId s) (Store.plants s ++ [row]))
            waterRows)
         fertilizeRows))).
Proof.
  intros W. unfold postPlant, Handler.run.
  rewrite bind_await, (createPlant_run url now _ W). cbv zeta. cbn [fst snd].
  set (row := if url then _ else _).
  assert (Rid : Plant.id row = Store.plantId (store w)) by (now destruct url).
  assert (W1 : wf (Store.withPlants (Store.bumpPlantId (store w))
                     (Store.plants (store w) ++ [row])))
    by (now apply wf_newPlant).
  erewrite bind_next; [|apply scheduleNext_run; exact W1].
  erewrite bind_next.
  2:{ apply scheduleNext_run. cbn [store withStore].
      now apply wf_withNewCareActions. }
  unfold Handler.ret. cbn [store withStore Plant.withUserId
                           Plant.i_waterFrequency Plant.i_fertilizeFrequency].
  now rewrite Rid.
Qed.




(** ** Ownership *)

(** The routes that look the plant up first refuse a plant of another
    user with 403 and touch nothing. *)
Lemma foreign_plant_is_forbidden url now me plantId p w :
  Table.lookup plantId (Store.plants (store w)) = Some p ->
  Plant.userId p <> User.id me ->
  (forall body,
     putPlant (storageFor url) now me plantId body w =
     (respond 403 (JMessage "Not authorized to update this plant"), w))
  /\ deletePlantRoute (storageFor url) now me plantId w =
     (respond 403 (JMessage "Not authorized to delete this plant"), w)
  /\ waterPlant (storageFor url) now me plantId w =
     (respond 403 (JMessage "Not authorized to water this plant"), w)
  /\ fertilizePlant (storageFor url) now me plantId w =
     (respond 403 (JMessage "Not authorized to fertilize this plant"), w)
  /\ (forall body,
        CareAction.i_plantId body = plantId ->
        postCareAction (storageFor url) now me (Some body) w =
        (respond 403
           (JMessage "Not authorized to create care action for this plant"), w)).
Proof.
  intros F N. apply Z.eqb_neq in N.
  unfold putPlant, deletePlantRoute, waterPlant, fertilizePlant, careNow,
    postCareAction, Handler.run.
  repeat split; intros;
    rewrite bind_await, getPlant_run; cbn [fst snd CareAction.withUserId
                                             CareAction.i_plantId];
    try match goal with E : CareAction.i_plantId _ = _ |- _ => rewrite E end;
    rewrite F, N; cbn [negb]; unfold Handler.reply; now rewrite withStore_store.
Qed.

(** C2, at the action of another user.  Bob is not the owner of Alice's
    pending water action, yet his [POST /api/care-actions/1/complete] is
    answered 200, and the store is written: the action is completed, the
    fern is marked watered, and a next water action is created that
    belongs to Bob.  The route never compares [action.userId] with
    [req.user.id]. *)
Theorem complete_by_another_user_is_not_refused :
  forall url,
    let result :=
      completeCareAction (storageFor url) 1000 Sample.bob 1 Sample.world in
    Table.lookup 1 (Store.careActions (store Sample.world)) = Some Sample.waterFern
    /\ CareAction.userId Sample.waterFern <> User.id Sample.bob
    /\ status (fst result) = 200
    /\ Store.careActions (store (snd result)) =
       [completed 1000 Sample.waterFern; Sample.feedFern; Sample.orphan;
        nextAction 4 1 (User.id Sample.bob) "water" 1000 7]
    /\ Store.plants (store (snd result)) = [watered 1000 Sample.fern].
Proof.
  intros [|]; repeat split; try reflexivity; cbn; discriminate.
Qed.

(** ** Metered identification *)

Lemma identify_run url now api apiKey me file w :
  wf (store w) ->
  identify (storageFor url) now api apiKey me file w =
  match file with
  | None => (respond 400 (JMessage "No image provided"), w)
  | Some image =>
      match Table.lookup (User.id me) (Store.users (store w)) with
      | None => (respond 404 (JMessage "User not found"), w)
      | Some u =>
          if exhausted u then (respond 403 (JUpgrade upgradeMessage), w)
          else if negb (Js.truthyOptStr apiKey)
          then (respond 500 (JMessage "Plant.id API key not configured"), w)
          else
            match api image with
            | None =>
                (respond 500 (JMessage "Error identifying plant"), called w image)
            | Some data =>
                (respond 200 (JIdentification data),
                 if (User.subscriptionType u =? "free")%string
                 then
                   withStore (called w image)
                     (Store.withUsers (store w)
                        (Table.modify (User.id me)
                           (withRemaining (User.identificationsRemaining u - 1))
                           (Store.users (store w))))
                 else called w image)
            end
      end
  end.
Proof.
  intros W. unfold identify, Handler.run.
  destruct file as [image|]; [|reflexivity].
  rewrite bind_await, getUser_run. cbn [fst snd]. rewrite withStore_store.
  destruct (Table.lookup (User.id me) (Store.users (store w))) as [u|] eqn:E;
    [|reflexivity].
  unfold exhausted.
  destruct ((User.subscriptionType u =? "free")%string
            && (User.identificationsRemaining u <=? 0)); [reflexivity|].
  destruct (negb (Js.truthyOptStr apiKey)); [reflexivity|].
  unfold Handler.bind at 1. unfold axiosPost.
  destruct (api image) as [data|]; [|reflexivity].
  unfold Handler.when.
  destruct (User.subscriptionType u =? "free")%string; [|reflexivity].
  unfold Handler.bind at 1. rewrite bind_await. cbn [store].
  rewrite (updateUser_run url now _ W).
  cbn [fst snd]. pose proof (lookup_key _ _ _ E) as K.
  change (key u) with (User.id u) in K. now rewrite K.
Qed.

Lemma Forall_modify {Row} `{Keyed Row} (P : Row -> Prop) k f rows :
  (forall r, P (f r)) -> Forall P rows -> Forall P (Table.modify k f rows).
Proof.
  intros Pf. induction 1 as [|r rows Pr _ IH]; simpl; constructor; try assumption.
  now destruct (key r =? k).
Qed.

Lemma identify_keeps_invariants url now api apiKey me file w :
  wf (store w) -> quotaNonNegative (store w) ->
  let w' := snd (identify (storageFor url) now api apiKey me file w) in
  wf (store w') /\ quotaNonNegative (store w').
Proof.
  intros W Q. cbv zeta. rewrite (identify_run _ _ _ _ _ _ _ W).
  destruct file as [image|]; [|now split].
  destruct (Table.lookup _ _) as [u|] eqn:E; [|now split].
  destruct (exhausted u) eqn:X; [now split|].
  destruct (negb (Js.truthyOptStr apiKey)); [now split|].
  destruct (api image); [|now split].
  destruct (User.subscriptionType u =? "free")%string eqn:F; [|now split].
  cbn [snd store withStore]. split.
  - now apply wf_users.
  - unfold quotaNonNegative. store_simpl.
    apply (Forall_modify (H := Keyed_User)); [|exact Q].
    intros r. cbn. unfold exhausted in X. rewrite F in X. cbn in X.
    apply Z.leb_gt in X. lia.
Qed.

(** C4. For a free user with no identifications left, [POST /api/identify]
    with an image answers 403 with [upgrade: true]; the recognition API is
    not called and the store is as before, so the quota stays 0 (this
    also holds of a request without an image, which is answered 400).
    And the quota never becomes negative: when no user has a negative
    quota, none has one after any sequence of identify requests. *)
Theorem exhausted_quota_is_denied_and_never_negative :
  forall url w,
    wf (store w) ->
    (forall now api apiKey me file u,
       Table.lookup (User.id me) (Store.users (store w)) = Some u ->
       User.subscriptionType u = "free" ->
       User.identificationsRemaining u = 0 ->
       let result := identify (storageFor url) now api apiKey me file w in
       snd result = w
       /\ (forall image,
             file = Some image ->
             fst result = respond 403 (JUpgrade upgradeMessage)))
    /\
    (forall reqs,
       quotaNonNegative (store w) ->
       quotaNonNegative (store (identifyAll (storageFor url) reqs w))).
Proof.
  intros url w W. split.
  - intros now api apiKey me file u E F Z0. cbv zeta.
    rewrite (identify_run _ _ _ _ _ _ _ W), E.
    unfold exhausted. rewrite F, Z0. cbn [String.eqb Z.leb andb].
    destruct file as [image|]; split; try reflexivity;
      intros image' [=]; reflexivity.
  - intros reqs. revert w W.
    induction reqs as [|r reqs IH]; intros w W Q; [exact Q|].
    cbn [identifyAll].
    destruct (identify_keeps_invariants url (at_ r) (plantIdApi r) (apiKey_ r)
                (who r) (file_ r) w W Q) as [W' Q'].
    now apply IH.
Qed.

(** On the sample garden: Carol is refused, and the three sample requests
    leave no quota negative. *)
Lemma exhausted_quota_is_denied_and_never_negative_witness :
  wf (store Sample.world)
  /\ identify (storageFor true) 1000 Sample.apiUp (Some "key") Sample.carol
       (Some "leaf") Sample.world
     = (respond 403 (JUpgrade upgradeMessage), Sample.world)
  /\ quotaNonNegative
       (store (identifyAll (storageFor true) Sample.requests Sample.world)).
Proof.
  destruct (exhausted_quota_is_denied_and_never_negative
              true Sample.world eq_refl) as [Denied Never].
  split; [reflexivity|]. split.
  - destruct (Denied 1000 Sample.apiUp (Some "key") Sample.carol (Some "leaf")
                Sample.carol eq_refl eq_refl eq_refl) as [Same Answer].
    rewrite (surjective_pairing (identify _ _ _ _ _ _ _)).
    now rewrite Same, (Answer "leaf" eq_refl).
  - apply Never. repeat constructor; cbn; lia.
Defined.

(** C5. [POST /api/identify] writes the store only after the recognition
    API has answered, and only for a free user: whenever the store
    differs afterwards, the request carried an image, the call succeeded,
    the user is on the free plan and the answer is 200.  When a request
    reaches the API (the user is not an exhausted free user and the API
    key is configured): if the call fails, the answer is 500 and the
    store is as before; if it succeeds, the answer is 200 with the API's
    data and, for a free user, the quota of that user's row is lower by
    exactly one and nothing else in the store differs, while for any other
    user the store is as before. *)
Theorem quota_is_spent_only_on_successful_identification :
  forall url now api apiKey me w,
    wf (store w) ->
    (forall file,
       store (snd (identify (storageFor url) now api apiKey me file w)) <> store w ->
       exists image data u,
         file = Some image
         /\ api image = Some data
         /\ Table.lookup (User.id me) (Store.users (store w)) = Some u
         /\ User.subscriptionType u = "free"
         /\ fst (identify (storageFor url) now api apiKey me file w) =
            respond 200 (JIdentification data))
    /\
    (forall image u,
       Table.lookup (User.id me) (Store.users (store w)) = Some u ->
       exhausted u = false ->
       Js.truthyOptStr apiKey = true ->
       let result := identify (storageFor url) now api apiKey me (Some image) w in
       (api image = None ->
        result = (respond 500 (JMessage "Error identifying plant"), called w image)
        /\ store (snd result) = store w)
       /\
       (forall data,
          api image = Some data ->
          fst result = respond 200 (JIdentification data)
          /\ identifyCalls (snd result) = identifyCalls w ++ [image]
          /\ (User.subscriptionType u = "free" ->
              store (snd result) =
              Store.withUsers (store w)
                (Table.modify (User.id me)
                   (withRemaining (User.identificationsRemaining u - 1))
                   (Store.users (store w)))
              /\ Table.lookup (User.id me) (Store.users (store (snd result))) =
                 Some (withRemaining (User.identificationsRemaining u - 1) u))
          /\ (User.subscriptionType u <> "free" -> store (snd result) = store w))).
Proof.
  intros url now api apiKey me w W. split.
  - intros file. rewrite (identify_run _ _ _ _ _ _ _ W).
    destruct file as [image|]; [|intros N; exfalso; apply N; reflexivity].
    destruct (Table.lookup _ _) as [u|] eqn:E;
      [|intros N; exfalso; apply N; reflexivity].
    destruct (exhausted u); [intros N; exfalso; apply N; reflexivity|].
    destruct (negb (Js.truthyOptStr apiKey));
      [intros N; exfalso; apply N; reflexivity|].
    destruct (api image) as [data|] eqn:A;
      [|intros N; exfalso; apply N; reflexivity].
    destruct (String.eqb_spec (User.subscriptionType u) "free") as [F|F];
      [|intros N; exfalso; apply N; reflexivity].
    intros _. exists image, data, u. repeat split; assumption.
  - intros image u E X K result. subst result.
    rewrite (identify_run _ _ _ _ _ _ _ W), E, X, K. cbn [negb]. split.
    + now intros ->.
    + intros data ->. cbn [fst snd].
      destruct (String.eqb_spec (User.subscriptionType u) "free") as [F|F].
      * repeat split; try reflexivity; [|contradiction].
        cbn [store withStore]. store_simpl.
        now rewrite (lookup_modify (H := Keyed_User)), E.
      * repeat split; try reflexivity; now intros.
Qed.

(** On the sample garden: Alice keeps her 5 identifications when the API
    is down and has 4 after it has answered. *)
Lemma quota_is_spent_only_on_successful_identification_witness :
  wf (store Sample.world)
  /\ store (snd (identify (storageFor false) 1000 Sample.apiDown (Some "key")
                   Sample.alice (Some "leaf") Sample.world))
     = store Sample.world
  /\ Table.lookup 1
       (Store.users
          (store (snd (identify (storageFor false) 1000 Sample.apiUp (Some "key")
                         Sample.alice (Some "leaf") Sample.world))))
     = Some (withRemaining 4 Sample.alice).
Proof.
  split; [reflexivity|]. split.
  - destruct (quota_is_spent_only_on_successful_identification
                false 1000 Sample.apiDown (Some "key") Sample.alice
                Sample.world eq_refl) as [_ Reached].
    destruct (Reached "leaf" Sample.alice eq_refl eq_refl eq_refl) as [Down _].
    exact (proj2 (Down eq_refl)).
  - destruct (quota_is_spent_only_on_successful_identification
                false 1000 Sample.apiUp (Some "key") Sample.alice
                Sample.world eq_refl) as [_ Reached].
    destruct (Reached "leaf" Sample.alice eq_refl eq_refl eq_refl) as [_ Up].
    destruct (Up "{suggestions}" eq_refl) as (_ & _ & Free & _).
    exact (proj2 (Free eq_refl)).
Defined.

(** ** Starting a trial *)




(** ** The trial sweep *)

Lemma distinct_NoDup ks : Invariant.distinct ks = true -> NoDup ks.
Proof.
  induction ks as [|k ks IH]; simpl; [constructor|].
  intros D. apply andb_prop in D. destruct D as [D1 D2].
  constructor; [|exact (IH D2)].
  intros I. apply negb_true_iff in D1.
  assert (existsb (Z.eqb k) ks = true) as T
    by (apply existsb_exists; exists k; split; [exact I|apply Z.eqb_refl]).
  congruence.
Qed.

Lemma modify_notin {Row} `{Keyed Row} k (f : Row -> Row) rows :
  ~ In k (Table.keys rows) -> Table.modify k f rows = rows.
Proof.
  induction rows as [|r rows IH]; simpl; [reflexivity|].
  intros N. destruct (Z.eqb_spec (key r) k) as [E|_]; [tauto|].
  f_equal. apply IH. tauto.
Qed.

Lemma modify_middle {Row} `{Keyed Row} (f : Row -> Row) pre r rest :
  NoDup (Table.keys (pre ++ r :: rest)) ->
  Table.modify (key r) f (pre ++ r :: rest) = pre ++ f r :: rest.
Proof.
  intros N. unfold Table.keys in N. rewrite map_app in N. simpl in N.
  pose proof (NoDup_remove_2 _ _ _ N) as Out.
  unfold Table.modify. rewrite map_app. simpl. rewrite Z.eqb_refl.
  f_equal; [|f_equal]; apply modify_notin; intros I; apply Out, in_or_app; tauto.
Qed.

(** The body of the sweep's loop. *)
Lemma visit_run now u w :
  Sweep.visit now u w =
  (Handler.Next tt,
   mkWorld
     (if trialOver now u
      then
        Store.withUsers (store w)
          (Table.modify (User.id u) downgraded (Store.users (store w)))
      else store w)
     (outbox w ++ reminders now u)
     (identifyCalls w))
  \/ (User.subscriptionType u =? "trial")%string = false.
Proof.
  destruct (User.subscriptionType u =? "trial")%string eqn:T; [left|now right].
  unfold Sweep.visit, trialOver, reminders, sweptDays. rewrite T. cbn [andb].
  destruct (Js.truthyStr (User.email u)); cbn [negb].
  2:{ unfold Handler.ret. rewrite app_nil_r. now destruct w. }
  destruct (User.trialEndDate u) as [e|]; cbn [option_map].
  2:{ unfold Handler.ret. rewrite app_nil_r. now destruct w. }
  unfold Handler.bind, Handler.when, Handler.send, Handler.ret, Handler.await.
  destruct ((Sweep.daysRemaining now e =? 1) || (Sweep.daysRemaining now e =? 2));
    destruct (Sweep.daysRemaining now e <=? 0); cbn;
    rewrite ?app_nil_r; now destruct w.
Qed.

Lemma sweep_loop now todo :
  forall pre w,
    Store.users (store w) = pre ++ todo ->
    NoDup (Table.keys (pre ++ todo)) ->
    Handler.forEach
      (Sql.select (fun u => (User.subscriptionType u =? "trial")%string) todo)
      (Sweep.visit now) w =
    (Handler.Next tt,
     mkWorld
       (Store.withUsers (store w)
          (pre ++ map (fun u => if trialOver now u then downgraded u else u) todo))
       (outbox w ++ flat_map (reminders now) todo)
       (identifyCalls w)).
Proof.
  unfold Sql.select. induction todo as [|u todo IH]; intros pre w E N.
  - cbn. rewrite !app_nil_r in *. rewrite <- E. now destruct w as [[] ? ?].
  - assert (Skip : (User.subscriptionType u =? "trial")%string = false ->
                   trialOver now u = false /\ reminders now u = []).
    { intros T. unfold trialOver, reminders, sweptDays. now rewrite T. }
    assert (Step : forall w1 u1,
               Store.users (store w1) = (pre ++ [u1]) ++ todo ->
               User.id u1 = User.id u ->
               Handler.forEach
                 (filter (fun u => (User.subscriptionType u =? "trial")%string)
                    todo) (Sweep.visit now) w1 =
               (Handler.Next tt,
                mkWorld
                  (Store.withUsers (store w1)
                     ((pre ++ [u1])
                      ++ map (fun u => if trialOver now u then downgraded u else u)
                           todo))
                  (outbox w1 ++ flat_map (reminders now) todo)
                  (identifyCalls w1))).
    { intros w1 u1 E1 K. apply IH; [exact E1|].
      unfold Table.keys in *. rewrite <- app_assoc. cbn [app].
      rewrite map_app in *. cbn [map] in *.
      change (key u1) with (User.id u1). rewrite K. exact N. }
    cbn [filter flat_map map].
    destruct (User.subscriptionType u =? "trial")%string eqn:T.
    + cbn [Handler.forEach]. unfold Handler.bind at 1.
      destruct (visit_run now u w) as [V|V]; [|congruence]. rewrite V.
      pose proof (modify_middle (H := Keyed_User) downgraded pre u todo N) as MM.
      change (key u) with (User.id u) in MM. rewrite E, MM.
      destruct (trialOver now u).
      * rewrite (Step _ (downgraded u)); [|cbn; now rewrite <- app_assoc|reflexivity].
        cbn [store outbox identifyCalls]. store_simpl.
        now rewrite <- !app_assoc.
      * rewrite (Step _ u); [|cbn; now rewrite E, <- app_assoc|reflexivity].
        cbn [store outbox identifyCalls].
        rewrite <- !app_assoc. now destruct w as [[] ? ?].
    + destruct (Skip eq_refl) as [O R]. rewrite O, R.
      rewrite (Step w u); [|now rewrite E, <- app_assoc|reflexivity].
      now rewrite <- !app_assoc.
Qed.

Lemma ceilDiv_spec x d :
  0 < d -> (Js.ceilDiv x d - 1) * d < x <= Js.ceilDiv x d * d.
Proof.
  intros D. unfold Js.ceilDiv.
  pose proof (Z.div_mod (- x) d) as M.
  pose proof (Z.mod_pos_bound (- x) d D) as B. nia.
Qed.

(** C8, as amended.  One tick of the trial sweep, for every user: a user
    on a trial with a non-empty e-mail address and a trial end date has
    [daysRemaining = ceil((trialEndDate - now) / 1 day)], is sent one
    reminder exactly when that is 1 or 2, and is set to the free plan with
    3 identifications exactly when it is at most 0; every other user, and
    so every user who is not on a trial, is left as it is and sent
    nothing. *)
Theorem sweep_reminds_at_one_or_two_days_and_downgrades_when_over :
  forall now w,
    wf (store w) ->
    let w' := Sweep.tick now w in
    store w' =
    Store.withUsers (store w)
      (map (fun u => if trialOver now u then downgraded u else u)
         (Store.users (store w)))
    /\ outbox w' = outbox w ++ flat_map (reminders now) (Store.users (store w))
    /\ identifyCalls w' = identifyCalls w
    /\ (forall u,
          User.subscriptionType u <> "trial" ->
          trialOver now u = false /\ reminders now u = [])
    /\ (forall u ends,
          User.subscriptionType u = "trial" ->
          User.email u <> "" ->
          User.trialEndDate u = Some ends ->
          let days := Sweep.daysRemaining now ends in
          (days - 1) * Js.msPerDay < ends - now <= days * Js.msPerDay
          /\ trialOver now u = (days <=? 0)
          /\ reminders now u =
             if (days =? 1) || (days =? 2)
             then [TrialEndingEmail (User.email u) days] else []).
Proof.
  intros now w W w'. subst w'. unfold Sweep.tick.
  rewrite (sweep_loop now (Store.users (store w)) [] w eq_refl).
  2:{ apply distinct_NoDup. apply wf_iff in W. destruct W as [U _].
      exact (fresh_distinct _ _ U). }
  cbn [snd store outbox identifyCalls app].
  do 3 (split; [reflexivity|]). split.
  - intros u T. apply String.eqb_neq in T.
    unfold trialOver, reminders, sweptDays. now rewrite T.
  - intros u ends T M E. apply String.eqb_neq in M.
    unfold trialOver, reminders, sweptDays, Js.truthyStr. rewrite T, M, E.
    split; [apply ceilDiv_spec; reflexivity|]. now split.
Qed.

(** On the sample trial users: Dave is reminded, Erin is downgraded. *)
Lemma sweep_reminds_at_one_or_two_days_and_downgrades_when_over_witness :
  wf (store Sample.trialWorld)
  /\ Store.users (store (Sweep.tick 1000 Sample.trialWorld)) =
     [Sample.alice; Sample.dave; downgraded Sample.erin]
  /\ outbox (Sweep.tick 1000 Sample.trialWorld) =
     [TrialEndingEmail "dave@example.com" 2].
Proof.
  destruct (sweep_reminds_at_one_or_two_days_and_downgrades_when_over
              1000 Sample.trialWorld eq_refl) as (S & O & _).
  split; [reflexivity|]. rewrite S, O. split; reflexivity.
Defined.

(** C8, as stated, fails: Frank is on a trial that is over and his e-mail
    address is not null, but it is the empty string, and the sweep skips
    him: he stays on the trial. *)
Lemma trial_user_with_empty_email_is_skipped :
  User.subscriptionType Sample.frank = "trial"
  /\ User.trialEndDate Sample.frank = Some 0
  /\ Sweep.daysRemaining 1000 0 <= 0
  /\ Sweep.tick 1000 Sample.frankWorld = Sample.frankWorld.
Proof. repeat split. discriminate. Qed.

(** ** The two implementations side by side *)

Lemma filter_all {A} (l : list A) : filter (fun _ => true) l = l.
Proof. induction l as [|x l IH]; simpl; [reflexivity|now rewrite IH]. Qed.

Lemma known_modify k f cs :
  (forall a, present (CareAction.isCompleted a) = true ->
             present (CareAction.isCompleted (f a)) = true) ->
  forallb (fun a => present (CareAction.isCompleted a)) cs = true ->
  forallb (fun a => present (CareAction.isCompleted a))
          (Table.modify (H := Keyed_CareAction) k f cs) = true.
Proof.
  intros P. induction cs as [|a cs IH]; simpl; [reflexivity|].
  intros K. apply andb_prop in K. destruct K as [K1 K2].
  rewrite (IH K2), andb_true_r. destruct (key a =? k); [now apply P|exact K1].
Qed.

Lemma known_remove k cs :
  forallb (fun a => present (CareAction.isCompleted a)) cs = true ->
  forallb (fun a => present (CareAction.isCompleted a))
          (Table.remove (H := Keyed_CareAction) k cs) = true.
Proof.
  induction cs as [|a cs IH]; simpl; [reflexivity|].
  intros K. apply andb_prop in K. destruct K as [K1 K2].
  destruct (key a =? k); simpl; [exact (IH K2)|now rewrite K1, (IH K2)].
Qed.

Lemma known_assign a d :
  present (CareAction.isCompleted a) = true ->
  present (CareAction.isCompleted (CareAction.assign a d)) = true.
Proof. destruct a, d as [? []]; simpl; auto. Qed.

Lemma sameAnswer_refl a : sameAnswer a a.
Proof. destruct a; simpl; auto using Permutation_refl. Qed.

Lemma sameAnswer_trans a b c : sameAnswer a b -> sameAnswer b c -> sameAnswer a c.
Proof.
  destruct a, b; simpl; intros E; try discriminate E;
    destruct c; simpl; intros F; try discriminate F;
    try (eapply Permutation_trans; eassumption); congruence || exact I.
Qed.

(** One call: the two implementations leave the same store, return the
    same value (a delete apart), and keep the invariants. *)
Lemma perform_agree c now s :
  wf s -> completionKnown s = true -> comparable c = true ->
  snd (perform memStorage c now s) = snd (perform databaseStorage c now s)
  /\ sameAnswer (fst (perform memStorage c now s))
                (fst (perform databaseStorage c now s))
  /\ wf (snd (perform databaseStorage c now s))
  /\ completionKnown (snd (perform databaseStorage c now s)) = true.
Proof.
  intros W K C.
  change memStorage with (storageFor false).
  change databaseStorage with (storageFor true).
  unfold completionKnown in *.
  destruct c; unfold perform, answering; cbn [fst snd].
  - rewrite !getUser_run. repeat split; assumption.
  - rewrite !(updateUser_run _ now s W). cbn [fst snd].
    repeat split; [now apply wf_users|exact K].
  - rewrite !(updateUserStripeInfo_run _ now s W). cbn [fst snd].
    repeat split; [now apply wf_users|exact K].
  - cbn. rewrite filter_all. repeat split; auto using Permutation_refl.
  - cbn. repeat split; auto using Permutation_refl.
  - rewrite !getPlant_run. repeat split; assumption.
  - rewrite !(createPlant_run _ now s W). cbv zeta. cbn [fst snd].
    cbn [comparable] in C.
    destruct insertPlant as [? ? ? ? [?|] ? ? ? ? ? ? [?|] [?|]];
      try discriminate C.
    repeat split; [now apply wf_newPlant|exact K].
  - rewrite !(updatePlant_run _ now s W). cbn [fst snd].
    repeat split; [now apply wf_plants|exact K].
  - rewrite !(deletePlant_run _ now s W).
    repeat split; [now apply wf_removePlant|exact K].
  - rewrite !(updatePlantWatered_run _ now s W). cbn [fst snd].
    repeat split; [now apply wf_plants|exact K].
  - rewrite !(updatePlantFertilized_run _ now s W). cbn [fst snd].
    repeat split; [now apply wf_plants|exact K].
  - cbn. repeat split; auto using Permutation_refl.
  - cbn. repeat split; auto using Permutation_refl.
  - rewrite !getCareActionsForPlant_run. cbn.
    repeat split; auto using Permutation_refl.
  - cbn. repeat split; try assumption.
    erewrite filter_ext_in; [apply Permutation_refl|]. intros a I.
    rewrite forallb_forall in K. specialize (K a I).
    now destruct (CareAction.isCompleted a).
  - rewrite !(createCareAction_run _ now s W). cbv zeta. cbn [fst snd].
    cbn [comparable] in C.
    destruct insertCareAction as [? ? ? ? ? [?|]]; try discriminate C.
    repeat split; [now apply wf_newCareAction|].
    store_simpl. rewrite forallb_app, K. reflexivity.
  - rewrite !(updateCareAction_run _ now s W). cbn [fst snd].
    repeat split; [now apply wf_careActions|].
    store_simpl. apply known_modify; [|exact K].
    intros a. apply known_assign.
  - rewrite !(markCareActionComplete_run _ now s W).
    destruct (Table.lookup id (Store.careActions s)) as [a|]; cbn [fst snd];
      [|repeat split; assumption].
    assert (W1 : wf (Store.withCareActions s
                       (Table.modify id (completed now) (Store.careActions s))))
      by (apply wf_careActions; [exact W|reflexivity]).
    assert (K1 : forallb (fun a => present (CareAction.isCompleted a))
                   (Table.modify id (completed now) (Store.careActions s)) = true)
      by (apply known_modify; [reflexivity|exact K]).
    repeat split.
    + destruct (CareAction.actionType a =? "water")%string;
        [exact (wf_plants _ _ (watered now) W1 (fun _ => eq_refl))|].
      destruct (CareAction.actionType a =? "fertilize")%string;
        [exact (wf_plants _ _ (fertilized now) W1 (fun _ => eq_refl))|exact W1].
    + now destruct (CareAction.actionType a =? "water")%string,
                   (CareAction.actionType a =? "fertilize")%string.
  - rewrite !(deleteCareAction_run _ now s W).
    repeat split; [now apply wf_removeCareAction|].
    store_simpl. now apply known_remove.
Qed.


(** *** The order of the rows does not matter *)

Lemma lookup_perm {Row} `{Keyed Row} k (l l' : list Row) :
  Permutation l l' -> NoDup (Table.keys l) -> Table.lookup k l = Table.lookup k l'.
Proof.
  unfold Table.lookup, Table.keys.
  induction 1 as [|x l l' P IH|x y l|l l' l'' P1 IH1 P2 IH2]; intros N.
  - reflexivity.
  - cbn [find]. destruct (key x =? k); [reflexivity|].
    apply IH. now inversion N.
  - cbn [find]. destruct (key y =? k) eqn:Ey, (key x =? k) eqn:Ex; try reflexivity.
    apply Z.eqb_eq in Ey, Ex. inversion N as [|? ? Out _]; subst.
    exfalso. apply Out. left. congruence.
  - rewrite IH1 by exact N. apply IH2.
    eapply Permutation_NoDup; [|exact N]. now apply Permutation_map.
Qed.

Lemma filter_perm {A} (q : A -> bool) (l l' : list A) :
  Permutation l l' -> Permutation (filter q l) (filter q l').
Proof.
  induction 1 as [|x l l' P IH|x y l|l l' l'' P1 IH1 P2 IH2]; cbn [filter].
  - apply perm_nil.
  - destruct (q x); [now apply perm_skip|exact IH].
  - destruct (q x), (q y); try apply Permutation_refl. apply perm_swap.
  - now apply Permutation_trans with (filter q l').
Qed.

Lemma modify_perm {Row} `{Keyed Row} k (f : Row -> Row) (l l' : list Row) :
  Permutation l l' -> Permutation (Table.modify k f l) (Table.modify k f l').
Proof. apply Permutation_map. Qed.

Lemma remove_perm {Row} `{Keyed Row} k (l l' : list Row) :
  Permutation l l' -> Permutation (Table.remove k l) (Table.remove k l').
Proof. apply filter_perm. Qed.

Lemma NoDup_distinct ks : NoDup ks -> Invariant.distinct ks = true.
Proof.
  induction 1 as [|k ks Out N IH]; cbn [Invariant.distinct]; [reflexivity|].
  rewrite IH, andb_true_r. apply negb_true_iff.
  destruct (existsb (Z.eqb k) ks) eqn:E; [|reflexivity].
  apply existsb_exists in E. destruct E as (x & I & E).
  apply Z.eqb_eq in E. subst x. contradiction.
Qed.

Lemma fresh_perm n ks ks' :
  Permutation ks ks' -> Invariant.fresh n ks = true -> Invariant.fresh n ks' = true.
Proof.
  unfold Invariant.fresh, Invariant.below. intros P F.
  apply andb_prop in F. destruct F as [D B]. apply andb_true_intro. split.
  - apply NoDup_distinct. apply (Permutation_NoDup P). now apply distinct_NoDup.
  - rewrite forallb_forall in *. intros k I. apply B.
    exact (Permutation_in _ (Permutation_sym P) I).
Qed.

Lemma sameRows_refl s : sameRows s s.
Proof. unfold sameRows. auto 7 using Permutation_refl. Qed.

Lemma sameRows_trans s d e : sameRows s d -> sameRows d e -> sameRows s e.
Proof.
  intros (U & P & C & NU & NP & NC) (U' & P' & C' & NU' & NP' & NC').
  unfold sameRows. repeat split; try congruence;
    eapply Permutation_trans; eassumption.
Qed.

Lemma wf_sameRows s d : wf s -> sameRows s d -> wf d.
Proof.
  rewrite !wf_iff. intros (FU & FP & FC) (U & P & C & NU & NP & NC).
  rewrite <- NU, <- NP, <- NC. unfold Table.keys. repeat split.
  - exact (fresh_perm _ _ _ (Permutation_map key U) FU).
  - exact (fresh_perm _ _ _ (Permutation_map key P) FP).
  - exact (fresh_perm _ _ _ (Permutation_map key C) FC).
Qed.

Lemma wf_NoDup s :
  wf s ->
  NoDup (Table.keys (Store.users s)) /\ NoDup (Table.keys (Store.plants s))
  /\ NoDup (Table.keys (Store.careActions s)).
Proof.
  rewrite wf_iff. intros (U & P & C).
  repeat split; apply distinct_NoDup; eapply fresh_distinct; eassumption.
Qed.

Ltac rows_solve :=
  unfold sameRows; store_simpl;
  repeat split;
  try assumption; try congruence;
  try (apply modify_perm; assumption);
  try (apply remove_perm; assumption);
  try (apply filter_perm; assumption);
  try (apply Permutation_app_tail; assumption).

(** One call of [DatabaseStorage] on the same rows held in another order:
    the same rows are left, and the same answer is given. *)
Lemma perform_sameRows c now s d :
  wf s -> sameRows s d ->
  sameRows (snd (perform databaseStorage c now s))
           (snd (perform databaseStorage c now d))
  /\ sameAnswer (fst (perform databaseStorage c now s))
                (fst (perform databaseStorage c now d)).
Proof.
  intros W R. pose proof (wf_sameRows _ _ W R) as W'.
  destruct (wf_NoDup _ W) as (DU & DP & DC).
  pose proof R as (U & P & C & NU & NP & NC).
  pose proof (fun k => lookup_perm (H := Keyed_User) k _ _ U DU) as LU.
  pose proof (fun k => lookup_perm (H := Keyed_Plant) k _ _ P DP) as LP.
  pose proof (fun k => lookup_perm (H := Keyed_CareAction) k _ _ C DC) as LC.
  change databaseStorage with (storageFor true).
  destruct c; unfold perform, answering; cbn [fst snd].
  - rewrite !getUser_run. cbn [fst snd sameAnswer]. now rewrite LU.
  - rewrite (updateUser_run _ now s W), (updateUser_run _ now d W').
    cbn [fst snd sameAnswer]. rewrite LU. split; [rows_solve|reflexivity].
  - rewrite (updateUserStripeInfo_run _ now s W),
      (updateUserStripeInfo_run _ now d W').
    cbn [fst snd sameAnswer]. rewrite LU. split; [rows_solve|reflexivity].
  - cbn. split; [exact R|now apply filter_perm].
  - cbn. split; [exact R|now apply filter_perm].
  - rewrite !getPlant_run. cbn [fst snd sameAnswer]. now rewrite LP.
  - rewrite (createPlant_run _ now s W), (createPlant_run _ now d W').
    cbv zeta. cbn [fst snd sameAnswer]. rewrite <- NP.
    split; [rows_solve|reflexivity].
  - rewrite (updatePlant_run _ now s W), (updatePlant_run _ now d W').
    cbn [fst snd sameAnswer]. rewrite LP. split; [rows_solve|reflexivity].
  - rewrite (deletePlant_run _ now s W), (deletePlant_run _ now d W').
    split; [rows_solve|exact I].
  - rewrite (updatePlantWatered_run _ now s W), (updatePlantWatered_run _ now d W').
    cbn [fst snd sameAnswer]. rewrite LP. split; [rows_solve|reflexivity].
  - rewrite (updatePlantFertilized_run _ now s W),
      (updatePlantFertilized_run _ now d W').
    cbn [fst snd sameAnswer]. rewrite LP. split; [rows_solve|reflexivity].
  - cbn. split; [exact R|now apply filter_perm].
  - cbn. split; [exact R|now apply filter_perm].
  - rewrite !getCareActionsForPlant_run. cbn [fst snd sameAnswer].
    split; [exact R|now apply filter_perm].
  - cbn. split; [exact R|now apply filter_perm].
  - rewrite (createCareAction_run _ now s W), (createCareAction_run _ now d W').
    cbv zeta. cbn [fst snd sameAnswer]. rewrite <- NC.
    split; [rows_solve|reflexivity].
  - rewrite (updateCareAction_run _ now s W), (updateCareAction_run _ now d W').
    cbn [fst snd sameAnswer]. rewrite LC. split; [rows_solve|reflexivity].
  - rewrite (markCareActionComplete_run _ now s W),
      (markCareActionComplete_run _ now d W').
    rewrite LC.
    destruct (Table.lookup id (Store.careActions d)) as [a|];
      cbn [fst snd sameAnswer]; [|split; [exact R|reflexivity]].
    split; [|reflexivity]. cbv zeta.
    destruct (CareAction.actionType a =? "water")%string; [rows_solve|].
    destruct (CareAction.actionType a =? "fertilize")%string; rows_solve.
  - rewrite (deleteCareAction_run _ now s W), (deleteCareAction_run _ now d W').
    split; [rows_solve|exact I].
Qed.

(** The calls made of [DatabaseStorage] with the rows kept in the order in
    which they were written are one run of the database. *)
Lemma performAll_databaseRun calls s :
  databaseRun calls s (fst (performAll databaseStorage calls s))
                      (snd (performAll databaseStorage calls s)).
Proof.
  revert s. induction calls as [|[now c] calls IH]; intros s.
  - apply run_end.
  - cbn [performAll].
    rewrite (surjective_pairing (perform databaseStorage c now s)).
    rewrite (surjective_pairing (performAll databaseStorage calls _)).
    cbn [fst snd]. apply run_call; [apply sameRows_refl|apply IH].
Qed.

(** [MemStorage] on its store and a run of the database on the same rows,
    held in whatever order. *)
Lemma run_agree calls :
  forall m d answers d',
    wf m ->
    completionKnown m = true ->
    forallb (fun c => comparable (snd c)) calls = true ->
    sameRows m d ->
    databaseRun calls d answers d' ->
    sameRows (snd (performAll memStorage calls m)) d'
    /\ Forall2 sameAnswer (fst (performAll memStorage calls m)) answers.
Proof.
  induction calls as [|[now c] calls IH]; intros m d answers d' W K C R Run.
  - inversion Run; subst. split; [exact R|constructor].
  - inversion Run as [|? ? ? ? held answers' ? Held Rest]; subst.
    cbn [forallb snd] in C. apply andb_prop in C. destruct C as [C1 C2].
    destruct (perform_agree c now m W K C1) as (S & A & W1 & K1).
    destruct (perform_sameRows c now m held W (sameRows_trans _ _ _ R Held))
      as (R1 & A1).
    cbn [performAll].
    rewrite (surjective_pairing (perform memStorage c now m)).
    rewrite (surjective_pairing (performAll memStorage calls _)).
    cbn [fst snd]. rewrite S.
    destruct (IH _ _ _ _ W1 K1 C2 R1 Rest) as (R2 & A2).
    split; [exact R2|].
    constructor; [exact (sameAnswer_trans _ _ _ A A1)|exact A2].
Qed.




(** * Further properties *)

(** ** The storage methods *)

Lemma lookup_snoc_new {Row} `{Keyed Row} k rows r :
  Table.lookup k rows = None ->
  Table.lookup k (rows ++ [r]) = if key r =? k then Some r else None.
Proof.
  induction rows as [|x rows IH]; simpl; [reflexivity|].
  destruct (key x =? k); [discriminate|exact IH].
Qed.

Lemma lookup_snoc_old {Row} `{Keyed Row} k rows r :
  key r <> k -> Table.lookup k (rows ++ [r]) = Table.lookup k rows.
Proof.
  intros N. apply Z.eqb_neq in N.
  induction rows as [|x rows IH]; simpl; [now rewrite N|].
  now destruct (key x =? k).
Qed.

Lemma lookup_remove_same {Row} `{Keyed Row} k rows :
  Table.lookup k (Table.remove k rows) = None.
Proof.
  induction rows as [|x rows IH]; simpl; [reflexivity|].
  destruct (key x =? k) eqn:E; simpl; [exact IH|now rewrite E].
Qed.

Lemma lookup_remove_other {Row} `{Keyed Row} k k' rows :
  k' <> k -> Table.lookup k' (Table.remove k rows) = Table.lookup k' rows.
Proof.
  intros N. induction rows as [|x rows IH]; simpl; [reflexivity|].
  destruct (Z.eqb_spec (key x) k) as [E|E]; simpl.
  - destruct (Z.eqb_spec (key x) k'); [congruence|exact IH].
  - now destruct (key x =? k').
Qed.

Lemma lookup_modify_other {Row} `{Keyed Row} k k' (f : Row -> Row) rows :
  (forall r, key (f r) = key r) ->
  k' <> k ->
  Table.lookup k' (Table.modify k f rows) = Table.lookup k' rows.
Proof.
  intros K N. induction rows as [|x rows IH]; simpl; [reflexivity|].
  destruct (Z.eqb_spec (key x) k) as [E|E].
  - rewrite K. destruct (Z.eqb_spec (key x) k'); [congruence|exact IH].
  - now rewrite IH.
Qed.

Lemma lookup_present {Row} `{Keyed Row} k rows :
  existsb (fun r => key r =? k) rows = present (Table.lookup k rows).
Proof.
  induction rows as [|x rows IH]; simpl; [reflexivity|].
  now destruct (key x =? k).
Qed.

Lemma countersNotBelow_refl s : countersNotBelow s s.
Proof. unfold countersNotBelow. lia. Qed.

Ltac same_counters := unfold countersNotBelow; store_simpl; lia.

(** X1. Every storage method of either implementation keeps the
    invariant of the store (ids unique within a collection and below the
    next id to hand out) and never lowers a counter, so an id, once
    handed out, is never handed out again. *)
Theorem storage_methods_keep_ids_unique_and_counters_growing :
  forall url c now s,
    wf s ->
    wf (snd (perform (storageFor url) c now s))
    /\ countersNotBelow s (snd (perform (storageFor url) c now s)).
Proof.
  intros url c now s W.
  destruct c; unfold perform, answering; cbn [fst snd].
  - rewrite getUser_run. split; [exact W|apply countersNotBelow_refl].
  - rewrite (updateUser_run _ now s W). cbn [snd].
    split; [now apply wf_users|same_counters].
  - rewrite (updateUserStripeInfo_run _ now s W). cbn [snd].
    split; [now apply wf_users|same_counters].
  - destruct url; cbn; (split; [exact W|apply countersNotBelow_refl]).
  - destruct url; cbn; (split; [exact W|apply countersNotBelow_refl]).
  - rewrite getPlant_run. split; [exact W|apply countersNotBelow_refl].
  - rewrite (createPlant_run _ now s W). cbv zeta. cbn [snd].
    split; [apply wf_newPlant; [exact W|now destruct url]|same_counters].
  - rewrite (updatePlant_run _ now s W). cbn [snd].
    split; [now apply wf_plants|same_counters].
  - rewrite (deletePlant_run _ now s W).
    split; [now apply wf_removePlant|same_counters].
  - rewrite (updatePlantWatered_run _ now s W). cbn [snd].
    split; [now apply wf_plants|same_counters].
  - rewrite (updatePlantFertilized_run _ now s W). cbn [snd].
    split; [now apply wf_plants|same_counters].
  - destruct url; cbn; (split; [exact W|apply countersNotBelow_refl]).
  - destruct url; cbn; (split; [exact W|apply countersNotBelow_refl]).
  - rewrite getCareActionsForPlant_run.
    split; [exact W|apply countersNotBelow_refl].
  - destruct url; cbn; (split; [exact W|apply countersNotBelow_refl]).
  - rewrite (createCareAction_run _ now s W). cbv zeta. cbn [snd].
    split; [apply wf_newCareAction; [exact W|now destruct url]|same_counters].
  - rewrite (updateCareAction_run _ now s W). cbn [snd].
    split; [now apply wf_careActions|same_counters].
  - rewrite (markCareActionComplete_run _ now s W).
    destruct (Table.lookup id (Store.careActions s)) as [a|]; cbn [snd];
      [|split; [exact W|apply countersNotBelow_refl]].
    assert (W1 : wf (Store.withCareActions s
                       (Table.modify id (completed now) (Store.careActions s))))
      by (apply wf_careActions; [exact W|reflexivity]).
    destruct (CareAction.actionType a =? "water")%string;
      [split; [exact (wf_plants _ _ (watered now) W1 (fun _ => eq_refl))
              |same_counters]|].
    destruct (CareAction.actionType a =? "fertilize")%string;
      [split; [exact (wf_plants _ _ (fertilized now) W1 (fun _ => eq_refl))
              |same_counters]|].
    split; [exact W1|same_counters].
  - rewrite (deleteCareAction_run _ now s W).
    split; [now apply wf_removeCareAction|same_counters].
Qed.

(** On the sample garden: a plant is added to [MemStorage]. *)
Lemma storage_methods_keep_ids_unique_and_counters_growing_witness :
  wf Sample.garden
  /\ wf (snd (perform (storageFor false) (CreatePlant Sample.basil) 1000
                Sample.garden))
  /\ countersNotBelow Sample.garden
       (snd (perform (storageFor false) (CreatePlant Sample.basil) 1000
               Sample.garden)).
Proof.
  split; [reflexivity|].
  exact (storage_methods_keep_ids_unique_and_counters_growing
           false (CreatePlant Sample.basil) 1000 Sample.garden eq_refl).
Defined.





(** ** The plant routes *)

(** X4. When no plant has the id (a whole number, and one the id column
    holds when the database is the storage), [GET], [PUT] and [DELETE
    /api/plants/:id] and [POST /api/plants/:id/water] and [/fertilize]
    answer 404 and leave the world as it is. *)
Theorem missing_plant_is_not_found_and_nothing_is_written :
  forall url now me plantId w,
    Table.lookup plantId (Store.plants (store w)) = None ->
    (url = true -> Column.integer plantId = true) ->
    getPlantRoute (storageFor url) now me plantId w =
    (respond 404 (JMessage "Plant not found"), w)
    /\ (forall body,
          putPlant (storageFor url) now me plantId body w =
          (respond 404 (JMessage "Plant not found"), w))
    /\ deletePlantRoute (storageFor url) now me plantId w =
       (respond 404 (JMessage "Plant not found"), w)
    /\ waterPlant (storageFor url) now me plantId w =
       (respond 404 (JMessage "Plant not found"), w)
    /\ fertilizePlant (storageFor url) now me plantId w =
       (respond 404 (JMessage "Plant not found"), w).
Proof.
  intros url now me plantId w F _.
  unfold getPlantRoute, putPlant, deletePlantRoute, waterPlant, fertilizePlant,
    careNow, Handler.run.
  repeat split; intros;
    rewrite bind_await, getPlant_run; cbn [fst snd];
    rewrite F; cbn [negb]; unfold Handler.reply; now rewrite withStore_store.
Qed.

(** On the sample garden, which has no plant 9. *)
Lemma missing_plant_is_not_found_and_nothing_is_written_witness :
  Table.lookup 9 (Store.plants (store Sample.world)) = None
  /\ waterPlant (storageFor true) 1000 Sample.alice 9 Sample.world =
     (respond 404 (JMessage "Plant not found"), Sample.world)
  /\ deletePlantRoute (storageFor false) 1000 Sample.alice 9 Sample.world =
     (respond 404 (JMessage "Plant not found"), Sample.world).
Proof.
  split; [reflexivity|]. split.
  - exact (proj1 (proj2 (proj2 (proj2
             (missing_plant_is_not_found_and_nothing_is_written
                true 1000 Sample.alice 9 Sample.world eq_refl
                (fun _ => eq_refl)))))).
  - exact (proj1 (proj2 (proj2
             (missing_plant_is_not_found_and_nothing_is_written
                false 1000 Sample.alice 9 Sample.world eq_refl
                (fun _ => eq_refl))))).
Defined.

(** X5. A plant of another user is neither shown nor written: [GET],
    [PUT] and [DELETE /api/plants/:id] and [POST /api/plants/:id/water]
    and [/fertilize] for that plant all answer 403 and leave the world as
    it is. *)
Theorem plant_of_another_user_is_neither_shown_nor_written :
  forall url now me plantId p w,
    Table.lookup plantId (Store.plants (store w)) = Some p ->
    Plant.userId p <> User.id me ->
    getPlantRoute (storageFor url) now me plantId w =
    (respond 403 (JMessage "Not authorized to view this plant"), w)
    /\ (forall body,
          putPlant (storageFor url) now me plantId body w =
          (respond 403 (JMessage "Not authorized to update this plant"), w))
    /\ deletePlantRoute (storageFor url) now me plantId w =
       (respond 403 (JMessage "Not authorized to delete this plant"), w)
    /\ waterPlant (storageFor url) now me plantId w =
       (respond 403 (JMessage "Not authorized to water this plant"), w)
    /\ fertilizePlant (storageFor url) now me plantId w =
       (respond 403 (JMessage "Not authorized to fertilize this plant"), w).
Proof.
  intros url now me plantId p w F N. split.
  - apply Z.eqb_neq in N. unfold getPlantRoute, Handler.run.
    rewrite bind_await, getPlant_run. cbn [fst snd]. rewrite F, N. cbn [negb].
    unfold Handler.reply. now rewrite withStore_store.
  - destruct (foreign_plant_is_forbidden url now me plantId p w F N)
      as (Put & Del & Water & Feed & _).
    repeat split; assumption.
Qed.

(** On the sample garden: Bob asks for Alice's fern. *)
Lemma plant_of_another_user_is_neither_shown_nor_written_witness :
  Table.lookup 1 (Store.plants (store Sample.world)) = Some Sample.fern
  /\ getPlantRoute (storageFor true) 1000 Sample.bob 1 Sample.world =
     (respond 403 (JMessage "Not authorized to view this plant"), Sample.world)
  /\ deletePlantRoute (storageFor true) 1000 Sample.bob 1 Sample.world =
     (respond 403 (JMessage "Not authorized to delete this plant"), Sample.world).
Proof.
  destruct (plant_of_another_user_is_neither_shown_nor_written
              true 1000 Sample.bob 1 Sample.fern Sample.world eq_refl)
    as (G & _ & D & _); [discriminate|].
  split; [reflexivity|]. split; [exact G|exact D].
Defined.

(** X6. [PUT /api/plants/:id] by the owner, with a body that names a
    column, answers 200 with the plant in which exactly the named columns
    are replaced.  The id, the owner, [dateAdded], [lastWatered],
    [lastFertilized] and [careHealth] are as before, every other plant is
    as before, and so is every care action: a new [waterFrequency] does
    not move the due date of the pending action.  The numbers of the body
    are whole numbers, and with the database as the storage its values are
    ones the columns hold: 32-bit integers, and texts without the
    character of code 0. *)
Theorem owner_update_replaces_named_columns_only :
  forall url now me plantId p d w,
    wf (store w) ->
    Table.lookup plantId (Store.plants (store w)) = Some p ->
    Plant.userId p = User.id me ->
    putBody d = true ->
    namesAColumn d = true ->
    (url = true -> storablePlantPatch d = true) ->
    let result := putPlant (storageFor url) now me plantId (Some d) w in
    let p' :=
      Plant.mk (Plant.id p) (Plant.userId p)
        (Js.override (Plant.name p) (Plant.p_name d))
        (Js.overrideOpt (Plant.scientificName p) (Plant.p_scientificName d))
        (Js.overrideOpt (Plant.imageUrl p) (Plant.p_imageUrl d))
        (Plant.dateAdded p)
        (Js.override (Plant.waterFrequency p) (Plant.p_waterFrequency d))
        (Plant.lastWatered p)
        (Js.overrideOpt (Plant.fertilizeFrequency p) (Plant.p_fertilizeFrequency d))
        (Plant.lastFertilized p)
        (Js.overrideOpt (Plant.lightNeeds p) (Plant.p_lightNeeds d))
        (Js.overrideOpt (Plant.notes p) (Plant.p_notes d))
        (Plant.careHealth p)
        (Js.overrideOpt (Plant.isPublic p) (Plant.p_isPublic d)) in
    fst result = respond 200 (JPlant (Some p'))
    /\ Table.lookup plantId (Store.plants (store (snd result))) = Some p'
    /\ (forall other,
          other <> plantId ->
          Table.lookup other (Store.plants (store (snd result))) =
          Table.lookup other (Store.plants (store w)))
    /\ Store.careActions (store (snd result)) = Store.careActions (store w)
    /\ Store.users (store (snd result)) = Store.users (store w).
Proof.
  intros url now me plantId p d w W F O B _ _ result p'. subst result.
  assert (A : Plant.assign p d = p').
  { subst p'. unfold putBody in B. destruct d; cbn in *.
    destruct p_lastWatered, p_lastFertilized, p_careHealth;
      try discriminate B; reflexivity. }
  unfold putPlant, Handler.run.
  rewrite bind_await, getPlant_run. cbn [fst snd]. rewrite F, O, Z.eqb_refl.
  cbn [negb]. rewrite withStore_store, bind_await, (updatePlant_run _ now _ W), F.
  cbn [fst snd option_map store withStore Handler.ret]. store_simpl.
  rewrite A. repeat split.
  - rewrite (lookup_modify (H := Keyed_Plant)), F by reflexivity.
    cbn [option_map]. now rewrite A.
  - intros other N.
    now apply (lookup_modify_other (H := Keyed_Plant)).
Qed.

(** On the sample garden: Alice edits her fern; the pending water action
    stays due on its old date. *)
Lemma owner_update_replaces_named_columns_only_witness :
  wf (store Sample.world)
  /\ option_map Plant.waterFrequency
       (Table.lookup 1
          (Store.plants
             (store (snd (putPlant (storageFor true) 1000 Sample.alice 1
                            (Some fernEdit) Sample.world))))) = Some 3
  /\ Store.careActions
       (store (snd (putPlant (storageFor true) 1000 Sample.alice 1
                      (Some fernEdit) Sample.world)))
     = [Sample.waterFern; Sample.feedFern; Sample.orphan].
Proof.
  destruct (owner_update_replaces_named_columns_only
              true 1000 Sample.alice 1 Sample.fern fernEdit Sample.world
              eq_refl eq_refl eq_refl eq_refl eq_refl (fun _ => eq_refl))
    as (_ & L & _ & C & _).
  split; [reflexivity|]. rewrite L, C. split; reflexivity.
Defined.

(** ** Caring for a plant now *)

Lemma lookup_middle {Row} `{Keyed Row} pre r rest :
  NoDup (Table.keys (pre ++ r :: rest)) ->
  Table.lookup (key r) (pre ++ r :: rest) = Some r.
Proof.
  intros N. unfold Table.keys in N. rewrite map_app in N. simpl in N.
  pose proof (NoDup_remove_2 _ _ _ N) as Out.
  induction pre as [|x pre IH]; simpl.
  - now rewrite Z.eqb_refl.
  - destruct (Z.eqb_spec (key x) (key r)) as [E|E].
    + exfalso. apply Out. simpl. left. exact E.
    + apply IH.
      * simpl in N. now inversion N.
      * intros I. apply Out. simpl. right. exact I.
Qed.

Lemma wf_careActions_NoDup s : wf s -> NoDup (Table.keys (Store.careActions s)).
Proof.
  intros W. apply wf_iff in W. destruct W as (_ & _ & C).
  exact (distinct_NoDup _ (fresh_distinct _ _ C)).
Qed.

Lemma withCareActions_twice s l l' :
  Store.withCareActions (Store.withCareActions s l) l' = Store.withCareActions s l'.
Proof. reflexivity. Qed.

Lemma wf_careActions_after_mark s id now (a : CareAction.t) :
  wf s ->
  wf (let s1 :=
        Store.withCareActions s
          (Table.modify id (completed now) (Store.careActions s)) in
      if (CareAction.actionType a =? "water")%string
      then Store.withPlants s1
             (Table.modify (CareAction.plantId a) (watered now) (Store.plants s))
      else if (CareAction.actionType a =? "fertilize")%string
      then Store.withPlants s1
             (Table.modify (CareAction.plantId a) (fertilized now) (Store.plants s))
      else s1).
Proof.
  intros W. cbv zeta.
  assert (W1 : wf (Store.withCareActions s
                     (Table.modify id (completed now) (Store.careActions s))))
    by (apply wf_careActions; [exact W|reflexivity]).
  destruct (CareAction.actionType a =? "water")%string;
    [exact (wf_plants _ _ (watered now) W1 (fun _ => eq_refl))|].
  destruct (CareAction.actionType a =? "fertilize")%string;
    [exact (wf_plants _ _ (fertilized now) W1 (fun _ => eq_refl))|exact W1].
Qed.

(** The loop of the route: every pending action of the kind is marked
    complete. *)
Lemma complete_loop url now pid kind f todo :
  (kind = "water" /\ f = watered now) \/ (kind = "fertilize" /\ f = fertilized now) ->
  forall pre w,
    wf (store w) ->
    Store.careActions (store w) = pre ++ todo ->
    Table.modify pid f (Store.plants (store w)) = Store.plants (store w) ->
    Handler.forEach
      (filter (fun a => (CareAction.plantId a =? pid)
                        && CareAction.pendingOfKind kind a) todo)
      (fun action =>
         (_ <- Handler.await now
                 (markCareActionComplete (storageFor url) (CareAction.id action)) ;;
          Handler.ret tt)%handler) w
    = (Handler.Next tt,
       withStore w
         (Store.withCareActions (store w) (pre ++ allDone pid kind now todo))).
Proof.
  intros KF. induction todo as [|a todo IH]; intros pre w W E Fix.
  - cbn. rewrite <- E. unfold Handler.ret. now rewrite withCareActions_same, withStore_store.
  - cbn [filter allDone map].
    destruct ((CareAction.plantId a =? pid) && CareAction.pendingOfKind kind a)
      eqn:Cond.
    + apply andb_prop in Cond. destruct Cond as [Pa Ka].
      apply Z.eqb_eq in Pa. unfold CareAction.pendingOfKind in Ka.
      apply andb_prop in Ka. destruct Ka as [Ka _]. apply String.eqb_eq in Ka.
      cbn [Handler.forEach]. unfold Handler.bind at 1. rewrite bind_await.
      rewrite (markCareActionComplete_run _ now _ W).
      pose proof (wf_careActions_NoDup _ W) as N. rewrite E in N.
      pose proof (lookup_middle pre a todo N) as L.
      change (key a) with (CareAction.id a) in L. rewrite E at 1. rewrite L.
      cbn [fst snd]. unfold Handler.ret at 1.
      assert (S1 : (let s1 :=
                      Store.withCareActions (store w)
                        (Table.modify (CareAction.id a) (completed now)
                           (Store.careActions (store w))) in
                    if (CareAction.actionType a =? "water")%string
                    then Store.withPlants s1
                           (Table.modify (CareAction.plantId a) (watered now)
                              (Store.plants (store w)))
                    else if (CareAction.actionType a =? "fertilize")%string
                    then Store.withPlants s1
                           (Table.modify (CareAction.plantId a) (fertilized now)
                              (Store.plants (store w)))
                    else s1)
                   = Store.withCareActions (store w)
                       ((pre ++ [completed now a]) ++ todo)).
      { cbv zeta. rewrite Pa, Ka.
        pose proof (modify_middle (H := Keyed_CareAction) (completed now)
                      pre a todo N) as MM.
        change (key a) with (CareAction.id a) in MM.
        rewrite E, MM, <- app_assoc. cbn [app].
        destruct KF as [[-> ->]|[-> ->]]; cbn [String.eqb Ascii.eqb Bool.eqb];
          rewrite Fix; now destruct (store w). }
      pose proof S1 as S2. cbv zeta in S2. rewrite S2.
      rewrite (IH (pre ++ [completed now a])).
      * cbn [store withStore]. rewrite <- !app_assoc. now destruct w.
      * cbn [store withStore]. rewrite <- S1.
        apply wf_careActions_after_mark; exact W.
      * reflexivity.
      * cbn [store withStore]. store_simpl. exact Fix.
    + rewrite (IH (pre ++ [a]) w W); [|now rewrite E, <- app_assoc|exact Fix].
      now rewrite <- app_assoc.
Qed.

Lemma modify_twice {Row} `{Keyed Row} k (f : Row -> Row) rows :
  (forall r, key (f r) = key r) ->
  (forall r, f (f r) = f r) ->
  Table.modify k f (Table.modify k f rows) = Table.modify k f rows.
Proof.
  intros K I. induction rows as [|r rows IH]; simpl; [reflexivity|].
  rewrite IH. destruct (key r =? k) eqn:E; [|now rewrite E].
  now rewrite K, E, I.
Qed.

Lemma wf_same_careAction_keys s cs :
  wf s -> Table.keys cs = Table.keys (Store.careActions s) ->
  wf (Store.withCareActions s cs).
Proof.
  rewrite !wf_iff. store_simpl. intros (U & P & C) K. rewrite K. tauto.
Qed.

Lemma allDone_keys pid kind now cs :
  Table.keys (allDone pid kind now cs) = Table.keys cs.
Proof.
  unfold allDone, Table.keys. rewrite map_map. apply map_ext.
  intros a. now destruct (_ && _).
Qed.

Lemma careNow_run url now me pid kind record (f : Plant.t -> Plant.t) frequency
    forbidden failed p w :
  (kind = "water" /\ f = watered now) \/ (kind = "fertilize" /\ f = fertilized now) ->
  (forall s, wf s ->
     record pid now s =
     (option_map f (Table.lookup pid (Store.plants s)),
      Store.withPlants s (Table.modify pid f (Store.plants s)))) ->
  wf (store w) ->
  Table.lookup pid (Store.plants (store w)) = Some p ->
  Plant.userId p = User.id me ->
  careNow (storageFor url) now me pid kind record frequency forbidden failed w =
  (respond 200 (JPlant (Some (f p))),
   withStore w
     (withNewCareActions
        (Store.withCareActions
           (Store.withPlants (store w)
              (Table.modify pid f (Store.plants (store w))))
           (allDone pid kind now (Store.careActions (store w))))
        (scheduledRows (Store.careActionId (store w)) pid (User.id me) kind now
           (frequency p)))).
Proof.
  intros KF R W F O. unfold careNow, Handler.run.
  rewrite bind_await, getPlant_run, F. cbn [fst snd]. rewrite withStore_store.
  rewrite O, Z.eqb_refl. cbn [negb].
  rewrite bind_await, (R _ W), F. cbn [fst snd option_map].
  rewrite bind_await, getCareActionsForPlant_run. cbn [fst snd store withStore].
  rewrite withStore_store. rewrite <- filter_and.
  assert (W1 : wf (Store.withPlants (store w)
                     (Table.modify pid f (Store.plants (store w))))).
  { apply wf_plants; [exact W|].
    now destruct KF as [[_ ->]|[_ ->]]. }
  erewrite bind_next.
  2:{ apply (complete_loop url now pid kind f _ KF nil); cbn [store withStore app].
      - exact W1.
      - reflexivity.
      - store_simpl. apply (modify_twice (H := Keyed_Plant));
          now destruct KF as [[_ ->]|[_ ->]]. }
  cbn [store withStore app].
  pose proof (lookup_key (H := Keyed_Plant) _ _ _ F) as K.
  change (key p) with (Plant.id p) in K. rewrite K.
  erewrite bind_next.
  2:{ apply scheduleNext_run. cbn [store withStore].
      apply wf_same_careAction_keys; [exact W1|]. apply allDone_keys. }
  unfold Handler.ret. cbn [store withStore]. now destruct w as [[] ? ?].
Qed.

Lemma allDone_none_pending pid kind now cs :
  filter (fun a => (CareAction.plantId a =? pid) && CareAction.pendingOfKind kind a)
         (allDone pid kind now cs) = [].
Proof.
  induction cs as [|a cs IH]; [reflexivity|]. cbn [allDone map filter].
  fold (allDone pid kind now cs).
  destruct ((CareAction.plantId a =? pid) && CareAction.pendingOfKind kind a) eqn:C.
  - unfold CareAction.pendingOfKind at 1. cbn [completed CareAction.isCompleted
      Js.truthyOptBool negb]. rewrite !andb_false_r. exact IH.
  - rewrite C. exact IH.
Qed.

Lemma scheduledRows_pending id pid user kind now frequency :
  filter (fun a => (CareAction.plantId a =? pid) && CareAction.pendingOfKind kind a)
         (scheduledRows id pid user kind now frequency)
  = scheduledRows id pid user kind now frequency.
Proof.
  unfold scheduledRows. destruct frequency as [days|]; [|reflexivity].
  destruct (days =? 0); [reflexivity|].
  unfold nextAction, CareAction.pendingOfKind. cbn.
  now rewrite Z.eqb_refl, String.eqb_refl.
Qed.

Lemma careNow_pending s pid kind now rows f :
  pendingFor pid kind
    (withNewCareActions
       (Store.withCareActions (Store.withPlants s f)
          (allDone pid kind now (Store.careActions s)))
       rows)
  = filter (fun a => (CareAction.plantId a =? pid) && CareAction.pendingOfKind kind a)
           rows.
Proof.
  unfold pendingFor, withNewCareActions. store_simpl. cbn [Store.careActions].
  now rewrite filter_app, allDone_none_pending.
Qed.



(** ** Deleting a plant *)

Lemma remove_outside {Row} `{Keyed Row} k rows :
  ~ In k (Table.keys rows) -> Table.remove k rows = rows.
Proof.
  induction rows as [|x rows IH]; simpl; [reflexivity|]. intros N.
  destruct (Z.eqb_spec (key x) k) as [E|E]; simpl.
  - exfalso. apply N. now left.
  - f_equal. apply IH. intros I. apply N. now right.
Qed.

Lemma remove_app {Row} `{Keyed Row} k (l l' : list Row) :
  Table.remove k (l ++ l') = Table.remove k l ++ Table.remove k l'.
Proof. apply filter_app. Qed.

Lemma remove_middle {Row} `{Keyed Row} pre r rest :
  NoDup (Table.keys (pre ++ r :: rest)) ->
  Table.remove (key r) (pre ++ r :: rest) = pre ++ rest.
Proof.
  intros N. unfold Table.keys in N. rewrite map_app in N. simpl in N.
  pose proof (NoDup_remove_2 _ _ _ N) as Out.
  rewrite remove_app. change (r :: rest) with ([r] ++ rest). rewrite remove_app.
  rewrite (remove_outside _ pre), (remove_outside _ rest).
  - simpl. now rewrite Z.eqb_refl.
  - intros I. apply Out. apply in_or_app. now right.
  - intros I. apply Out. apply in_or_app. now left.
Qed.

Lemma fresh_filter {Row} `{Keyed Row} n (q : Row -> bool) rows :
  Invariant.fresh n (Table.keys rows) = true ->
  Invariant.fresh n (Table.keys (filter q rows)) = true.
Proof.
  unfold Invariant.fresh. intros F. apply andb_prop in F.
  destruct F as [D B]. apply andb_true_intro.
  induction rows as [|r rows IH]; simpl in *; [tauto|].
  apply andb_prop in D. destruct D as [D1 D2].
  apply andb_prop in B. destruct B as [B1 B2].
  destruct (IH D2 B2) as [I1 I2].
  destruct (q r); simpl; [|tauto].
  rewrite I1, I2, B1, !andb_true_r. split; [|reflexivity].
  apply negb_true_iff in D1. apply negb_true_iff.
  clear - D1. induction rows as [|r' rows IH]; simpl in *; [reflexivity|].
  apply orb_false_elim in D1. destruct D1 as [D1 D1'].
  destruct (q r'); simpl; [|exact (IH D1')].
  rewrite D1. exact (IH D1').
Qed.

Lemma deletePlant_found url now s id p :
  wf s -> Table.lookup id (Store.plants s) = Some p ->
  fst (deletePlant (storageFor url) id now s) = true.
Proof.
  intros W F. destruct url; [reflexivity|]. simpl. unfold MemStorage.deletePlant.
  apply wf_iff in W. destruct W as (_ & P & _).
  rewrite (delete_remove _ _ (fresh_distinct _ _ P)). cbn [fst].
  apply existsb_exists. exists p. unfold Table.lookup in F.
  apply find_some in F. exact F.
Qed.

(** The loop of the route: every care action of the plant is deleted. *)
Lemma delete_loop url now pid todo :
  forall pre w,
    wf (store w) ->
    Store.careActions (store w) = pre ++ todo ->
    Handler.forEach
      (filter (fun a => CareAction.plantId a =? pid) todo)
      (fun action =>
         (_ <- Handler.await now
                 (deleteCareAction (storageFor url) (CareAction.id action)) ;;
          Handler.ret tt)%handler) w
    = (Handler.Next tt,
       withStore w
         (Store.withCareActions (store w)
            (pre ++ filter (fun a => negb (CareAction.plantId a =? pid)) todo))).
Proof.
  induction todo as [|a todo IH]; intros pre w W E.
  - cbn. rewrite <- E. unfold Handler.ret.
    now rewrite withCareActions_same, withStore_store.
  - cbn [filter]. destruct (CareAction.plantId a =? pid) eqn:Pa; cbn [negb].
    + cbn [Handler.forEach]. unfold Handler.bind at 1. rewrite bind_await.
      rewrite (deleteCareAction_run _ now _ W).
      pose proof (wf_careActions_NoDup _ W) as N. rewrite E in N.
      pose proof (remove_middle (H := Keyed_CareAction) pre a todo N) as RM.
      change (key a) with (CareAction.id a) in RM.
      unfold Handler.ret at 1.
      rewrite (IH pre).
      * cbn [store withStore]. store_simpl. now destruct w.
      * cbn [store withStore]. now apply wf_removeCareAction.
      * cbn [store withStore]. store_simpl. cbn [Store.careActions].
        now rewrite E, RM.
    + rewrite (IH (pre ++ [a]) w W); [|now rewrite E, <- app_assoc].
      now rewrite <- app_assoc.
Qed.

Lemma deletePlantRoute_run url now me pid p w :
  wf (store w) ->
  Table.lookup pid (Store.plants (store w)) = Some p ->
  Plant.userId p = User.id me ->
  deletePlantRoute (storageFor url) now me pid w =
  (respond 200 (JMessage "Plant deleted successfully"),
   withStore w
     (Store.withPlants
        (Store.withCareActions (store w)
           (filter (fun a => negb (CareAction.plantId a =? pid))
                   (Store.careActions (store w))))
        (Table.remove pid (Store.plants (store w))))).
Proof.
  intros W F O. unfold deletePlantRoute, Handler.run.
  rewrite bind_await, getPlant_run, F. cbn [fst snd]. rewrite withStore_store.
  rewrite O, Z.eqb_refl. cbn [negb].
  rewrite bind_await, getCareActionsForPlant_run. cbn [fst snd].
  rewrite withStore_store.
  erewrite bind_next; [|exact (delete_loop url now pid _ nil w W eq_refl)].
  cbn [app].
  assert (W1 : wf (Store.withCareActions (store w)
                     (filter (fun a => negb (CareAction.plantId a =? pid))
                             (Store.careActions (store w))))).
  { apply wf_iff in W. apply wf_iff. store_simpl. destruct W as (U & P & C).
    repeat split; try assumption. apply fresh_filter. exact C. }
  rewrite bind_await. cbn [store withStore].
  rewrite (deletePlant_found url now _ pid p W1) by (store_simpl; exact F).
  rewrite (deletePlant_run url now _ W1). unfold Handler.ret.
  store_simpl. now destruct w as [[] ? ?].
Qed.

(** X8. When the owner deletes a plant through [DELETE /api/plants/:id],
    the answer is 200, the plant is no longer found, every other plant is
    found as before, and the care actions left are exactly those of other
    plants, in their old order; ids stay unique. *)
Theorem deleting_a_plant_removes_it_with_all_its_care_actions url now me pid p w :
  wf (store w) ->
  Table.lookup pid (Store.plants (store w)) = Some p ->
  Plant.userId p = User.id me ->
  let r := deletePlantRoute (storageFor url) now me pid w in
  fst r = respond 200 (JMessage "Plant deleted successfully")
  /\ Table.lookup pid (Store.plants (store (snd r))) = None
  /\ (forall k, k <> pid ->
        Table.lookup k (Store.plants (store (snd r)))
        = Table.lookup k (Store.plants (store w)))
  /\ Store.careActions (store (snd r))
     = filter (fun a => negb (CareAction.plantId a =? pid))
              (Store.careActions (store w))
  /\ Store.users (store (snd r)) = Store.users (store w)
  /\ wf (store (snd r)).
Proof.
  intros W F O. cbv zeta. rewrite (deletePlantRoute_run url now me pid p w W F O).
  cbn [fst snd store withStore]. store_simpl. repeat split.
  - apply (lookup_remove_same (H := Keyed_Plant)).
  - intros k N. now apply (lookup_remove_other (H := Keyed_Plant)).
  - apply wf_iff in W. apply wf_iff. store_simpl. destruct W as (U & P & C).
    repeat split; [exact U|now apply fresh_remove|now apply fresh_filter].
Qed.

(** On the sample garden: Alice deletes her fern; only the action of the
    plant that was already gone is left. *)
Lemma deleting_a_plant_removes_it_with_all_its_care_actions_witness :
  wf (store Sample.world)
  /\ Store.careActions
       (store (snd (deletePlantRoute (storageFor false) 1000 Sample.alice 1
                      Sample.world)))
     = [Sample.orphan].
Proof.
  destruct (deleting_a_plant_removes_it_with_all_its_care_actions
              false 1000 Sample.alice 1 Sample.fern Sample.world
              eq_refl eq_refl eq_refl) as (_ & _ & _ & C & _).
  split; [reflexivity|]. rewrite C. reflexivity.
Defined.

(** ** Adding a care action *)

(** X9. [POST /api/care-actions] answers 400 to every request and writes
    nothing: the schema asks for a [Date] in [dueDate], and the body of a
    request, parsed from JSON, has none, whatever it holds for [dueDate]
    (a text, a number, [null], nothing).  The ownership test and the
    insert that follow the validation are never reached. *)
Theorem every_care_action_request_is_rejected :
  forall url now me body w,
    CareActionBody.isJson body = true ->
    postCareActionRequest (storageFor url) now me body w
    = (respond 400 (JMessage "Invalid data"), w).
Proof.
  intros url now me body w J. unfold postCareActionRequest, CareActionBody.parse.
  unfold CareActionBody.isJson in J. apply andb_prop in J. destruct J as [J _].
  destruct (CareActionBody.dueDate body); try discriminate J; reflexivity.
Qed.

(** On the sample garden: Alice asks for a repotting of her own fern, due
    on a day written the way JSON writes a date. *)
Lemma every_care_action_request_is_rejected_witness :
  postCareActionRequest (storageFor true) 1000 Sample.alice
    (CareActionBody.mk 1 "repot" (Body.Text "2025-06-01T00:00:00.000Z")
       Body.Absent None)
    Sample.world
  = (respond 400 (JMessage "Invalid data"), Sample.world).
Proof.
  apply (every_care_action_request_is_rejected
           true 1000 Sample.alice
           (CareActionBody.mk 1 "repot" (Body.Text "2025-06-01T00:00:00.000Z")
              Body.Absent None)
           Sample.world).
  reflexivity.
Defined.

(** ** Reading *)

Section SortFacts.

Context {A : Type}.
Variable compareFn : A -> A -> Z.
Variable le : A -> A -> Prop.
Hypothesis le_compare : forall x y, compareFn x y <= 0 <-> le x y.
Hypothesis le_total : forall x y, le x y \/ le y x.
Hypothesis le_trans : forall x y z, le x y -> le y z -> le x z.

Lemma insert_perm x l : Permutation (JsArray.insert compareFn x l) (x :: l).
Proof.
  induction l as [|y l IH]; simpl; [apply Permutation_refl|].
  destruct (compareFn x y <=? 0); [apply Permutation_refl|].
  apply perm_trans with (y :: x :: l); [now apply perm_skip|apply perm_swap].
Qed.

Lemma sort_perm l : Permutation (JsArray.sort compareFn l) l.
Proof.
  induction l as [|x l IH]; simpl; [apply perm_nil|].
  apply perm_trans with (x :: JsArray.sort compareFn l);
    [apply insert_perm|now apply perm_skip].
Qed.

Lemma insert_sorted x l :
  StronglySorted le l -> StronglySorted le (JsArray.insert compareFn x l).
Proof.
  induction l as [|y l IH]; intros S; simpl.
  - constructor; [constructor|constructor].
  - inversion S as [|? ? Sl Fy]; subst.
    destruct (Z.leb_spec (compareFn x y) 0) as [L|L].
    + apply le_compare in L. constructor; [exact S|].
      constructor; [exact L|].
      eapply Forall_impl; [|exact Fy]. intros z Hz. now apply le_trans with y.
    + constructor; [now apply IH|].
      assert (Lyx : le y x).
      { destruct (le_total x y) as [T|T]; [|exact T].
        apply le_compare in T. lia. }
      apply (Permutation_Forall (Permutation_sym (insert_perm x l))).
      constructor; [exact Lyx|exact Fy].
Qed.

Lemma sort_sorted l : StronglySorted le (JsArray.sort compareFn l).
Proof.
  induction l as [|x l IH]; simpl; [constructor|now apply insert_sorted].
Qed.

End SortFacts.

Lemma mapM_withPlant url now w actions :
  mapM (fun action =>
          (plant <- Handler.await now
                      (getPlant (storageFor url) (CareAction.plantId action)) ;;
           Handler.ret (action, plant))%handler)
       actions w
  = (Handler.Next (map (withPlant (store w)) actions), w).
Proof.
  induction actions as [|a actions IH]; [reflexivity|].
  cbn [mapM map]. unfold Handler.bind at 1. rewrite bind_await, getPlant_run.
  cbn [fst snd]. rewrite withStore_store. unfold Handler.ret at 1.
  erewrite bind_next; [|exact IH]. reflexivity.
Qed.

Lemma getPendingRoute_run url now me w :
  getPendingRoute (storageFor url) now me w =
  (inr (JsArray.sort byDueDate
          (map (withPlant (store w))
               (fst (getPendingCareActions (storageFor url) (User.id me) now
                       (store w))))),
   w).
Proof.
  unfold getPendingRoute, runJson.
  rewrite bind_await.
  assert (S : snd (getPendingCareActions (storageFor url) (User.id me) now (store w))
              = store w) by now destruct url.
  rewrite S, withStore_store.
  erewrite bind_next; [|apply mapM_withPlant]. reflexivity.
Qed.

Lemma pending_sound url now uid s a :
  In a (fst (getPendingCareActions (storageFor url) uid now s)) ->
  In a (Store.careActions s)
  /\ CareAction.userId a = uid
  /\ CareAction.isCompleted a <> Some true.
Proof.
  destruct url; cbn [fst storageFor getPendingCareActions databaseStorage memStorage];
    [unfold DatabaseStorage.getPendingCareActions, Sql.select
    |unfold MemStorage.getPendingCareActions, JsMap.values];
    cbn [fst]; intros I; apply filter_In in I; destruct I as [I C];
    apply andb_prop in C; destruct C as [U K]; apply Z.eqb_eq in U;
    (repeat split; [exact I|exact U|]);
    destruct (CareAction.isCompleted a) as [[]|]; discriminate.
Qed.

Lemma pending_complete url now uid s a :
  In a (Store.careActions s) ->
  CareAction.userId a = uid ->
  CareAction.isCompleted a = Some false ->
  In a (fst (getPendingCareActions (storageFor url) uid now s)).
Proof.
  intros I U K.
  destruct url; cbn [fst storageFor getPendingCareActions databaseStorage memStorage];
    [unfold DatabaseStorage.getPendingCareActions, Sql.select
    |unfold MemStorage.getPendingCareActions, JsMap.values];
    cbn [fst]; apply filter_In; (split; [exact I|]);
    rewrite K, U, Z.eqb_refl; reflexivity.
Qed.

(** X10. [GET /api/care-actions/pending] writes nothing and answers with
    a list in which every action is due no later than each action after
    it.  Every listed action is a stored action of the requester that is
    not completed, paired with the plant stored under its [plantId] (with
    none when that plant is gone); every stored action of the requester
    whose [isCompleted] is [false] is listed. *)
Theorem pending_actions_are_listed_by_due_date_with_their_plants :
  forall url now me w,
  exists answer,
    getPendingRoute (storageFor url) now me w = (inr answer, w)
    /\ StronglySorted dueNoLater answer
    /\ (forall a plant,
          In (a, plant) answer ->
          In a (Store.careActions (store w))
          /\ CareAction.userId a = User.id me
          /\ CareAction.isCompleted a <> Some true
          /\ plant = Table.lookup (CareAction.plantId a) (Store.plants (store w)))
    /\ (forall a,
          In a (Store.careActions (store w)) ->
          CareAction.userId a = User.id me ->
          CareAction.isCompleted a = Some false ->
          In (withPlant (store w) a) answer).
Proof.
  intros url now me w. eexists. split; [apply getPendingRoute_run|].
  set (pending := fst (getPendingCareActions (storageFor url) (User.id me) now
                         (store w))).
  pose proof (sort_perm byDueDate (map (withPlant (store w)) pending)) as P.
  split; [|split].
  - apply (sort_sorted byDueDate dueNoLater); unfold byDueDate, dueNoLater.
    + intros x y. lia.
    + intros x y. lia.
    + intros x y z. lia.
  - intros a plant I. apply (Permutation_in _ P) in I.
    apply in_map_iff in I. destruct I as (a' & E & I).
    unfold withPlant in E. inversion E; subst a' plant.
    destruct (pending_sound url now (User.id me) (store w) a I) as (I1 & I2 & I3).
    repeat split; assumption.
  - intros a I U K. apply (Permutation_in _ (Permutation_sym P)).
    apply in_map. now apply pending_complete.
Qed.

(** X11. [GET /api/plants] and [GET /api/care-actions] write nothing and
    answer, in either storage, with exactly the stored rows whose [userId]
    is the requester's: in some order from the database, whose queries
    have no [ORDER BY], and in the order in which they were stored from
    [MemStorage].  [GET /api/plants/:id] writes nothing either, and a
    plant it shows is the requester's and is the one stored under the
    id. *)
Theorem reading_routes_show_the_requesters_rows_and_write_nothing :
  forall url now me w,
    (exists plants,
       getPlantsRoute (storageFor url) now me w = (inr plants, w)
       /\ Permutation plants
            (filter (fun p => Plant.userId p =? User.id me)
                    (Store.plants (store w)))
       /\ (url = false ->
           plants = filter (fun p => Plant.userId p =? User.id me)
                           (Store.plants (store w))))
    /\ (exists actions,
         getCareActionsRoute (storageFor url) now me w = (inr actions, w)
         /\ Permutation actions
              (filter (fun a => CareAction.userId a =? User.id me)
                      (Store.careActions (store w)))
         /\ (url = false ->
             actions = filter (fun a => CareAction.userId a =? User.id me)
                              (Store.careActions (store w))))
    /\ (forall plantId,
          snd (getPlantRoute (storageFor url) now me plantId w) = w
          /\ (forall j,
                fst (getPlantRoute (storageFor url) now me plantId w)
                = respond 200 j ->
                exists p,
                  j = JPlant (Some p)
                  /\ Table.lookup plantId (Store.plants (store w)) = Some p
                  /\ Plant.userId p = User.id me)).
Proof.
  intros url now me w. split; [|split].
  - eexists. split; [|split; [apply Permutation_refl|reflexivity]].
    unfold getPlantsRoute, runJson, Handler.await.
    destruct url; cbn; now rewrite withStore_store.
  - eexists. split; [|split; [apply Permutation_refl|reflexivity]].
    unfold getCareActionsRoute, runJson, Handler.await.
    destruct url; cbn; now rewrite withStore_store.
  - intros plantId. unfold getPlantRoute, Handler.run.
    rewrite bind_await, getPlant_run. cbn [fst snd]. rewrite withStore_store.
    destruct (Table.lookup plantId (Store.plants (store w))) as [p|];
      [|split; [reflexivity|intros j E; discriminate E]].
    destruct (Z.eqb_spec (Plant.userId p) (User.id me)) as [O|O]; cbn [negb].
    + split; [reflexivity|]. intros j E. cbn in E. inversion E. now exists p.
    + split; [reflexivity|intros j E; discriminate E].
Qed.

(** ** The trial sweep, tick after tick *)

Lemma tick_run now w :
  wf (store w) ->
  Sweep.tick now w =
  mkWorld
    (Store.withUsers (store w)
       (map (fun u => if trialOver now u then downgraded u else u)
          (Store.users (store w))))
    (outbox w ++ flat_map (reminders now) (Store.users (store w)))
    (identifyCalls w).
Proof.
  intros W. unfold Sweep.tick.
  rewrite (sweep_loop now (Store.users (store w)) [] w eq_refl); [reflexivity|].
  apply distinct_NoDup. apply wf_iff in W. destruct W as [U _].
  exact (fresh_distinct _ _ U).
Qed.

Lemma wf_same_user_keys s us :
  wf s -> Table.keys us = Table.keys (Store.users s) ->
  wf (Store.withUsers s us).
Proof.
  rewrite !wf_iff. store_simpl. intros (U & P & C) K. rewrite K. tauto.
Qed.

Lemma swept_keys now us :
  Table.keys (map (fun u => if trialOver now u then downgraded u else u) us)
  = Table.keys us.
Proof.
  unfold Table.keys. rewrite map_map. apply map_ext.
  intros u. now destruct (trialOver now u).
Qed.

Lemma downgraded_is_left_alone now u :
  trialOver now (downgraded u) = false /\ reminders now (downgraded u) = [].
Proof. now unfold trialOver, reminders, sweptDays. Qed.

Lemma flat_map_map {A B C} (f : B -> list C) (g : A -> B) l :
  flat_map f (map g l) = flat_map (fun x => f (g x)) l.
Proof. induction l as [|x l IH]; simpl; [reflexivity|now rewrite IH]. Qed.

(** X12. Two ticks of the trial sweep, one after the other: a user is on
    the free plan with 3 identifications afterwards exactly when the trial
    was over at one of the two ticks, and the second tick sends its
    reminders to every user the first one did not downgrade.  The sweep
    keeps no record of what it sent: a user whose trial is in its last two
    days at both ticks is reminded by both, and a user once downgraded is
    left alone. *)
Theorem two_ticks_downgrade_once_and_remind_twice :
  forall now1 now2 w,
    wf (store w) ->
    Sweep.tick now2 (Sweep.tick now1 w) =
    mkWorld
      (Store.withUsers (store w)
         (map (fun u =>
                 if trialOver now1 u || trialOver now2 u then downgraded u else u)
            (Store.users (store w))))
      (outbox w
       ++ flat_map (reminders now1) (Store.users (store w))
       ++ flat_map (fun u => if trialOver now1 u then [] else reminders now2 u)
            (Store.users (store w)))
      (identifyCalls w).
Proof.
  intros now1 now2 w W. rewrite (tick_run now1 w W). rewrite tick_run.
  2:{ cbn [store]. apply wf_same_user_keys; [exact W|apply swept_keys]. }
  cbn [store outbox identifyCalls]. store_simpl.
  rewrite map_map, flat_map_map, <- app_assoc.
  assert (Us : map (fun u =>
                      if trialOver now2 (if trialOver now1 u then downgraded u else u)
                      then downgraded (if trialOver now1 u then downgraded u else u)
                      else if trialOver now1 u then downgraded u else u)
                 (Store.users (store w))
               = map (fun u =>
                        if trialOver now1 u || trialOver now2 u
                        then downgraded u else u)
                   (Store.users (store w))).
  { apply map_ext. intros u.
    destruct (trialOver now1 u); cbn [orb]; [|reflexivity].
    now rewrite (proj1 (downgraded_is_left_alone now2 u)). }
  assert (Rs : flat_map (fun u =>
                           reminders now2
                             (if trialOver now1 u then downgraded u else u))
                 (Store.users (store w))
               = flat_map (fun u => if trialOver now1 u then [] else reminders now2 u)
                   (Store.users (store w))).
  { apply flat_map_ext. intros u.
    destruct (trialOver now1 u); [|reflexivity].
    apply downgraded_is_left_alone. }
  rewrite Us, Rs. now destruct (store w).
Qed.

(** On the sample trial users, swept twice at the same instant: Dave is
    reminded twice. *)
Lemma two_ticks_downgrade_once_and_remind_twice_witness :
  wf (store Sample.trialWorld)
  /\ outbox (Sweep.tick 1000 (Sweep.tick 1000 Sample.trialWorld))
     = outbox (Sweep.tick 1000 Sample.trialWorld)
       ++ outbox (Sweep.tick 1000 Sample.trialWorld).
Proof.
  split; [reflexivity|].
  rewrite (two_ticks_downgrade_once_and_remind_twice 1000 1000 Sample.trialWorld
             eq_refl).
  reflexivity.
Defined.

(** ** A free trial from its start to its end *)

Lemma startFreeTrial_run url now me u w :
  wf (store w) ->
  Table.lookup (User.id me) (Store.users (store w)) = Some u ->
  User.subscriptionType me = "free" ->
  startFreeTrial (storageFor url) now me w =
  (respond 200 (JTrialStarted (now + 3 * Js.msPerDay)),
   mkWorld
     (Store.withUsers (store w)
        (Table.modify (User.id me) (onFreeTrial (now + 3 * Js.msPerDay))
           (Store.users (store w))))
     (outbox w
      ++ (if Js.truthyStr (User.email me)
          then [TrialStartedEmail (User.email me) (now + 3 * Js.msPerDay)]
          else []))
     (identifyCalls w)).
Proof.
  intros W E F. unfold startFreeTrial, Handler.run. rewrite F. cbn [String.eqb negb].
  cbn [Ascii.eqb Bool.eqb negb]. cbv zeta.
  rewrite bind_await, (updateUser_run url now _ W), E. cbn [fst snd option_map].
  unfold Handler.bind, Handler.when, Handler.send, Handler.ret, Js.addDays.
  destruct (Js.truthyStr (User.email me)); cbn [store outbox identifyCalls withStore];
    rewrite ?app_nil_r; now destruct w.
Qed.

Lemma trialOver_onFreeTrial now ends u :
  User.email u <> "" ->
  trialOver now (onFreeTrial ends u) = (ends <=? now).
Proof.
  intros M. apply String.eqb_neq in M.
  unfold trialOver, sweptDays, onFreeTrial, Js.truthyStr. cbn. rewrite M. cbn.
  unfold Sweep.daysRemaining.
  pose proof (ceilDiv_spec (ends - now) Js.msPerDay eq_refl) as S.
  assert (0 < Js.msPerDay) by reflexivity.
  destruct (Z.leb_spec (Js.ceilDiv (ends - now) Js.msPerDay) 0);
    destruct (Z.leb_spec ends now); try reflexivity; nia.
Qed.

Lemma lookup_map {Row} `{Keyed Row} k (f : Row -> Row) rows :
  (forall r, key (f r) = key r) ->
  Table.lookup k (map f rows) = option_map f (Table.lookup k rows).
Proof.
  intros K. induction rows as [|r rows IH]; simpl; [reflexivity|].
  rewrite K. now destruct (key r =? k).
Qed.

(** X13. A user on the free plan whose row is stored and whose e-mail
    address is not empty starts the free trial at [t0]: the answer is 200,
    the user is on a trial that ends 3 days later with the quota as it was,
    and one trial-started e-mail goes out.  A tick of the sweep at [now]
    leaves that user on the trial as long as [now] is before the end and
    puts the user on the free plan with 3 identifications from the end on,
    whatever the quota was; the user can then start a free trial again. *)
Theorem free_trial_ends_after_three_days_and_can_be_started_again :
  forall t0 now me w,
    wf (store w) ->
    Table.lookup (User.id me) (Store.users (store w)) = Some me ->
    User.subscriptionType me = "free" ->
    User.email me <> "" ->
    let ends := t0 + 3 * Js.msPerDay in
    let started := startFreeTrial (storageFor true) t0 me w in
    let swept := Sweep.tick now (snd started) in
    fst started = respond 200 (JTrialStarted ends)
    /\ Table.lookup (User.id me) (Store.users (store (snd started)))
       = Some (onFreeTrial ends me)
    /\ outbox (snd started) = outbox w ++ [TrialStartedEmail (User.email me) ends]
    /\ (now < ends ->
        Table.lookup (User.id me) (Store.users (store swept))
        = Some (onFreeTrial ends me))
    /\ (ends <= now ->
        Table.lookup (User.id me) (Store.users (store swept))
        = Some (withStatus "free" 3 (onFreeTrial ends me))
        /\ forall t1,
             fst (startFreeTrial (storageFor true) t1
                    (withStatus "free" 3 (onFreeTrial ends me)) swept)
             = respond 200 (JTrialStarted (t1 + 3 * Js.msPerDay))).
Proof.
  intros t0 now me w W E F M ends started swept.
  assert (T : Js.truthyStr (User.email me) = true).
  { unfold Js.truthyStr. apply String.eqb_neq in M. now rewrite M. }
  assert (R : started =
              (respond 200 (JTrialStarted ends),
               mkWorld
                 (Store.withUsers (store w)
                    (Table.modify (User.id me) (onFreeTrial ends)
                       (Store.users (store w))))
                 (outbox w ++ [TrialStartedEmail (User.email me) ends])
                 (identifyCalls w))).
  { subst started ends. rewrite (startFreeTrial_run true t0 me me w W E F).
    now rewrite T. }
  assert (W1 : wf (store (snd started))).
  { rewrite R. cbn [snd store]. now apply wf_users. }
  assert (L1 : Table.lookup (User.id me) (Store.users (store (snd started)))
               = Some (onFreeTrial ends me)).
  { rewrite R. cbn [snd store]. store_simpl.
    rewrite (lookup_modify (H := Keyed_User)) by reflexivity. now rewrite E. }
  assert (L2 : Table.lookup (User.id me) (Store.users (store swept))
               = Some (if ends <=? now
                       then withStatus "free" 3 (onFreeTrial ends me)
                       else onFreeTrial ends me)).
  { subst swept. rewrite (tick_run now _ W1). cbn [store]. store_simpl.
    rewrite (lookup_map (H := Keyed_User));
      [|intros r; now destruct (trialOver now r)].
    rewrite L1. cbn [option_map].
    rewrite (trialOver_onFreeTrial now ends me M).
    now destruct (ends <=? now). }
  split; [now rewrite R|]. split; [exact L1|]. split; [now rewrite R|]. split.
  - intros B. rewrite L2. apply Z.leb_gt in B. now rewrite B.
  - intros B. apply Z.leb_le in B. rewrite B in L2. split; [exact L2|].
    intros t1.
    assert (W2 : wf (store swept)).
    { subst swept. rewrite (tick_run now _ W1). cbn [store].
      apply wf_same_user_keys; [exact W1|apply swept_keys]. }
    now rewrite (startFreeTrial_run true t1
                   (withStatus "free" 3 (onFreeTrial ends me))
                   (withStatus "free" 3 (onFreeTrial ends me))
                   swept W2 L2 eq_refl).
Qed.

(** On the sample garden: Alice, with 5 identifications left, starts the
    trial; a sweep three days later leaves her 3. *)
Lemma free_trial_ends_after_three_days_and_can_be_started_again_witness :
  wf (store Sample.world)
  /\ Table.lookup 1 (Store.users (store Sample.world)) = Some Sample.alice
  /\ option_map User.identificationsRemaining
       (Table.lookup 1
          (Store.users
             (store (Sweep.tick 259201000
                       (snd (startFreeTrial (storageFor true) 1000 Sample.alice
                               Sample.world))))))
     = Some 3.
Proof.
  destruct (free_trial_ends_after_three_days_and_can_be_started_again
              1000 259201000 Sample.alice Sample.world
              eq_refl eq_refl eq_refl) as (_ & _ & _ & _ & Over).
  - discriminate.
  - split; [reflexivity|]. split; [reflexivity|].
    destruct Over as [L _]; [discriminate|].
    change (User.id Sample.alice) with 1 in L. rewrite L. reflexivity.
Defined.

(** X14. A user on the free plan with no identification left is refused
    by [POST /api/identify] with 403; once the same user has started the
    free trial, the same request is answered with the identification, and
    the store is as the start of the trial left it: the quota is neither
    checked nor spent while the trial lasts. *)
Theorem trial_lifts_an_exhausted_quota :
  forall url t0 now api apiKey image data me w,
    wf (store w) ->
    Table.lookup (User.id me) (Store.users (store w)) = Some me ->
    User.subscriptionType me = "free" ->
    User.identificationsRemaining me <= 0 ->
    Js.truthyOptStr apiKey = true ->
    api image = Some data ->
    let w1 := snd (startFreeTrial (storageFor url) t0 me w) in
    identify (storageFor url) now api apiKey me (Some image) w
    = (respond 403 (JUpgrade upgradeMessage), w)
    /\ identify (storageFor url) now api apiKey me (Some image) w1
       = (respond 200 (JIdentification data), called w1 image)
    /\ Table.lookup (User.id me) (Store.users (store w1))
       = Some (onFreeTrial (t0 + 3 * Js.msPerDay) me).
Proof.
  intros url t0 now api apiKey image data me w W E F Q K A w1.
  assert (L1 : Table.lookup (User.id me) (Store.users (store w1))
               = Some (onFreeTrial (t0 + 3 * Js.msPerDay) me)).
  { subst w1. rewrite (startFreeTrial_run url t0 me me w W E F).
    cbn [snd store]. store_simpl.
    rewrite (lookup_modify (H := Keyed_User)) by reflexivity. now rewrite E. }
  assert (W1 : wf (store w1)).
  { subst w1. rewrite (startFreeTrial_run url t0 me me w W E F).
    cbn [snd store]. now apply wf_users. }
  split; [|split; [|exact L1]].
  - rewrite (identify_run _ _ _ _ _ _ _ W), E. unfold exhausted. rewrite F.
    apply Z.leb_le in Q. now rewrite Q.
  - rewrite (identify_run _ _ _ _ _ _ _ W1), L1.
    unfold exhausted. cbn [onFreeTrial User.subscriptionType String.eqb Ascii.eqb
      Bool.eqb andb]. rewrite K, A. reflexivity.
Qed.

(** On the sample garden: Carol, with nothing left, starts the trial and
    has a leaf identified. *)
Lemma trial_lifts_an_exhausted_quota_witness :
  wf (store Sample.world)
  /\ Table.lookup 4 (Store.users (store Sample.world)) = Some Sample.carol
  /\ fst (identify (storageFor false) 2000 Sample.apiUp (Some "key") Sample.carol
            (Some "leaf")
            (snd (startFreeTrial (storageFor false) 1000 Sample.carol
                    Sample.world)))
     = respond 200 (JIdentification "{suggestions}").
Proof.
  destruct (trial_lifts_an_exhausted_quota
              false 1000 2000 Sample.apiUp (Some "key") "leaf" "{suggestions}"
              Sample.carol Sample.world eq_refl eq_refl eq_refl)
    as (_ & I & _); [discriminate|reflexivity|reflexivity|].
  split; [reflexivity|]. split; [reflexivity|]. now rewrite I.
Defined.

(** ** The admin routes *)

Lemma toLowerCase_app a b :
  Js.toLowerCase (a ++ b) = (Js.toLowerCase a ++ Js.toLowerCase b)%string.
Proof. induction a as [|c a IH]; simpl; [reflexivity|now rewrite IH]. Qed.

Lemma prefix_app sub post : String.prefix sub (sub ++ post) = true.
Proof.
  induction sub as [|c sub IH]; simpl; [now destruct post|].
  destruct (Ascii.ascii_dec c c) as [_|N]; [exact IH|now elim N].
Qed.

Lemma includes_app sub pre post :
  Js.includes sub (pre ++ sub ++ post) = true.
Proof.
  induction pre as [|c pre IH].
  - cbn [String.append].
    pose proof (prefix_app sub post) as P.
    destruct (sub ++ post)%string; cbn [Js.includes]; now rewrite P.
  - cbn [String.append Js.includes]. rewrite IH.
    now destruct (String.prefix sub _).
Qed.

Lemma append_assoc' (a b c : string) :
  ((a ++ b) ++ c)%string = (a ++ b ++ c)%string.
Proof. induction a as [|x a IH]; simpl; [reflexivity|now rewrite IH]. Qed.

Lemma prefix_split sub s :
  String.prefix sub s = true -> exists post, s = (sub ++ post)%string.
Proof.
  revert s. induction sub as [|c sub IH]; intros s P.
  - now exists s.
  - destruct s as [|d s]; simpl in P; [discriminate|].
    destruct (Ascii.ascii_dec c d) as [->|]; [|discriminate].
    destruct (IH s P) as [post ->]. now exists post.
Qed.

Lemma includes_split sub s :
  Js.includes sub s = true ->
  exists pre post, s = (pre ++ sub ++ post)%string.
Proof.
  induction s as [|c s IH]; cbn [Js.includes].
  - destruct (String.prefix sub "") eqn:P; [|discriminate]. intros _.
    destruct (prefix_split _ _ P) as [post E]. now exists "", post.
  - destruct (String.prefix sub (String c s)) eqn:P.
    + intros _. destruct (prefix_split _ _ P) as [post E]. now exists "", post.
    + intros I. destruct (IH I) as (pre & post & ->).
      now exists (String c pre), post.
Qed.

Lemma toLowerCase_split s : forall a b,
  Js.toLowerCase s = (a ++ b)%string ->
  exists a' b',
    s = (a' ++ b')%string /\ Js.toLowerCase a' = a /\ Js.toLowerCase b' = b.
Proof.
  induction s as [|c s IH]; intros a b E.
  - destruct a; [|discriminate E]. simpl in E. subst b. now exists ""%string, ""%string.
  - destruct a as [|x a].
    + simpl in E. subst b. now exists ""%string, (String c s).
    + cbn [Js.toLowerCase String.append] in E. inversion E as [[X R]].
      destruct (IH a b R) as (a' & b' & -> & <- & <-).
      now exists (String c a'), b'.
Qed.

(** A character that [toLowerCase] turns into the small letter [x] is [x]
    or the capital 32 places before it. *)
Lemma lowerAscii_inv c x :
  Js.lowerAscii c = x ->
  c = x \/ c = ascii_of_nat (nat_of_ascii x - 32).
Proof.
  unfold Js.lowerAscii.
  destruct (Nat.leb 65 (nat_of_ascii c) && Nat.leb (nat_of_ascii c) 90) eqn:Up;
    [|now left].
  intros E. right. apply andb_prop in Up. destruct Up as [_ Hi].
  apply Nat.leb_le in Hi.
  apply (f_equal nat_of_ascii) in E.
  rewrite nat_ascii_embedding in E by lia.
  rewrite <- E, Nat.add_sub. now rewrite ascii_nat_embedding.
Qed.

Lemma adminWord_lower word : adminWord word <-> Js.toLowerCase word = "admin"%string.
Proof.
  split.
  - intros (a & d & m & i & n & -> & [-> | ->] & [-> | ->] & [-> | ->]
            & [-> | ->] & [-> | ->]); reflexivity.
  - intros E.
    destruct word as [|a [|d [|m [|i [|n [|]]]]]]; try discriminate E.
    cbn [Js.toLowerCase] in E. inversion E as [[A D M I N]].
    exists a, d, m, i, n. split; [reflexivity|].
    repeat split; [apply (lowerAscii_inv _ _ A)|apply (lowerAscii_inv _ _ D)
                  |apply (lowerAscii_inv _ _ M)|apply (lowerAscii_inv _ _ I)
                  |apply (lowerAscii_inv _ _ N)].
Qed.

Lemma mentionsAdmin_includes s :
  mentionsAdmin s <-> Js.includes "admin" (Js.toLowerCase s) = true.
Proof.
  split.
  - intros (pre & word & post & -> & A). apply adminWord_lower in A.
    rewrite !toLowerCase_app, A. apply includes_app.
  - intros I. destruct (includes_split _ _ I) as (pre & post & E).
    destruct (toLowerCase_split _ _ _ E) as (pre' & rest & -> & _ & R).
    destruct (toLowerCase_split _ _ _ R) as (word & post' & -> & A & _).
    exists pre', word, post'. split; [reflexivity|now apply adminWord_lower].
Qed.

Lemma mentionsAdmin_nonempty s : mentionsAdmin s -> s <> ""%string.
Proof.
  intros (pre & word & post & -> & (a & d & m & i & n & -> & _)).
  now destruct pre.
Qed.

Lemma isAdmin_mentions me :
  isAdmin me = true <->
  mentionsAdmin (User.username me) \/ mentionsAdmin (User.email me).
Proof.
  unfold isAdmin. rewrite orb_true_iff, andb_true_iff, <- !mentionsAdmin_includes.
  split; [tauto|]. intros [U|M]; [now left|right]. split; [|exact M].
  unfold Js.truthyStr. apply negb_true_iff, String.eqb_neq.
  now apply mentionsAdmin_nonempty.
Qed.

(** X15. The [isAdmin] middleware looks at nothing but the letters of the
    name and the address: it lets a requester through exactly when the
    username or the e-mail address has, anywhere in it, the five letters
    a, d, m, i, n in a row, each small or capital.  A requester with
    neither is answered 403 by [/api/admin/update-user-status],
    [/api/admin/toggle-beta-tester] and [/api/admin/start-trial], whatever
    the body, and nothing is written; a requester with either gets past
    the middleware, to the 400 of a body without a user id on
    [/api/admin/start-trial]. *)
Theorem admin_gate_is_a_substring_test :
  forall url now w me,
    (isAdmin me = true <->
     mentionsAdmin (User.username me) \/ mentionsAdmin (User.email me))
    /\ (~ mentionsAdmin (User.username me) ->
        ~ mentionsAdmin (User.email me) ->
        (forall userId subscriptionType,
           adminUpdateUserStatus (storageFor url) now me userId subscriptionType w
           = (inl (respond 403 (JMessage "Admin access required")), w))
        /\ (forall userId isBetaTester,
              adminToggleBetaTester (storageFor url) now me userId isBetaTester w
              = (inl (respond 403 (JMessage "Admin access required")), w))
        /\ (forall userId days,
              adminStartTrial (storageFor url) now me userId days w
              = (respond 403 (JMessage "Admin access required"), w)))
    /\ (mentionsAdmin (User.username me) \/ mentionsAdmin (User.email me) ->
        adminStartTrial (storageFor url) now me None None w
        = (respond 400 (JMessage "User ID is required"), w)).
Proof.
  intros url now w me. pose proof (isAdmin_mentions me) as M.
  split; [exact M|split].
  - intros NU NE.
    assert (A : isAdmin me = false).
    { destruct (isAdmin me); [|reflexivity]. destruct (proj1 M eq_refl); contradiction. }
    repeat split; intros;
      unfold adminUpdateUserStatus, adminToggleBetaTester, adminStartTrial,
        runJson, Handler.run; now rewrite A.
  - intros Y. apply M in Y. unfold adminStartTrial, Handler.run. now rewrite Y.
Qed.

(** A user called Badminton is let through, and so is one who writes from
    ADMIN@example.com. *)
Lemma admin_gate_is_a_substring_test_witness :
  isAdmin (User.mk 7 "Badminton" "secret" "b@example.com" None None "free" 5
             None None None None) = true
  /\ adminStartTrial (storageFor true) 1000
       (User.mk 8 "carl" "secret" "ADMIN@example.com" None None "free" 5
          None None None None)
       None None Sample.world
     = (respond 400 (JMessage "User ID is required"), Sample.world).
Proof.
  split.
  - apply (proj1 (admin_gate_is_a_substring_test true 1000 Sample.world
                    (User.mk 7 "Badminton" "secret" "b@example.com" None None
                       "free" 5 None None None None))).
    left. exists "B"%string, "admin"%string, "ton"%string.
    split; [reflexivity|].
    exists "a"%char, "d"%char, "m"%char, "i"%char, "n"%char. tauto.
  - apply (proj2 (proj2 (admin_gate_is_a_substring_test true 1000 Sample.world
                           (User.mk 8 "carl" "secret" "ADMIN@example.com" None
                              None "free" 5 None None None None)))).
    right. exists ""%string, "ADMIN"%string, "@example.com"%string.
    split; [reflexivity|].
    exists "A"%char, "D"%char, "M"%char, "I"%char, "N"%char. tauto.
Defined.

Lemma quotaOfStatus_cases st :
  (st = "premium"%string \/ st = "premium-lifetime"%string)
  /\ quotaOfStatus st = 999999
  \/ st = "free"%string /\ quotaOfStatus st = 3
  \/ (st <> "premium"%string /\ st <> "premium-lifetime"%string
      /\ st <> "free"%string)
     /\ quotaOfStatus st = 10.
Proof.
  unfold quotaOfStatus.
  destruct (String.eqb_spec st "premium") as [->|P]; [left; auto|].
  destruct (String.eqb_spec st "premium-lifetime") as [->|L]; [left; auto|].
  destruct (String.eqb_spec st "free") as [->|F]; [right; left; auto|].
  right; right; auto.
Qed.

(** X16. [POST /api/admin/update-user-status] by an admin, with a user id
    and a status that are not falsy (and that the columns of the database
    hold, when it is the storage): 404 and nothing written when no user
    has the id; otherwise the user gets the status and a quota, which is
    999999 for [premium] and [premium-lifetime], 3 for [free] and 10 for
    every other text, and every other column, the trial end date among
    them, stays.  So a user who never had a trial and is given the status
    [trial] this way has a trial without an end: with the database as the
    storage, a tick of the sweep at any time leaves that user as it is and
    has no reminder for that user. *)
Theorem admin_status_update_sets_quota_and_keeps_the_trial_end :
  forall url now me userId st w,
    wf (store w) ->
    isAdmin me = true ->
    userId <> 0 ->
    st <> "" ->
    (url = true -> Column.integer userId = true /\ Column.text st = true) ->
    let r := adminUpdateUserStatus (storageFor url) now me (Some userId) (Some st) w in
    match Table.lookup userId (Store.users (store w)) with
    | None => r = (inl (respond 404 (JMessage "User not found")), w)
    | Some u =>
        exists quota,
          ((st = "premium" \/ st = "premium-lifetime") /\ quota = 999999
           \/ st = "free" /\ quota = 3
           \/ (st <> "premium" /\ st <> "premium-lifetime" /\ st <> "free")
              /\ quota = 10)
          /\ let u' :=
               User.mk (User.id u) (User.username u) (User.password u)
                 (User.email u) (User.firstName u) (User.lastName u)
                 st quota
                 (User.stripeCustomerId u) (User.stripeSubscriptionId u)
                 (User.trialEndDate u) (User.isBetaTester u) in
             fst r = inr u'
             /\ Table.lookup userId (Store.users (store (snd r))) = Some u'
             /\ (forall k, k <> userId ->
                   Table.lookup k (Store.users (store (snd r)))
                   = Table.lookup k (Store.users (store w)))
             /\ Store.plants (store (snd r)) = Store.plants (store w)
             /\ Store.careActions (store (snd r)) = Store.careActions (store w)
             /\ outbox (snd r) = outbox w
             /\ (url = true -> st = "trial" -> User.trialEndDate u = None ->
                 forall t,
                   Table.lookup userId (Store.users (store (Sweep.tick t (snd r))))
                   = Some u'
                   /\ reminders t u' = [])
    end.
Proof.
  intros url now me userId st w W A N S _ r.
  apply Z.eqb_neq in N. apply String.eqb_neq in S.
  assert (R : r =
              match Table.lookup userId (Store.users (store w)) with
              | None => (inl (respond 404 (JMessage "User not found")), w)
              | Some u =>
                  (inr (withStatus st (quotaOfStatus st) u),
                   withStore w
                     (Store.withUsers (store w)
                        (Table.modify userId (withStatus st (quotaOfStatus st))
                           (Store.users (store w)))))
              end).
  { subst r. unfold adminUpdateUserStatus, runJson, Js.truthyOptNum, Js.truthyNum,
      Js.truthyOptStr, Js.truthyStr. rewrite A, N, S. cbn [negb orb]. cbv zeta.
    rewrite bind_await, (updateUser_run url now _ W). cbn [fst snd].
    destruct (Table.lookup userId (Store.users (store w))) as [u|] eqn:E;
      cbn [option_map].
    - unfold Handler.ret. reflexivity.
    - unfold Handler.reply. rewrite (modify_absent _ _ _ E).
      now rewrite withUsers_same, withStore_store. }
  destruct (Table.lookup userId (Store.users (store w))) as [u|] eqn:E;
    [|exact R].
  exists (quotaOfStatus st). split; [apply quotaOfStatus_cases|].
  cbv zeta. fold (withStatus st (quotaOfStatus st) u).
  assert (L : Table.lookup userId (Store.users (store (snd r)))
              = Some (withStatus st (quotaOfStatus st) u)).
  { rewrite R. cbn [snd store withStore]. store_simpl.
    rewrite (lookup_modify (H := Keyed_User)) by reflexivity. now rewrite E. }
  split; [now rewrite R|]. split; [exact L|].
  split.
  { intros k D. rewrite R. cbn [snd store withStore]. store_simpl.
    apply (lookup_modify_other (H := Keyed_User)); [reflexivity|exact D]. }
  split; [now rewrite R|]. split; [now rewrite R|]. split; [now rewrite R|].
  intros _ T End t.
  assert (W1 : wf (store (snd r))).
  { rewrite R. cbn [snd store withStore]. now apply wf_users. }
  assert (Alone : trialOver t (withStatus st (quotaOfStatus st) u) = false
                  /\ reminders t (withStatus st (quotaOfStatus st) u) = []).
  { unfold trialOver, reminders, sweptDays, withStatus.
    cbn [User.trialEndDate User.subscriptionType User.email]. rewrite End.
    now destruct (_ && _). }
  split; [|exact (proj2 Alone)].
  rewrite (tick_run t _ W1). cbn [store]. store_simpl.
  rewrite (lookup_map (H := Keyed_User));
    [|intros x; now destruct (trialOver t x)].
  rewrite L. cbn [option_map]. now rewrite (proj1 Alone).
Qed.

(** On the sample garden: the admin gives Alice the status [trial]; a
    sweep a year later finds her still on it. *)
Lemma admin_status_update_sets_quota_and_keeps_the_trial_end_witness :
  wf (store Sample.world)
  /\ isAdmin Sample.root = true
  /\ option_map User.subscriptionType
       (Table.lookup 1
          (Store.users
             (store (Sweep.tick 31536000000
                       (snd (adminUpdateUserStatus (storageFor true) 1000
                               Sample.root (Some 1) (Some "trial")
                               Sample.world))))))
     = Some "trial".
Proof.
  pose proof (admin_status_update_sets_quota_and_keeps_the_trial_end
                true 1000 Sample.root 1 "trial" Sample.world eq_refl eq_refl) as T.
  cbv zeta in T.
  change (Table.lookup 1 (Store.users (store Sample.world)))
    with (Some Sample.alice) in T.
  destruct T as (quota & _ & _ & _ & _ & _ & _ & _ & Sw);
    [discriminate|discriminate|intros _; split; reflexivity|].
  destruct (Sw eq_refl eq_refl eq_refl 31536000000) as [L _].
  split; [reflexivity|]. split; [reflexivity|]. now rewrite L.
Defined.

(** ** Payments *)

Lemma dispatch_run now event s :
  wf s ->
  snd (Webhook.dispatch now event s) =
  match Webhook.userOfCustomer (Webhook.customer event) s, asked event with
  | Some u, Some (st, quota) =>
      Store.withUsers s
        (Table.modify (User.id u) (withStatus st quota) (Store.users s))
  | _, _ => s
  end.
Proof.
  intros W. unfold Webhook.dispatch, asked.
  pose proof (fun id d => updateUser_run true now s W id d) as R.
  cbn [storageFor] in R.
  destruct ((Webhook.type event =? "customer.subscription.created")%string
            || (Webhook.type event =? "customer.subscription.updated")%string).
  - destruct (Webhook.userOfCustomer _ s) as [u|]; [|reflexivity].
    destruct (Webhook.status event =? "active")%string; [|reflexivity].
    rewrite R. reflexivity.
  - destruct (Webhook.type event =? "customer.subscription.deleted")%string.
    + destruct (Webhook.userOfCustomer _ s) as [u|]; [|reflexivity].
      rewrite R. reflexivity.
    + now destruct (Webhook.userOfCustomer _ s).
Qed.

Lemma userOfCustomer_some c s u :
  Webhook.userOfCustomer c s = Some u ->
  In u (Store.users s) /\ User.stripeCustomerId u = Some c.
Proof.
  unfold Webhook.userOfCustomer, Sql.first, Sql.select. intros E.
  assert (I : In u (filter
                      (fun u => match User.stripeCustomerId u with
                                | Some c' => (c' =? c)%string
                                | None => false
                                end) (Store.users s)))
    by (destruct (filter _ _); [discriminate E|inversion E; now left]).
  apply filter_In in I. destruct I as [I Q]. split; [exact I|].
  destruct (User.stripeCustomerId u) as [c'|]; [|discriminate Q].
  apply String.eqb_eq in Q. now subst.
Qed.

Lemma userOfCustomer_none c s :
  Webhook.userOfCustomer c s = None ->
  forall u, In u (Store.users s) -> User.stripeCustomerId u <> Some c.
Proof.
  unfold Webhook.userOfCustomer, Sql.first, Sql.select. intros E u I Q.
  assert (I' : In u (filter
                       (fun u => match User.stripeCustomerId u with
                                 | Some c' => (c' =? c)%string
                                 | None => false
                                 end) (Store.users s)))
    by (apply filter_In; split; [exact I|rewrite Q; apply String.eqb_refl]).
  destruct (filter _ _); [exact I'|discriminate E].
Qed.

(** The [switch] of the webhook, case by case. *)
Lemma dispatch_cases now event s :
  wf s ->
  Webhook.dispatch now event s =
  match Webhook.userOfCustomer (Webhook.customer event) s with
  | None => ([], s)
  | Some u =>
      if (Webhook.type event =? "customer.subscription.created")%string
         || (Webhook.type event =? "customer.subscription.updated")%string
      then
        if (Webhook.status event =? "active")%string
        then (if (User.email u =? "")%string then []
              else [SubscriptionConfirmationEmail (User.email u) true],
              Store.withUsers s
                (Table.modify (User.id u) (withStatus "premium" 999999)
                   (Store.users s)))
        else ([], s)
      else if (Webhook.type event =? "customer.subscription.deleted")%string
      then ([], Store.withUsers s
                  (Table.modify (User.id u) (withStatus "free" 3) (Store.users s)))
      else ([], s)
  end.
Proof.
  intros W. unfold Webhook.dispatch.
  pose proof (fun id d => updateUser_run true now s W id d) as R.
  cbn [storageFor] in R.
  destruct ((Webhook.type event =? "customer.subscription.created")%string
            || (Webhook.type event =? "customer.subscription.updated")%string).
  - destruct (Webhook.userOfCustomer _ s) as [u|]; [|reflexivity].
    destruct (Webhook.status event =? "active")%string; [|reflexivity].
    rewrite R. unfold Js.truthyStr. now destruct (User.email u =? "")%string.
  - destruct (Webhook.type event =? "customer.subscription.deleted")%string.
    + destruct (Webhook.userOfCustomer _ s) as [u|]; [|reflexivity].
      rewrite R. reflexivity.
    + now destruct (Webhook.userOfCustomer _ s).
Qed.

(** X17. [POST /api/webhook].  Without [STRIPE_WEBHOOK_SECRET] it answers
    200 and writes nothing, whatever the event.  With the secret, a
    request without a [stripe-signature] is answered 400 with
    [Webhook Error: No Stripe signature found], an event that does not
    verify is answered 400 too, and neither writes anything.  A verified
    event writes nothing when no user has the customer id of the event;
    when one has, the write is on the row of a user with that customer
    id and on nothing else: [customer.subscription.deleted] puts the user
    on [free] with 3 identifications, a [created] or [updated] event with
    the status [active] on [premium] with 999999, with a confirmation for
    a user who has an e-mail address, and every other event writes
    nothing.  No e-mail is queued and no image is sent for
    recognition. *)
Theorem webhook_writes_only_the_customer_of_a_verified_event :
  forall constructEvent secret now payload signature w,
    wf (store w) ->
    let r := Webhook.handle constructEvent secret now payload signature w in
    outbox (snd r) = outbox w
    /\ identifyCalls (snd r) = identifyCalls w
    /\ ((secret = None \/ secret = Some "") -> r = (Webhook.Skipped, w))
    /\ (forall sec,
          secret = Some sec -> sec <> "" ->
          (signature = None \/ signature = Some "") ->
          r = (Webhook.Bad "Webhook Error: No Stripe signature found", w))
    /\ (forall sec sig,
          secret = Some sec -> sec <> "" ->
          signature = Some sig -> sig <> "" ->
          constructEvent payload sig sec = None ->
          exists message, r = (Webhook.Bad message, w))
    /\ (forall sec sig event,
          secret = Some sec -> sec <> "" ->
          signature = Some sig -> sig <> "" ->
          constructEvent payload sig sec = Some event ->
          let created :=
            Webhook.type event = "customer.subscription.created"
            \/ Webhook.type event = "customer.subscription.updated" in
          let deleted := Webhook.type event = "customer.subscription.deleted" in
          let written st quota (u : User.t) :=
            withStore w
              (Store.withUsers (store w)
                 (Table.modify (User.id u) (withStatus st quota)
                    (Store.users (store w)))) in
          ((forall u, In u (Store.users (store w)) ->
                      User.stripeCustomerId u <> Some (Webhook.customer event)) ->
           r = (Webhook.Received [], w))
          /\ ((exists u, In u (Store.users (store w))
                         /\ User.stripeCustomerId u = Some (Webhook.customer event)) ->
              exists u,
                In u (Store.users (store w))
                /\ User.stripeCustomerId u = Some (Webhook.customer event)
                /\ (created -> Webhook.status event = "active" ->
                    r = (Webhook.Received
                           (if (User.email u =? "")%string then []
                            else [SubscriptionConfirmationEmail (User.email u) true]),
                         written "premium" 999999 u))
                /\ (created -> Webhook.status event <> "active" ->
                    r = (Webhook.Received [], w))
                /\ (deleted -> r = (Webhook.Received [], written "free" 3 u))
                /\ (~ created -> ~ deleted -> r = (Webhook.Received [], w)))).
Proof.
  intros constructEvent secret now payload signature w W r. subst r.
  unfold Webhook.handle, Js.truthyStr.
  destruct secret as [sec|];
    [destruct (String.eqb_spec sec "") as [S|S]; cbn [negb];
     [|destruct signature as [sig|];
       [destruct (String.eqb_spec sig "") as [G|G]; cbn [negb];
        [|destruct (constructEvent payload sig sec) as [event|] eqn:V]|]]|].
  3:{ rewrite (dispatch_cases now event (store w) W).
      assert (Same : withStore w (store w) = w) by now destruct w.
      assert (R : forall (c : bool) (a b : list Notice * Store.t),
                 (let (mails, s) := if c then a else b in
                  (Webhook.Received mails, withStore w s))
                 = if c then (Webhook.Received (fst a), withStore w (snd a))
                   else (Webhook.Received (fst b), withStore w (snd b)))
        by (intros [] [] []; reflexivity).
      split; [|split; [|split; [intros [E|E]; congruence|]]].
      1,2: destruct (Webhook.userOfCustomer _ _) as [u|]; [|reflexivity];
        repeat match goal with
               | |- context [if ?c then _ else _] => destruct c
               end; now destruct w.
      split; [intros sec' _ _ [E|E]; congruence|].
      split; [intros sec' sig' E1 _ E2 _ V'; congruence|].
      intros sec' sig' event' E1 _ E2 _ V'.
      assert (event' = event) as -> by congruence.
      cbv zeta.
      destruct (Webhook.userOfCustomer (Webhook.customer event) (store w))
        as [u|] eqn:U.
      - destruct (userOfCustomer_some _ _ _ U) as [I Q]. split.
        + intros No. now elim (No u I).
        + intros _. exists u. split; [exact I|]. split; [exact Q|].
          destruct (String.eqb_spec (Webhook.type event)
                      "customer.subscription.created") as [C|C];
            destruct (String.eqb_spec (Webhook.type event)
                        "customer.subscription.updated") as [P|P];
            destruct (String.eqb_spec (Webhook.type event)
                        "customer.subscription.deleted") as [D|D];
            destruct (String.eqb_spec (Webhook.status event) "active") as [A|A];
            cbn [orb]; rewrite ?Same;
            repeat split; intros; try reflexivity; try congruence; try tauto.
      - pose proof (userOfCustomer_none _ _ U) as No. split.
        + intros _. now rewrite Same.
        + intros (u & I & Q). now elim (No u I). }
  all: cbn [fst snd];
    (split; [reflexivity|]); (split; [reflexivity|]);
    (split; [intros [E|E]; congruence|]).
  all: split; [intros sec' E1 N1 [E|E]; congruence || reflexivity|].
  all: split; [intros sec' sig' E1 N1 E2 N2 V'; try congruence;
               eexists; reflexivity|].
  all: intros; congruence.
Qed.

(** On the sample payments: the event of Gina's cancellation puts her on
    the free plan and leaves Hugo as he is. *)
Lemma webhook_writes_only_the_customer_of_a_verified_event_witness :
  wf (store SamplePayments.world)
  /\ Store.users
       (store (snd (Webhook.handle SamplePayments.constructEvent (Some "whsec")
                      1000 "{}" (Some "good") SamplePayments.world)))
     = [withStatus "free" 3 SamplePayments.gina; SamplePayments.hugo].
Proof.
  pose proof (webhook_writes_only_the_customer_of_a_verified_event
                SamplePayments.constructEvent (Some "whsec") 1000 "{}"
                (Some "good") SamplePayments.world eq_refl) as T.
  cbv zeta in T. destruct T as (_ & _ & _ & _ & _ & V).
  destruct (V "whsec" "good" SamplePayments.cancelled eq_refl) as [_ S];
    [discriminate|reflexivity|discriminate|reflexivity|].
  destruct S as (u & I & Q & _ & _ & Deleted & _).
  { exists SamplePayments.gina. split; [now left|reflexivity]. }
  destruct I as [<-|[<-|[]]]; [|discriminate Q].
  split; [reflexivity|]. now rewrite (Deleted eq_refl).
Defined.

Lemma paymentSuccess_run url now retrieve me id w :
  wf (store w) ->
  id <> "" ->
  paymentSuccess (storageFor url) now retrieve me (Some id) w =
  match retrieve id with
  | None => (inl (respond 500 (JMessage "Error processing payment: ")), w)
  | Some status =>
      if (status =? "succeeded")%string
      then (inr (if Js.truthyStr (User.email me)
                 then [SubscriptionConfirmationEmail (User.email me) false]
                 else []),
            withStore w
              (Store.withUsers (store w)
                 (Table.modify (User.id me) (withStatus "premium-lifetime" 999999)
                    (Store.users (store w)))))
      else (inl (respond 400 (JMessage "Payment has not been completed")), w)
  end.
Proof.
  intros W N. apply String.eqb_neq in N.
  unfold paymentSuccess, runJson, Js.truthyStr at 1. rewrite N. cbn [negb].
  unfold Handler.bind at 1, retrieveStatus.
  destruct (retrieve id) as [status|]; [|reflexivity].
  destruct (status =? "succeeded")%string; [|reflexivity].
  rewrite bind_await, (updateUser_run url now _ W). cbn [fst snd].
  reflexivity.
Qed.

(** X18. [POST /api/payment-success] writes only when Stripe reports the
    payment intent as [succeeded]: then the requester, and no other user,
    is put on [premium-lifetime] with 999999 identifications; for any
    other status the answer is 400, for an id Stripe refuses 500, for a
    missing or empty id 400, and nothing is written.  The route does not
    tie the intent to the requester or use it up: a second stored user
    who presents the same id afterwards is upgraded as well. *)
Theorem payment_success_upgrades_whoever_presents_a_succeeded_intent :
  forall url now retrieve me id w,
    wf (store w) ->
    id <> "" ->
    let r := paymentSuccess (storageFor url) now retrieve me (Some id) w in
    paymentSuccess (storageFor url) now retrieve me None w
    = (inl (respond 400 (JMessage "Payment intent ID is required")), w)
    /\ paymentSuccess (storageFor url) now retrieve me (Some "") w
       = (inl (respond 400 (JMessage "Payment intent ID is required")), w)
    /\ (retrieve id = None ->
        r = (inl (respond 500 (JMessage "Error processing payment: ")), w))
    /\ (forall status,
          retrieve id = Some status -> status <> "succeeded" ->
          r = (inl (respond 400 (JMessage "Payment has not been completed")), w))
    /\ (retrieve id = Some "succeeded" ->
        (exists mails, fst r = inr mails)
        /\ store (snd r) =
           Store.withUsers (store w)
             (Table.modify (User.id me) (withStatus "premium-lifetime" 999999)
                (Store.users (store w)))
        /\ forall later other u,
             Table.lookup (User.id other) (Store.users (store w)) = Some u ->
             User.id other <> User.id me ->
             Table.lookup (User.id other) (Store.users (store (snd r))) = Some u
             /\ Table.lookup (User.id other)
                  (Store.users
                     (store (snd (paymentSuccess (storageFor url) later retrieve
                                    other (Some id) (snd r)))))
                = Some (withStatus "premium-lifetime" 999999 u)).
Proof.
  intros url now retrieve me id w W N r.
  pose proof (paymentSuccess_run url now retrieve me id w W N) as R.
  fold r in R.
  split; [reflexivity|]. split; [reflexivity|]. split; [|split].
  - intros E. now rewrite E in R.
  - intros status E S. rewrite E in R. apply String.eqb_neq in S.
    now rewrite S in R.
  - intros E. rewrite E in R. cbn [String.eqb Ascii.eqb Bool.eqb] in R.
    assert (St : store (snd r) =
                 Store.withUsers (store w)
                   (Table.modify (User.id me)
                      (withStatus "premium-lifetime" 999999)
                      (Store.users (store w)))).
    { rewrite R. cbn [snd]. now destruct w. }
    split; [rewrite R; cbn [fst]; eauto|]. split; [exact St|].
    intros later other u L D.
    assert (W1 : wf (store (snd r))).
    { rewrite St. now apply wf_users. }
    assert (L1 : Table.lookup (User.id other) (Store.users (store (snd r)))
                 = Some u).
    { rewrite St. store_simpl.
      rewrite (lookup_modify_other (H := Keyed_User)); [exact L|reflexivity|].
      intros Q. apply D. now symmetry. }
    split; [exact L1|].
    rewrite (paymentSuccess_run url later retrieve other id (snd r) W1 N), E.
    cbn [String.eqb Ascii.eqb Bool.eqb snd store withStore]. store_simpl.
    rewrite (lookup_modify (H := Keyed_User)) by reflexivity.
    now rewrite L1.
Qed.

(** On the sample payments: Gina pays with [pi_1]; Hugo presents [pi_1]
    after her and is upgraded too. *)
Lemma payment_success_upgrades_whoever_presents_a_succeeded_intent_witness :
  wf (store SamplePayments.world)
  /\ option_map User.subscriptionType
       (Table.lookup 2
          (Store.users
             (store (snd (paymentSuccess (storageFor true) 2000
                            SamplePayments.retrieve SamplePayments.hugo
                            (Some "pi_1")
                            (snd (paymentSuccess (storageFor true) 1000
                                    SamplePayments.retrieve SamplePayments.gina
                                    (Some "pi_1") SamplePayments.world)))))))
     = Some "premium-lifetime".
Proof.
  pose proof (payment_success_upgrades_whoever_presents_a_succeeded_intent
                true 1000 SamplePayments.retrieve SamplePayments.gina "pi_1"
                SamplePayments.world eq_refl) as T.
  cbv zeta in T. destruct T as (_ & _ & _ & _ & Ok); [discriminate|].
  destruct (Ok eq_refl) as (_ & _ & Again).
  destruct (Again 2000 SamplePayments.hugo SamplePayments.hugo eq_refl)
    as [_ L]; [discriminate|].
  split; [reflexivity|].
  change (User.id SamplePayments.hugo) with 2 in L. now rewrite L.
Defined.

(** ** The quota, request after request *)

Lemma withRemaining_same u : withRemaining (User.identificationsRemaining u) u = u.
Proof. now destruct u. Qed.

(** X19. A stored user on the free plan with [n >= 0] identifications
    left sends identify requests that nothing but the quota can stop: the
    first [n] are answered 200, every later one is answered 403 with the
    upgrade message, and afterwards the user has [n] minus the number of
    requests left, or 0 when there were more requests than that. *)
Theorem free_quota_counts_down_to_zero_then_refuses :
  forall url reqs me u w,
    wf (store w) ->
    Table.lookup (User.id me) (Store.users (store w)) = Some u ->
    User.subscriptionType u = "free" ->
    0 <= User.identificationsRemaining u ->
    Forall (answerable (User.id me)) reqs ->
    let n := Z.to_nat (User.identificationsRemaining u) in
    let answers := fst (identifyEach (storageFor url) reqs w) in
    let w' := snd (identifyEach (storageFor url) reqs w) in
    List.length answers = List.length reqs
    /\ Forall (fun a => status a = 200) (firstn n answers)
    /\ Forall (fun a => a = respond 403 (JUpgrade upgradeMessage)) (skipn n answers)
    /\ Table.lookup (User.id me) (Store.users (store w'))
       = Some (withRemaining
                 (Z.max 0 (User.identificationsRemaining u
                           - Z.of_nat (List.length reqs))) u).
Proof.
  intros url reqs. induction reqs as [|r reqs IH]; intros me u w W E F Q A; cbv zeta.
  - cbn [identifyEach fst snd List.length]. rewrite firstn_nil, skipn_nil.
    repeat split; try constructor.
    rewrite E. do 2 f_equal.
    replace (Z.max 0 (User.identificationsRemaining u - Z.of_nat 0))
      with (User.identificationsRemaining u) by lia.
    symmetry. apply withRemaining_same.
  - inversion A as [|? ? [Who [Key (image & data & File & Api)]] A']; subst.
    cbn [identifyEach].
    pose proof (identify_run url (at_ r) (plantIdApi r) (apiKey_ r) (who r)
                  (file_ r) w W) as R.
    rewrite File, Who, E, Key, Api, F in R.
    cbn [negb String.eqb Ascii.eqb Bool.eqb] in R.
    unfold exhausted in R. rewrite F in R.
    cbn [String.eqb Ascii.eqb Bool.eqb andb] in R.
    rewrite File. rewrite R. clear R.
    destruct (Z.leb_spec (User.identificationsRemaining u) 0) as [Z0|Pos].
    + assert (N0 : User.identificationsRemaining u = 0) by lia.
      specialize (IH me u w W E F Q A'). cbv zeta in IH.
      destruct (identifyEach (storageFor url) reqs w) as [answers w2].
      cbn [fst snd] in *. rewrite N0 in *. cbn [Z.to_nat firstn skipn] in *.
      destruct IH as (Len & _ & Ref & L).
      split; [cbn; now rewrite Len|]. split; [constructor|].
      split; [constructor; [reflexivity|exact Ref]|].
      rewrite L. do 2 f_equal. lia.
    + set (u1 := withRemaining (User.identificationsRemaining u - 1) u).
      set (w1 := withStore (called w image)
                   (Store.withUsers (store w)
                      (Table.modify (User.id me)
                         (withRemaining (User.identificationsRemaining u - 1))
                         (Store.users (store w))))).
      assert (S1 : store w1 =
                   Store.withUsers (store w)
                     (Table.modify (User.id me)
                        (withRemaining (User.identificationsRemaining u - 1))
                        (Store.users (store w)))) by reflexivity.
      assert (W1 : wf (store w1)) by (rewrite S1; now apply wf_users).
      assert (E1 : Table.lookup (User.id me) (Store.users (store w1)) = Some u1).
      { rewrite S1. store_simpl.
        rewrite (lookup_modify (H := Keyed_User)) by reflexivity. now rewrite E. }
      assert (Q1 : 0 <= User.identificationsRemaining u1) by (cbn; lia).
      specialize (IH me u1 w1 W1 E1 F Q1 A'). cbv zeta in IH.
      destruct (identifyEach (storageFor url) reqs w1) as [answers w2].
      cbn [fst snd] in *.
      destruct IH as (Len & Ok & Ref & L).
      replace (Z.to_nat (User.identificationsRemaining u))
        with (S (Z.to_nat (User.identificationsRemaining u - 1))) by lia.
      cbn [firstn skipn User.identificationsRemaining u1 withRemaining] in *.
      split; [cbn; now rewrite Len|].
      split; [constructor; [reflexivity|exact Ok]|].
      split; [exact Ref|].
      rewrite L. unfold u1, withRemaining. cbn. do 3 f_equal. lia.
Qed.

(** On the sample garden: Alice has 5 identifications and asks 6 times;
    the sixth answer is the refusal and she has none left. *)
Lemma free_quota_counts_down_to_zero_then_refuses_witness :
  wf (store Sample.world)
  /\ Forall (answerable 1) (repeat aliceAsks 6)
  /\ skipn 5 (fst (identifyEach (storageFor false) (repeat aliceAsks 6)
                     Sample.world))
     = [respond 403 (JUpgrade upgradeMessage)]
  /\ option_map User.identificationsRemaining
       (Table.lookup 1
          (Store.users
             (store (snd (identifyEach (storageFor false) (repeat aliceAsks 6)
                            Sample.world)))))
     = Some 0.
Proof.
  assert (A : Forall (answerable 1) (repeat aliceAsks 6)).
  { repeat constructor; exists "leaf", "{suggestions}"; split; reflexivity. }
  destruct (free_quota_counts_down_to_zero_then_refuses
              false (repeat aliceAsks 6) Sample.alice Sample.alice Sample.world
              eq_refl eq_refl eq_refl) as (_ & _ & _ & L);
    [discriminate|exact A|].
  split; [reflexivity|]. split; [exact A|]. split; [reflexivity|].
  change (User.id Sample.alice) with 1 in L. now rewrite L.
Defined.

(** ** The add-plant dialog *)

Lemma includes_suffix pre sub s :
  Js.includes (pre ++ sub) s = true -> Js.includes sub s = true.
Proof.
  intros I. destruct (includes_split _ _ I) as (a & b & ->).
  rewrite append_assoc', <- (append_assoc' a pre). apply includes_app.
Qed.

(** X20. The add-plant dialog proposes one of six water frequencies for
    the watering advice of an identification.  Advice that contains
    [biweekly] also contains [weekly] and is caught by an earlier test: it
    is read as 1, 3 or 7 days, never as 14; the dialog proposes 14 only
    for advice that contains [every two week]. *)
Theorem biweekly_advice_is_never_read_as_fourteen_days :
  forall advice,
    let days := AddPlantModal.waterFrequencyOfText advice in
    In days ["1"; "3"; "7"; "14"; "30"; "45"]
    /\ (Js.includes "biweekly" (Js.toLowerCase advice) = true ->
        days = "1" \/ days = "3" \/ days = "7")
    /\ (days = "14" ->
        Js.includes "every two week" (Js.toLowerCase advice) = true
        /\ Js.includes "weekly" (Js.toLowerCase advice) = false).
Proof.
  intros advice days. subst days. unfold AddPlantModal.waterFrequencyOfText.
  cbv zeta.
  pose proof (includes_suffix "bi" "weekly" (Js.toLowerCase advice)) as B.
  cbn [String.append] in B.
  destruct (Js.includes "daily" _ || Js.includes "every day" _);
    [cbn; intuition discriminate|].
  destruct (Js.includes "twice" _); [cbn; intuition discriminate|].
  destruct (Js.includes "weekly" (Js.toLowerCase advice)) eqn:Wk;
    cbn [orb]; [cbn; intuition discriminate|].
  destruct (Js.includes "every week" _); [cbn; intuition discriminate|].
  destruct (Js.includes "biweekly" (Js.toLowerCase advice)) eqn:Bi;
    [specialize (B eq_refl); discriminate B|].
  cbn [orb].
  destruct (Js.includes "every two week" _); [cbn; intuition discriminate|].
  destruct (Js.includes "monthly" _ || Js.includes "every month" _);
    [cbn; intuition discriminate|].
  destruct (Js.includes "infrequent" _ || Js.includes "rarely" _);
    cbn; intuition discriminate.
Qed.

(** ** The invariant, route by route *)

Lemma countersNotBelow_trans s1 s2 s3 :
  countersNotBelow s1 s2 -> countersNotBelow s2 s3 -> countersNotBelow s1 s3.
Proof. unfold countersNotBelow. lia. Qed.

Lemma keeps_same {A} (m : World -> A * World) :
  (forall w, store (snd (m w)) = store w) -> keeps m.
Proof.
  intros S w W. rewrite S. split; [exact W|apply countersNotBelow_refl].
Qed.

Lemma keeps_ret {A} (a : A) : keeps (Handler.ret a).
Proof. now apply keeps_same. Qed.

Lemma keeps_reply {A} code j : keeps (@Handler.reply A code j).
Proof. now apply keeps_same. Qed.

Lemma keeps_throw {A} : keeps (@Handler.throw A).
Proof. now apply keeps_same. Qed.

Lemma keeps_send m : keeps (Handler.send m).
Proof. now apply keeps_same. Qed.

Lemma keeps_axiosPost api image : keeps (axiosPost api image).
Proof. apply keeps_same. intros w. unfold axiosPost. now destruct (api image). Qed.

Lemma keeps_retrieveStatus retrieve id : keeps (retrieveStatus retrieve id).
Proof.
  apply keeps_same. intros w. unfold retrieveStatus. now destruct (retrieve id).
Qed.

Lemma keeps_await {A} now (op : Op A) : keepsOp op -> keeps (Handler.await now op).
Proof.
  intros K w W. unfold Handler.await. specialize (K now (store w) W).
  destruct (op now (store w)) as [a s]. cbn [snd] in *. now destruct w.
Qed.

Lemma keeps_bind {A B} (m : Handler.t A) (k : A -> Handler.t B) :
  keeps m -> (forall a, keeps (k a)) -> keeps (Handler.bind m k).
Proof.
  intros Km Kk w W. unfold Handler.bind. specialize (Km w W).
  destruct (m w) as [[a|r|] w1]; cbn [snd] in *; try exact Km.
  destruct Km as [W1 C1]. destruct (Kk a w1 W1) as [W2 C2].
  split; [exact W2|exact (countersNotBelow_trans _ _ _ C1 C2)].
Qed.

Lemma keeps_when c m : keeps m -> keeps (Handler.when c m).
Proof. intros K. destruct c; [exact K|apply keeps_ret]. Qed.

Lemma keeps_forEach {A} (xs : list A) body :
  (forall x, keeps (body x)) -> keeps (Handler.forEach xs body).
Proof.
  intros K. induction xs as [|x xs IH]; cbn [Handler.forEach];
    [apply keeps_ret|].
  apply keeps_bind; [apply K|intros _; exact IH].
Qed.

Lemma keeps_mapM {A B} (f : A -> Handler.t B) xs :
  (forall x, keeps (f x)) -> keeps (mapM f xs).
Proof.
  intros K. induction xs as [|x xs IH]; cbn [mapM]; [apply keeps_ret|].
  apply keeps_bind; [apply K|intros y].
  apply keeps_bind; [exact IH|intros ys; apply keeps_ret].
Qed.

Lemma keeps_run m caught : keeps m -> keeps (Handler.run m caught).
Proof.
  intros K w W. unfold Handler.run. specialize (K w W).
  now destruct (m w) as [[r|r|] w1].
Qed.

Lemma keeps_runJson {A} (m : Handler.t A) caught : keeps m -> keeps (runJson m caught).
Proof.
  intros K w W. unfold runJson. specialize (K w W).
  now destruct (m w) as [[r|r|] w1].
Qed.

Section OpsKeep.

Variable url : bool.

Lemma keepsOp_same {A} (op : Op A) :
  (forall now s, snd (op now s) = s) -> keepsOp op.
Proof.
  intros S now s W. rewrite S. split; [exact W|apply countersNotBelow_refl].
Qed.

Lemma keeps_getUser id : keepsOp (getUser (storageFor url) id).
Proof. apply keepsOp_same. intros. now rewrite getUser_run. Qed.

Lemma keeps_getPlant id : keepsOp (getPlant (storageFor url) id).
Proof. apply keepsOp_same. intros. now rewrite getPlant_run. Qed.

Lemma keeps_getPlants id : keepsOp (getPlants (storageFor url) id).
Proof. apply keepsOp_same. intros. now destruct url. Qed.

Lemma keeps_getCareActions id : keepsOp (getCareActions (storageFor url) id).
Proof. apply keepsOp_same. intros. now destruct url. Qed.

Lemma keeps_getCareActionsForPlant id :
  keepsOp (getCareActionsForPlant (storageFor url) id).
Proof. apply keepsOp_same. intros. now destruct url. Qed.

Lemma keeps_getPendingCareActions id :
  keepsOp (getPendingCareActions (storageFor url) id).
Proof. apply keepsOp_same. intros. now destruct url. Qed.

Lemma keeps_updateUser id d : keepsOp (updateUser (storageFor url) id d).
Proof.
  intros now s W. rewrite (updateUser_run _ now s W). cbn [snd].
  split; [now apply wf_users|same_counters].
Qed.

Lemma keeps_createPlant i : keepsOp (createPlant (storageFor url) i).
Proof.
  intros now s W. rewrite (createPlant_run _ now s W). cbv zeta. cbn [snd].
  split; [apply wf_newPlant; [exact W|now destruct url]|same_counters].
Qed.

Lemma keeps_updatePlant id d : keepsOp (updatePlant (storageFor url) id d).
Proof.
  intros now s W. rewrite (updatePlant_run _ now s W). cbn [snd].
  split; [now apply wf_plants|same_counters].
Qed.

Lemma keeps_deletePlant id : keepsOp (deletePlant (storageFor url) id).
Proof.
  intros now s W. rewrite (deletePlant_run _ now s W).
  split; [now apply wf_removePlant|same_counters].
Qed.

Lemma keeps_updatePlantWatered id : keepsOp (updatePlantWatered (storageFor url) id).
Proof.
  intros now s W. rewrite (updatePlantWatered_run _ now s W). cbn [snd].
  split; [now apply wf_plants|same_counters].
Qed.

Lemma keeps_updatePlantFertilized id :
  keepsOp (updatePlantFertilized (storageFor url) id).
Proof.
  intros now s W. rewrite (updatePlantFertilized_run _ now s W). cbn [snd].
  split; [now apply wf_plants|same_counters].
Qed.

Lemma keeps_createCareAction i : keepsOp (createCareAction (storageFor url) i).
Proof.
  intros now s W. rewrite (createCareAction_run _ now s W). cbv zeta. cbn [snd].
  split; [apply wf_newCareAction; [exact W|now destruct url]|same_counters].
Qed.

Lemma keeps_updateCareAction id d : keepsOp (updateCareAction (storageFor url) id d).
Proof.
  intros now s W. rewrite (updateCareAction_run _ now s W). cbn [snd].
  split; [now apply wf_careActions|same_counters].
Qed.

Lemma keeps_markCareActionComplete id :
  keepsOp (markCareActionComplete (storageFor url) id).
Proof.
  intros now s W. rewrite (markCareActionComplete_run _ now s W).
  destruct (Table.lookup id (Store.careActions s)) as [a|]; cbn [snd];
    [|split; [exact W|apply countersNotBelow_refl]].
  split; [now apply wf_careActions_after_mark|].
  cbv zeta.
  destruct (CareAction.actionType a =? "water")%string; [same_counters|].
  destruct (CareAction.actionType a =? "fertilize")%string; same_counters.
Qed.

Lemma keeps_deleteCareAction id : keepsOp (deleteCareAction (storageFor url) id).
Proof.
  intros now s W. rewrite (deleteCareAction_run _ now s W).
  split; [now apply wf_removeCareAction|same_counters].
Qed.

End OpsKeep.

Ltac keeps_step :=
  first
    [ apply keeps_run | apply keeps_runJson
    | apply keeps_bind; [|intros ?]
    | apply keeps_await
    | apply keeps_ret | apply keeps_reply | apply keeps_throw | apply keeps_send
    | apply keeps_axiosPost | apply keeps_retrieveStatus
    | apply keeps_when
    | apply keeps_forEach; intros ?
    | apply keeps_mapM; intros ?
    | apply keeps_getUser | apply keeps_getPlant | apply keeps_getPlants
    | apply keeps_getCareActions | apply keeps_getCareActionsForPlant
    | apply keeps_getPendingCareActions | apply keeps_updateUser
    | apply keeps_createPlant | apply keeps_updatePlant | apply keeps_deletePlant
    | apply keeps_updatePlantWatered | apply keeps_updatePlantFertilized
    | apply keeps_createCareAction | apply keeps_updateCareAction
    | apply keeps_markCareActionComplete | apply keeps_deleteCareAction
    | match goal with
      | |- keeps (match ?x with _ => _ end) => destruct x
      | |- keeps (let _ := _ in _) => cbv zeta
      end ].

Lemma serve_keeps url now req : keeps (fun w => (tt, serve (storageFor url) now req w)).
Proof.
  assert (Snd : forall {A} (m : World -> A * World),
             keeps m -> keeps (fun w => (tt, snd (m w)))).
  { intros A m K w W. exact (K w W). }
  destruct req; cbn [serve]; apply Snd;
    unfold getPlantsRoute, getPlantRoute, postPlant, putPlant, deletePlantRoute,
      waterPlant, fertilizePlant, careNow, getCareActionsRoute, getPendingRoute,
      postCareActionRequest, postCareAction, completeCareAction, recordAndReschedule, identify,
      startFreeTrial, adminStartTrial, adminUpdateUserStatus,
      adminToggleBetaTester, paymentSuccess, scheduleNext;
    repeat keeps_step.
Qed.

(** X21. Every modelled route, served at any time for any request in a
    store whose ids are unique and below the counters, leaves a store of
    that kind and lowers no counter; so do a tick of the trial sweep and
    the Stripe webhook.  So after any sequence of requests no two users,
    no two plants and no two care actions share an id, and no id that was
    handed out before the sequence is handed out again in it. *)
Theorem ids_stay_unique_whatever_is_requested :
  (forall url now req w,
     wf (store w) ->
     wf (store (serve (storageFor url) now req w))
     /\ countersNotBelow (store w) (store (serve (storageFor url) now req w)))
  /\ (forall now w,
        wf (store w) ->
        wf (store (Sweep.tick now w))
        /\ countersNotBelow (store w) (store (Sweep.tick now w)))
  /\ (forall constructEvent secret now payload signature w,
        wf (store w) ->
        wf (store (snd (Webhook.handle constructEvent secret now payload
                          signature w)))
        /\ countersNotBelow (store w)
             (store (snd (Webhook.handle constructEvent secret now payload
                            signature w))))
  /\ (forall url reqs w,
        wf (store w) ->
        wf (store (serveAll (storageFor url) reqs w))
        /\ countersNotBelow (store w) (store (serveAll (storageFor url) reqs w))).
Proof.
  split; [|split; [|split]].
  - intros url now req w W. exact (serve_keeps url now req w W).
  - intros now w W. rewrite (tick_run now w W). cbn [store].
    split; [apply wf_same_user_keys; [exact W|apply swept_keys]|same_counters].
  - intros constructEvent secret now payload signature w W.
    unfold Webhook.handle.
    assert (Same : wf (store w) /\ countersNotBelow (store w) (store w))
      by (split; [exact W|apply countersNotBelow_refl]).
    destruct secret as [sec|]; [|exact Same].
    destruct (negb (Js.truthyStr sec)); [exact Same|].
    destruct signature as [sig|]; [|exact Same].
    destruct (negb (Js.truthyStr sig)); [exact Same|].
    destruct (constructEvent payload sig sec) as [event|]; [|exact Same].
    pose proof (dispatch_run now event (store w) W) as D.
    destruct (Webhook.dispatch now event (store w)) as [mails s].
    cbn [snd] in *. subst s.
    assert (St : forall s', store (withStore w s') = s') by now destruct w.
    rewrite St.
    destruct (Webhook.userOfCustomer _ (store w)) as [u|]; [|exact Same].
    destruct (asked event) as [[st quota]|]; [|exact Same].
    split; [now apply wf_users|same_counters].
  - intros url reqs.
    induction reqs as [|[now req] reqs IH]; intros w W;
      [split; [exact W|apply countersNotBelow_refl]|].
    cbn [serveAll]. destruct (serve_keeps url now req w W) as [W1 C1].
    cbn [snd] in W1, C1. destruct (IH _ W1) as [W2 C2].
    split; [exact W2|exact (countersNotBelow_trans _ _ _ C1 C2)].
Qed.

(** On the sample garden: Alice adds a basil and deletes her fern. *)
Lemma ids_stay_unique_whatever_is_requested_witness :
  wf (store Sample.world)
  /\ wf (store (serveAll (storageFor false)
                  [(1000, Api.PostPlant Sample.alice (Some Sample.basil));
                   (2000, Api.DeletePlant Sample.alice 1)]
                  Sample.world)).
Proof.
  split; [reflexivity|].
  apply (proj2 (proj2 (proj2 ids_stay_unique_whatever_is_requested))).
  reflexivity.
Defined.

(** ** Two ways to record a care *)

Lemma same_key_same_row {Row} `{Keyed Row} (x y : Row) rows :
  NoDup (Table.keys rows) -> In x rows -> In y rows -> key x = key y -> x = y.
Proof.
  induction rows as [|r rows IH]; [intros _ []|].
  unfold Table.keys. cbn [map]. intros N Ix Iy K. inversion N as [|? ? Out N']; subst.
  assert (Mem : forall z, In z rows -> In (key z) (map key rows))
    by (intros z Iz; now apply in_map).
  destruct Ix as [<-|Ix], Iy as [<-|Iy].
  - reflexivity.
  - exfalso. apply Out. rewrite K. now apply Mem.
  - exfalso. apply Out. rewrite <- K. now apply Mem.
  - now apply IH.
Qed.

Lemma allDone_only_one pid kind now (a : CareAction.t) cs :
  NoDup (Table.keys cs) ->
  filter (fun x => (CareAction.plantId x =? pid) && CareAction.pendingOfKind kind x)
         cs = [a] ->
  allDone pid kind now cs = Table.modify (CareAction.id a) (completed now) cs.
Proof.
  intros N Only.
  assert (Ia : In a cs /\ (CareAction.plantId a =? pid)
                          && CareAction.pendingOfKind kind a = true).
  { apply (proj1 (filter_In
                    (fun x => (CareAction.plantId x =? pid)
                              && CareAction.pendingOfKind kind x) a cs)).
    rewrite Only. now left. }
  unfold allDone, Table.modify. apply map_ext_in. intros x Ix.
  change (key x) with (CareAction.id x).
  destruct ((CareAction.plantId x =? pid) && CareAction.pendingOfKind kind x)
    eqn:C.
  - assert (x = a) as ->.
    { assert (I : In x [a]) by (rewrite <- Only; apply filter_In; now split).
      destruct I as [<-|[]]. reflexivity. }
    now rewrite Z.eqb_refl.
  - destruct (Z.eqb_spec (CareAction.id x) (CareAction.id a)) as [K|K];
      [|reflexivity].
    assert (x = a) as -> by exact (same_key_same_row x a cs N Ix (proj1 Ia) K).
    rewrite (proj2 Ia) in C. discriminate C.
Qed.

Lemma lookup_in {Row} `{Keyed Row} (r : Row) rows :
  NoDup (Table.keys rows) -> In r rows -> Table.lookup (key r) rows = Some r.
Proof.
  intros N I. destruct (in_split _ _ I) as (pre & rest & ->).
  now apply lookup_middle.
Qed.

Lemma complete_is_careNow url now me pid p a kind record f frequency forbidden
    failed w :
  (kind = "water" /\ f = watered now) \/ (kind = "fertilize" /\ f = fertilized now) ->
  (forall s, wf s ->
     record pid now s =
     (option_map f (Table.lookup pid (Store.plants s)),
      Store.withPlants s (Table.modify pid f (Store.plants s)))) ->
  frequency p = frequencyOf kind p ->
  wf (store w) ->
  Table.lookup pid (Store.plants (store w)) = Some p ->
  Plant.userId p = User.id me ->
  pendingFor pid kind (store w) = [a] ->
  snd (completeCareAction (storageFor url) now me (CareAction.id a) w)
  = snd (careNow (storageFor url) now me pid kind record frequency forbidden
           failed w).
Proof.
  intros KF R Fr W F O Only.
  pose proof (wf_careActions_NoDup _ W) as N.
  assert (Ia : In a (Store.careActions (store w))
               /\ (CareAction.plantId a =? pid)
                  && CareAction.pendingOfKind kind a = true).
  { apply (proj1 (filter_In
                    (fun x => (CareAction.plantId x =? pid)
                              && CareAction.pendingOfKind kind x) a _)).
    unfold pendingFor in Only. rewrite Only. now left. }
  destruct Ia as [Ia Ca]. apply andb_prop in Ca. destruct Ca as [Pa Ka].
  apply Z.eqb_eq in Pa. unfold CareAction.pendingOfKind in Ka.
  apply andb_prop in Ka. destruct Ka as [Ka _]. apply String.eqb_eq in Ka.
  pose proof (lookup_in (H := Keyed_CareAction) a _ N Ia) as La.
  change (key a) with (CareAction.id a) in La.
  rewrite (completeCareAction_run url now me _ w W), La. cbv zeta.
  rewrite (careNow_run url now me pid kind record f frequency forbidden failed p w
             KF R W F O).
  cbn [snd]. rewrite Pa, Ka, F, Fr.
  rewrite (allDone_only_one pid kind now a _ N Only).
  pose proof (lookup_key (H := Keyed_Plant) _ _ _ F) as K.
  change (key p) with (Plant.id p) in K. rewrite K.
  assert (Rec : recordedOn kind now = f).
  { destruct KF as [[-> ->]|[-> ->]]; reflexivity. }
  rewrite Rec. now destruct (store w).
Qed.

(** X22. When a plant of the requester has exactly one pending watering
    (feeding), completing that action through
    [POST /api/care-actions/:id/complete] and watering (fertilizing) the
    plant through [POST /api/plants/:id/water] ([.../fertilize]) at the
    same time leave the same world: the action completed, the care
    recorded on the plant, the next action scheduled. *)
Theorem completing_the_only_pending_action_is_caring_now :
  forall url now me pid p a w,
    wf (store w) ->
    Table.lookup pid (Store.plants (store w)) = Some p ->
    Plant.userId p = User.id me ->
    (pendingFor pid "water" (store w) = [a] ->
     snd (completeCareAction (storageFor url) now me (CareAction.id a) w)
     = snd (waterPlant (storageFor url) now me pid w))
    /\ (pendingFor pid "fertilize" (store w) = [a] ->
        snd (completeCareAction (storageFor url) now me (CareAction.id a) w)
        = snd (fertilizePlant (storageFor url) now me pid w)).
Proof.
  intros url now me pid p a w W F O. split; intros Only.
  - apply (complete_is_careNow url now me pid p a "water" _ (watered now));
      try assumption; [now left| |reflexivity].
    intros s Ws. now apply updatePlantWatered_run.
  - apply (complete_is_careNow url now me pid p a "fertilize" _ (fertilized now));
      try assumption; [now right| |reflexivity].
    intros s Ws. now apply updatePlantFertilized_run.
Qed.

(** On the sample garden: Alice's fern has one pending watering. *)
Lemma completing_the_only_pending_action_is_caring_now_witness :
  wf (store Sample.world)
  /\ pendingFor 1 "water" (store Sample.world) = [Sample.waterFern]
  /\ snd (completeCareAction (storageFor true) 1000 Sample.alice 1 Sample.world)
     = snd (waterPlant (storageFor true) 1000 Sample.alice 1 Sample.world).
Proof.
  split; [reflexivity|]. split; [reflexivity|].
  apply (proj1 (completing_the_only_pending_action_is_caring_now
                  true 1000 Sample.alice 1 Sample.fern Sample.waterFern
                  Sample.world eq_refl eq_refl eq_refl)).
  reflexivity.
Defined.

(** ** Subscribing *)

(** X23. [POST /api/create-subscription] writes nothing when it refuses
    and nothing for a user who already has a subscription id.  For a user
    without one, with an e-mail address, a configured price and Stripe
    creating the customer and the subscription, it answers with the new
    subscription and stores the two Stripe ids together with the status
    [premium] on the row of the requester, the quota and every other
    column, row and table untouched.  The subscription is still unpaid at
    that point, yet [POST /api/identify] answers that user from then on,
    whatever the quota, and spends nothing. *)
Theorem subscribing_makes_premium_before_any_payment :
  forall url now stripe priceId me w,
    wf (store w) ->
    let r := Subscribe.route (storageFor url) now stripe priceId me w in
    (forall code message, fst r = Subscribe.Refused code message -> snd r = w)
    /\ (Js.truthyOptStr (User.stripeSubscriptionId me) = true -> snd r = w)
    /\ (forall customer price subscription u,
          Js.truthyOptStr (User.stripeSubscriptionId me) = false ->
          User.email me <> "" ->
          priceId = Some price ->
          price <> "" ->
          Subscribe.createCustomer stripe (User.email me) (User.username me)
          = Some customer ->
          Subscribe.createSubscription stripe customer price = Some subscription ->
          Table.lookup (User.id me) (Store.users (store w)) = Some u ->
          fst r = Subscribe.Sent subscription
          /\ Table.lookup (User.id me) (Store.users (store (snd r)))
             = Some (User.mk (User.id u) (User.username u) (User.password u)
                       (User.email u) (User.firstName u) (User.lastName u)
                       "premium" (User.identificationsRemaining u)
                       (Some customer)
                       (Some (Subscribe.subscriptionId subscription))
                       (User.trialEndDate u) (User.isBetaTester u))
          /\ (forall k, k <> User.id me ->
                Table.lookup k (Store.users (store (snd r)))
                = Table.lookup k (Store.users (store w)))
          /\ Store.plants (store (snd r)) = Store.plants (store w)
          /\ Store.careActions (store (snd r)) = Store.careActions (store w)
          /\ outbox (snd r) = outbox w
          /\ (forall later api apiKey image data,
                Js.truthyOptStr apiKey = true ->
                api image = Some data ->
                identify (storageFor url) later api apiKey me (Some image) (snd r)
                = (respond 200 (JIdentification data), called (snd r) image))).
Proof.
  intros url now stripe priceId me w W r. subst r. unfold Subscribe.route.
  split; [|split].
  - intros code message.
    destruct (Js.truthyOptStr (User.stripeSubscriptionId me)).
    { destruct (User.stripeSubscriptionId me) as [id|]; [|reflexivity].
      now destruct (Subscribe.retrieve stripe id). }
    destruct (negb (Js.truthyStr (User.email me))); [reflexivity|].
    destruct (negb (Js.truthyOptStr priceId)); [reflexivity|].
    destruct priceId as [price|]; [|reflexivity].
    destruct (Subscribe.createCustomer stripe _ _) as [customer|]; [|reflexivity].
    destruct (Subscribe.createSubscription stripe customer price) as [sub|];
      [|reflexivity].
    destruct (updateUserStripeInfo _ _ _ _ _ _). discriminate.
  - intros T. rewrite T.
    destruct (User.stripeSubscriptionId me) as [id|]; [|reflexivity].
    now destruct (Subscribe.retrieve stripe id).
  - intros customer price subscription u T M -> P C S E.
    apply String.eqb_neq in M, P.
    assert (TM : Js.truthyStr (User.email me) = true)
      by (unfold Js.truthyStr; now rewrite M).
    assert (TP : Js.truthyOptStr (Some price) = true)
      by (unfold Js.truthyOptStr, Js.truthyStr; now rewrite P).
    rewrite T, TM, TP, C, S. cbn [negb].
    rewrite (updateUserStripeInfo_run url now _ W). cbn [fst snd].
    assert (St : forall s', store (withStore w s') = s') by now destruct w.
    assert (L : Table.lookup (User.id me)
                  (Store.users
                     (Store.withUsers (store w)
                        (Table.modify (User.id me)
                           (fun u0 => User.withStripeInfo u0 customer
                                        (Subscribe.subscriptionId subscription))
                           (Store.users (store w)))))
                = Some (User.withStripeInfo u customer
                          (Subscribe.subscriptionId subscription))).
    { store_simpl. rewrite (lookup_modify (H := Keyed_User)) by reflexivity.
      now rewrite E. }
    split; [reflexivity|]. rewrite St. split; [exact L|].
    split.
    { intros k D. store_simpl.
      apply (lookup_modify_other (H := Keyed_User)); [reflexivity|exact D]. }
    split; [reflexivity|]. split; [reflexivity|].
    split; [now destruct w|].
    intros later api apiKey image data K A.
    rewrite identify_run by (rewrite St; now apply wf_users).
    rewrite St, L. unfold exhausted.
    cbn [User.withStripeInfo User.subscriptionType String.eqb Ascii.eqb Bool.eqb
         andb].
    now rewrite K, A.
Qed.

(** On the sample payments: Hugo, on the free plan with nothing left,
    asks for a subscription and has a leaf identified before he pays. *)
Lemma subscribing_makes_premium_before_any_payment_witness :
  wf (store SamplePayments.world)
  /\ fst (identify (storageFor true) 2000 Sample.apiUp (Some "key")
            SamplePayments.hugo (Some "leaf") SamplePayments.world)
     = respond 403 (JUpgrade upgradeMessage)
  /\ fst (identify (storageFor true) 2000 Sample.apiUp (Some "key")
            SamplePayments.hugo (Some "leaf")
            (snd (Subscribe.route (storageFor true) 1000 SamplePayments.stripe
                    (Some "price_1") SamplePayments.hugo SamplePayments.world)))
     = respond 200 (JIdentification "{suggestions}").
Proof.
  pose proof (subscribing_makes_premium_before_any_payment
                true 1000 SamplePayments.stripe (Some "price_1")
                SamplePayments.hugo SamplePayments.world eq_refl) as T.
  cbv zeta in T. destruct T as (_ & _ & Ok).
  destruct (Ok "cus_2" "price_1"
              {| Subscribe.subscriptionId := "sub_2";
                 Subscribe.clientSecret := Some "seti_2" |}
              SamplePayments.hugo eq_refl) as (_ & _ & _ & _ & _ & _ & I);
    [discriminate|reflexivity|discriminate|reflexivity|reflexivity|reflexivity|].
  split; [reflexivity|]. split; [reflexivity|].
  now rewrite (I 2000 Sample.apiUp (Some "key") "leaf" "{suggestions}" eq_refl
                 eq_refl).
Defined.

(** ** Community shares *)

Lemma likeCommunity_run url now id c :
  wfc c ->
  CommunityRoutes.likeCommunity (communityFor url) now id c =
  match Table.lookup id (Community.shares c) with
  | None => (CommunityRoutes.Message 404 "Community share not found", c)
  | Some a =>
      (CommunityRoutes.Share 200 (likeOnce url a),
       Community.mk (Table.modify id (likeOnce url) (Community.shares c))
         (Community.communityShareId c))
  end.
Proof.
  intros W. unfold CommunityRoutes.likeCommunity.
  destruct url; cbn [communityFor likeCommunityShare databaseCommunity memCommunity
                     likeOnce].
  - unfold DatabaseCommunity.likeCommunityShare.
    pose proof (update_written (H := Keyed_CommunityShare) id
                  CommunityShare.incremented (Community.shares c)) as Wr.
    pose proof (update_table (H := Keyed_CommunityShare) id
                  CommunityShare.incremented (Community.shares c)) as Tb.
    destruct (Sql.update _ _ _) as [written table]. cbn [fst snd] in Wr, Tb.
    rewrite Wr, Tb.
    destruct (Table.lookup id (Community.shares c)) as [a|] eqn:E;
      cbn [option_map]; [reflexivity|].
    rewrite (modify_absent _ _ _ E). now destruct c.
  - unfold MemCommunity.likeCommunityShare. rewrite get_lookup.
    destruct (Table.lookup id (Community.shares c)) as [a|] eqn:E; [|reflexivity].
    now rewrite (set_modify id CommunityShare.liked a _ (fresh_distinct _ _ W) E).
Qed.

Lemma wfc_modify c id f :
  wfc c -> (forall a, CommunityShare.id (f a) = CommunityShare.id a) ->
  wfc (Community.mk (Table.modify id f (Community.shares c))
         (Community.communityShareId c)).
Proof.
  unfold wfc. cbn [Community.shares Community.communityShareId]. intros W K.
  now rewrite (keys_modify (H := Keyed_CommunityShare) id f _ K).
Qed.

Lemma likeOnce_id url a : CommunityShare.id (likeOnce url a) = CommunityShare.id a.
Proof. now destruct url. Qed.

Lemma likeTimes_run url now n id c :
  wfc c ->
  Community.shares (CommunityRoutes.likeTimes (communityFor url) now n id c)
  = Table.modify id (fun a => Nat.iter n (likeOnce url) a) (Community.shares c).
Proof.
  revert c. induction n as [|n IH]; intros c W.
  - cbn. symmetry. now apply (modify_same (H := Keyed_CommunityShare)).
  - cbn [CommunityRoutes.likeTimes]. rewrite (likeCommunity_run url now id c W).
    destruct (Table.lookup id (Community.shares c)) as [a|] eqn:E; cbn [snd].
    + rewrite IH by (apply wfc_modify; [exact W|apply likeOnce_id]).
      cbn [Community.shares]. unfold Table.modify. rewrite map_map.
      apply map_ext. intros x. change (key x) with (CommunityShare.id x).
      destruct (CommunityShare.id x =? id) eqn:K.
      * change (key (likeOnce url x)) with (CommunityShare.id (likeOnce url x)).
        rewrite likeOnce_id, K. now rewrite Nat.iter_succ_r.
      * change (key x) with (CommunityShare.id x). now rewrite K.
    + rewrite IH by exact W.
      now rewrite !(modify_absent _ _ _ E).
Qed.

Lemma liked_times (url : bool) n a :
  CommunityShare.likes a = (if url then Some 0 else None) ->
  Nat.iter (S n) (likeOnce url) a = withLikes (Z.of_nat (S n)) a.
Proof.
  intros L. induction n as [|n IH].
  - destruct url, a; cbn in *; subst; reflexivity.
  - rewrite Nat.iter_succ, IH.
    destruct url; unfold likeOnce, CommunityShare.incremented, CommunityShare.liked,
      withLikes; cbn; do 2 f_equal; lia.
Qed.

Lemma iter_likeOnce_id url n a :
  CommunityShare.id (Nat.iter n (likeOnce url) a) = CommunityShare.id a.
Proof.
  induction n as [|n IH]; [reflexivity|].
  cbn [Nat.iter nat_rect]. now rewrite likeOnce_id.
Qed.

Lemma createCommunityShare_run url now i c :
  wfc c ->
  createCommunityShare (communityFor url) i now c =
  (let row :=
     if url
     then CommunityShare.withDefaults now
            (CommunityShare.ofInsert i (Community.communityShareId c))
     else CommunityShare.ofInsert i (Community.communityShareId c) in
   (row, Community.mk (Community.shares c ++ [row])
           (Community.communityShareId c + 1))).
Proof.
  intros W. destruct url; [reflexivity|].
  cbn [communityFor createCommunityShare memCommunity].
  unfold MemCommunity.createCommunityShare. cbv zeta.
  now rewrite (set_fresh _ _ _ (below_lookup _ _ (fresh_below _ _ W))).
Qed.





(** ** A trial the admin starts *)

Lemma trialOver_adminTrial now ends u :
  User.email u <> "" ->
  trialOver now (adminTrial ends u) = (ends <=? now).
Proof.
  intros M. apply String.eqb_neq in M.
  unfold trialOver, sweptDays, adminTrial, Js.truthyStr. cbn. rewrite M. cbn.
  unfold Sweep.daysRemaining.
  pose proof (ceilDiv_spec (ends - now) Js.msPerDay eq_refl) as S.
  assert (0 < Js.msPerDay) by reflexivity.
  destruct (Z.leb_spec (Js.ceilDiv (ends - now) Js.msPerDay) 0);
    destruct (Z.leb_spec ends now); try reflexivity; nia.
Qed.


